(** * Stock consistency and costing engine of the inventory API

    A shallow embedding of [app/api/routes/inventory.py] (with the table
    definitions of [app/models/inventory.py], the request schemas of
    [app/schemas/inventory.py] and the permissions of [app/api/deps.py]) and
    the properties of its stock arithmetic.

    Conventions of the embedding:
    - a Python [int] is a [Z];
    - a [decimal.Decimal] is its numeric value, a rational [Q]; Python compares
      Decimals by value, which is [Qeq] (written [==]).  Sums, differences and
      products are exact; a division by zero raises; [quantize] rounds with the
      default context rounding ROUND_HALF_EVEN.  The 28 significant digits of
      the default context are not modelled: quotients are kept exact until they
      are quantized;
    - an exception is a value of [exn]; code that can raise returns a [result];
    - a [str] is the list of its code points, [bytes] a list of bytes; an
      encoding step that can raise returns an [option];
    - a table is a finite map from the primary key to the row ([gmap Z]); the
      two tables that are only ever appended to are lists of rows;
    - an ORM object is the primary key of its row: attribute reads and writes
      go through the pending state of the session, so two names for one row
      alias as they do in Python;
    - a route works on a SQLAlchemy session: it reads and updates pending rows
      and makes them durable with [commit]; a session that is closed without a
      commit leaves the database as it was.  Row locks ([with_for_update]) have
      no effect on a single sequential session and are left out, as are
      timestamps and free-text notes that no decision depends on. *)

From Stdlib Require Import ZArith QArith Qround Qabs Lia Lqa Ascii String List.
From Stdlib.Strings Require Byte.
From stdpp Require Import base option list gmap pretty sorting.

Local Open Scope string_scope.
Local Open Scope Z_scope.

(** ** Exceptions and results *)

Inductive status : Set :=
| HTTP_400_BAD_REQUEST
| HTTP_403_FORBIDDEN
| HTTP_404_NOT_FOUND
| HTTP_409_CONFLICT.

Inductive exn : Set :=
| HTTPException (status_code : status) (detail : string)
| DivisionByZero
| IntegrityError
| ObjectDeletedError
| RequestValidationError.

Inductive result (A : Type) : Type :=
| Ok (a : A)
| Raise (e : exn).
Arguments Ok {A} a.
Arguments Raise {A} e.

#[global] Instance result_ret : MRet result := fun A a => Ok a.
#[global] Instance result_bind : MBind result := fun A B f r =>
  match r with
  | Ok a => f a
  | Raise e => Raise e
  end.

Definition is_Ok {A} (r : result A) : bool :=
  match r with Ok _ => true | Raise _ => false end.

(** The error kinds of the specification, read off the HTTP status. *)
Definition is_conflict (e : exn) : bool :=
  match e with HTTPException HTTP_409_CONFLICT _ => true | _ => false end.
Definition is_validation (e : exn) : bool :=
  match e with HTTPException HTTP_400_BAD_REQUEST _ => true | _ => false end.

(** ** Decimal arithmetic *)

Module Decimal.

(** [Decimal(n)] for an [int] [n]. *)
Definition of_int (n : Z) : Q := inject_Z n.

(** [x / y]: raises on a zero divisor. *)
Definition div (x y : Q) : result Q :=
  if Qeq_bool y 0 then Raise DivisionByZero else Ok (x / y)%Q.

(** Rounding to the nearest integer, ties to the even neighbour. *)
Definition round_half_even (x : Q) : Z :=
  let f := Qfloor x in
  match ((x - inject_Z f) ?= (1 # 2))%Q with
  | Lt => f
  | Gt => f + 1
  | Eq => if Z.even f then f else f + 1
  end.

(** [value.quantize(exp)] for [exp] a power of ten such as [Decimal("0.01")]. *)
Definition quantize (value exp : Q) : Q :=
  (inject_Z (round_half_even (value / exp)) * exp)%Q.

End Decimal.

(** ** Tables ([app/models/inventory.py]) *)

Module Stock.
Record t : Type := mk {
  shop_id : Z;
  product_id : Z;
  quantity_on_hand : Z;
  buying_price : Q;
  selling_price : Q;
}.

Definition set_quantity_on_hand (q : Z) (s : t) : t :=
  mk (shop_id s) (product_id s) q (buying_price s) (selling_price s).
Definition set_buying_price (p : Q) (s : t) : t :=
  mk (shop_id s) (product_id s) (quantity_on_hand s) p (selling_price s).
Definition set_selling_price (p : Q) (s : t) : t :=
  mk (shop_id s) (product_id s) (quantity_on_hand s) (buying_price s) p.
End Stock.


Module Shop.
Record t : Type := mk {
  code : string;
  name : string;
  is_active : bool;
}.
End Shop.

Module Product.
Record t : Type := mk {
  shop_id : Z;
  sku : string;
  name : string;
  unit : string;
  description : option string;
  is_active : bool;
}.
End Product.

Module Supplier.
Record t : Type := mk {
  shop_id : Z;
  name : string;
  is_active : bool;
}.
End Supplier.

Module Purchase.
Record t : Type := mk {
  shop_id : Z;
  product_id : Z;
  supplier_id : option Z;
  invoice_number : option string;
  purchased_by_user_id : option Z;
  unit : string;
  quantity : Z;
  unit_buying_price : Q;
  unit_selling_price : Q;
  total_cost : Q;
}.
End Purchase.

Module Sale.
Record t : Type := mk {
  shop_id : Z;
  product_id : Z;
  sold_by_user_id : option Z;
  quantity : Z;
  unit_buying_price : Q;
  unit_selling_price : Q;
  revenue : Q;
  cost : Q;
  profit : Q;
}.
End Sale.

Module SaleReturn.
Record t : Type := mk {
  sale_id : Z;
  shop_id : Z;
  product_id : Z;
  processed_by_user_id : option Z;
  quantity : Z;
  unit_buying_price : Q;
  unit_selling_price : Q;
  refund_amount : Q;
  cost_reversed : Q;
  profit_reversed : Q;
  restocked : bool;
}.
End SaleReturn.

Module StockAdjustment.
Record t : Type := mk {
  stock_id : Z;
  shop_id : Z;
  product_id : Z;
  adjusted_by_user_id : option Z;
  quantity_before : Z;
  quantity_after : Z;
  quantity_delta : Z;
}.
End StockAdjustment.

Module StockTransfer.
Record t : Type := mk {
  product_id : Z;
  from_shop_id : Z;
  to_shop_id : Z;
  transferred_by_user_id : option Z;
  quantity : Z;
  unit_buying_price : Q;
  unit_selling_price : Q;
  note : option string;
}.
End StockTransfer.

(** [app/models/user.py], the columns the routes read. *)
Inductive UserRole : Set := SYSTEM_OWNER | BUSINESS_OWNER | EMPLOYEE.

Module User.
Record t : Type := mk {
  id : Z;
  shop_id : Z;
  is_global_access : bool;
  role : UserRole;
}.
End User.

(** ** The database *)

Module DB.
Record t : Type := mk {
  shops : gmap Z Shop.t;
  products : gmap Z Product.t;
  suppliers : gmap Z Supplier.t;
  stocks : gmap Z Stock.t;
  purchases : gmap Z Purchase.t;
  sales : gmap Z Sale.t;
  sale_returns : list SaleReturn.t;
  stock_transfers : gmap Z StockTransfer.t;
  stock_adjustments : list StockAdjustment.t;
}.

Definition set_products (x : gmap Z Product.t) (d : t) : t :=
  mk (shops d) x (suppliers d) (stocks d) (purchases d) (sales d)
     (sale_returns d) (stock_transfers d) (stock_adjustments d).
Definition set_stocks (x : gmap Z Stock.t) (d : t) : t :=
  mk (shops d) (products d) (suppliers d) x (purchases d) (sales d)
     (sale_returns d) (stock_transfers d) (stock_adjustments d).
Definition set_purchases (x : gmap Z Purchase.t) (d : t) : t :=
  mk (shops d) (products d) (suppliers d) (stocks d) x (sales d)
     (sale_returns d) (stock_transfers d) (stock_adjustments d).
Definition set_sales (x : gmap Z Sale.t) (d : t) : t :=
  mk (shops d) (products d) (suppliers d) (stocks d) (purchases d) x
     (sale_returns d) (stock_transfers d) (stock_adjustments d).
Definition set_sale_returns (x : list SaleReturn.t) (d : t) : t :=
  mk (shops d) (products d) (suppliers d) (stocks d) (purchases d) (sales d)
     x (stock_transfers d) (stock_adjustments d).
Definition set_stock_transfers (x : gmap Z StockTransfer.t) (d : t) : t :=
  mk (shops d) (products d) (suppliers d) (stocks d) (purchases d) (sales d)
     (sale_returns d) x (stock_adjustments d).
Definition set_stock_adjustments (x : list StockAdjustment.t) (d : t) : t :=
  mk (shops d) (products d) (suppliers d) (stocks d) (purchases d) (sales d)
     (sale_returns d) (stock_transfers d) x.
End DB.

(** The next value of a table's primary-key sequence. *)
Definition fresh_id {A} (table : gmap Z A) : Z :=
  1 + map_fold (fun k _ acc => Z.max k acc) 0 table.

(** [select(T).where(...)] followed by [db.scalar]: a row that satisfies the
    condition, if there is one. *)
Definition select_first {A} (cond : A -> bool) (table : gmap Z A) : option Z :=
  fst <$> List.find (fun kv => cond (snd kv)) (map_to_list table).

(** The unique index [ix_purchases_shop_invoice_number] (migration 0013): no two
    purchases of one shop carry the same non-null invoice number. *)
Definition invoice_clash (p q : Purchase.t) : bool :=
  (Purchase.shop_id p =? Purchase.shop_id q) &&
  match Purchase.invoice_number p, Purchase.invoice_number q with
  | Some a, Some b => String.eqb a b
  | _, _ => false
  end.

Definition integrity (d : DB.t) : bool :=
  let rows := map_to_list (DB.purchases d) in
  forallb (fun r1 =>
    forallb (fun r2 => (fst r1 =? fst r2) || negb (invoice_clash (snd r1) (snd r2)))
      rows) rows.

(** ** Sessions *)

Record Session : Type := mkSession {
  committed : DB.t;
  pending : DB.t;
}.

Definition Tx (A : Type) : Type := Session -> result A * Session.

#[global] Instance Tx_ret : MRet Tx := fun A a s => (Ok a, s).
#[global] Instance Tx_bind : MBind Tx := fun A B f m s =>
  match m s with
  | (Ok a, s') => f a s'
  | (Raise e, s') => (Raise e, s')
  end.

Definition raise {A} (e : exn) : Tx A := fun s => (Raise e, s).
Definition lift {A} (r : result A) : Tx A := fun s => (r, s).
Definition query {A} (f : DB.t -> A) : Tx A := fun s => (Ok (f (pending s)), s).
Definition update (f : DB.t -> DB.t) : Tx unit :=
  fun s => (Ok tt, mkSession (committed s) (f (pending s))).

(** [db.commit()]: the pending rows become durable unless a constraint of the
    database refuses them. *)
Definition commit : Tx unit := fun s =>
  if integrity (pending s) then (Ok tt, mkSession (pending s) (pending s))
  else (Raise IntegrityError, s).

(** [db.rollback()] *)
Definition rollback : Tx unit :=
  fun s => (Ok tt, mkSession (committed s) (committed s)).

(** [try: body except ...: handler] *)
Definition try_except {A} (body : Tx A) (handler : exn -> Tx A) : Tx A := fun s =>
  match body s with
  | (Raise e, s') => handler e s'
  | r => r
  end.

(** [if cond: raise e] and [if not x: raise e] for a row [x] *)
Definition raise_if (cond : bool) (e : exn) : Tx unit :=
  if cond then raise e else mret tt.
Definition or_raise {A} (x : option A) (e : exn) : Tx A :=
  match x with
  | Some a => mret a
  | None => raise e
  end.

(** One request: [get_db] opens a session on the database, the route runs, and
    the session is closed; what was not committed is lost. *)
Definition request {A} (route : Tx A) (db : DB.t) : result A * DB.t :=
  let '(r, s) := route (mkSession db db) in (r, committed s).

(** Reading the attributes of a Stock object, and writing them back. *)
Definition get_stock (stock : Z) : Tx Stock.t := fun s =>
  match DB.stocks (pending s) !! stock with
  | Some row => (Ok row, s)
  | None => (Raise ObjectDeletedError, s)
  end.

Definition put_stock (stock : Z) (row : Stock.t) : Tx unit :=
  update (fun db => DB.set_stocks (<[stock := row]> (DB.stocks db)) db).

(** [db.add(Stock(...))]; the key is the one the flush assigns. *)
Definition add_stock (row : Stock.t) : Tx Z := fun s =>
  let k := fresh_id (DB.stocks (pending s)) in
  (Ok k, mkSession (committed s)
           (DB.set_stocks (<[k := row]> (DB.stocks (pending s))) (pending s))).

Definition select_stock (shop_id product_id : Z) : Tx (option Z) :=
  query (fun db =>
    select_first (fun row => (Stock.shop_id row =? shop_id) &&
                             (Stock.product_id row =? product_id))
      (DB.stocks db)).

(** ** Request schemas ([app/schemas/inventory.py]) *)

Definition is_none {A} (x : option A) : bool :=
  match x with None => true | Some _ => false end.
Definition gt0 (x : Q) : bool := negb (Qle_bool x 0).
Definition opt_gt0 (x : option Q) : bool :=
  match x with Some v => gt0 v | None => true end.
Definition opt_pos (x : option Z) : bool :=
  match x with Some v => 0 <? v | None => true end.

Module PurchaseCreate.
Record t : Type := mk {
  shop_id : Z;
  product_id : Z;
  supplier_id : option Z;
  invoice_number : option string;
  quantity : Z;
  unit_buying_price : Q;
  unit_selling_price : option Q;
}.
Definition valid (p : t) : bool :=
  (0 <? quantity p) && gt0 (unit_buying_price p) && opt_gt0 (unit_selling_price p).
End PurchaseCreate.

Module PurchaseUpdate.
Record t : Type := mk {
  supplier_id : option Z;
  invoice_number : option string;
  quantity : option Z;
  unit_buying_price : option Q;
  unit_selling_price : option Q;
}.
Definition valid (p : t) : bool :=
  opt_pos (quantity p) && opt_gt0 (unit_buying_price p) && opt_gt0 (unit_selling_price p).
End PurchaseUpdate.

Module StockUpsertRequest.
Record t : Type := mk {
  shop_id : Z;
  product_id : Z;
  quantity_on_hand : Z;
  buying_price : Q;
  selling_price : Q;
}.
Definition valid (p : t) : bool :=
  (0 <=? quantity_on_hand p) && gt0 (buying_price p) && gt0 (selling_price p).
End StockUpsertRequest.

Module StockAdjustRequest.
Record t : Type := mk {
  quantity_delta : Z;
  buying_price : option Q;
  selling_price : option Q;
}.
Definition valid (p : t) : bool :=
  opt_gt0 (buying_price p) && opt_gt0 (selling_price p).
End StockAdjustRequest.

Module SaleCreateRequest.
Record t : Type := mk {
  shop_id : Z;
  product_id : Z;
  quantity : Z;
  unit_selling_price : option Q;
}.
Definition valid (p : t) : bool :=
  (0 <? quantity p) && opt_gt0 (unit_selling_price p).
End SaleCreateRequest.

Module SaleReturnCreateRequest.
Record t : Type := mk {
  quantity : Z;
  restock : bool;
}.
Definition valid (p : t) : bool := 0 <? quantity p.
End SaleReturnCreateRequest.

Module TransferStockRequest.
Record t : Type := mk {
  product_id : Z;
  from_shop_id : Z;
  to_shop_id : Z;
  quantity : Z;
  note : option string;
}.
Definition valid (p : t) : bool := 0 <? quantity p.
End TransferStockRequest.

Module TransferStockUpdate.
Record t : Type := mk {
  product_id : option Z;
  from_shop_id : option Z;
  to_shop_id : option Z;
  quantity : option Z;
  note : option string;
}.
Definition valid (p : t) : bool := opt_pos (quantity p).
End TransferStockUpdate.

(** ** Text helpers *)

(** The characters [str.strip()] removes. *)
Definition is_space (c : ascii) : bool :=
  let n := Z.of_nat (nat_of_ascii c) in
  ((9 <=? n) && (n <=? 13)) || ((28 <=? n) && (n <=? 32)) || (n =? 133) || (n =? 160).

Fixpoint lstrip (s : string) : string :=
  match s with
  | String c rest => if is_space c then lstrip rest else s
  | EmptyString => EmptyString
  end.

Definition strip (s : string) : string :=
  String.rev (lstrip (String.rev (lstrip s))).

(** [x.strip() if x else fallback] *)
Definition strip_or (x : option string) (fallback : option string) : option string :=
  match x with
  | Some (String c rest) => Some (strip (String c rest))
  | _ => fallback
  end.

(** ** Weighted-average helpers *)

Definition _quantize_price (value : Q) : Q := Decimal.quantize value (1 # 100).

Definition _remove_purchase_effect (stock : Stock.t) (qty : Z) (buy sell : Q)
  : result Stock.t :=
  let current_qty := Stock.quantity_on_hand stock in
  if current_qty <? qty then
    Raise (HTTPException HTTP_409_CONFLICT
             "Cannot modify purchase because purchased stock has already been consumed")
  else
    let new_qty := current_qty - qty in
    if new_qty =? 0 then Ok (Stock.set_quantity_on_hand 0 stock)
    else
      let current_buy := Stock.buying_price stock in
      let current_sell := Stock.selling_price stock in
      new_buy ← Decimal.div
        (current_buy * Decimal.of_int current_qty - buy * Decimal.of_int qty)%Q
        (Decimal.of_int new_qty);
      new_sell ← Decimal.div
        (current_sell * Decimal.of_int current_qty - sell * Decimal.of_int qty)%Q
        (Decimal.of_int new_qty);
      Ok (Stock.set_selling_price (_quantize_price new_sell)
            (Stock.set_buying_price (_quantize_price new_buy)
               (Stock.set_quantity_on_hand new_qty stock))).

Definition _apply_purchase_effect (stock : Stock.t) (qty : Z) (buy sell : Q)
  : result Stock.t :=
  let current_qty := Stock.quantity_on_hand stock in
  if current_qty =? 0 then
    Ok (Stock.set_selling_price (_quantize_price sell)
          (Stock.set_buying_price (_quantize_price buy)
             (Stock.set_quantity_on_hand qty stock)))
  else
    let new_qty := current_qty + qty in
    let current_buy := Stock.buying_price stock in
    let current_sell := Stock.selling_price stock in
    weighted_buy ← Decimal.div
      (current_buy * Decimal.of_int current_qty + buy * Decimal.of_int qty)%Q
      (Decimal.of_int new_qty);
    weighted_sell ← Decimal.div
      (current_sell * Decimal.of_int current_qty + sell * Decimal.of_int qty)%Q
      (Decimal.of_int new_qty);
    Ok (Stock.set_selling_price (_quantize_price weighted_sell)
          (Stock.set_buying_price (_quantize_price weighted_buy)
             (Stock.set_quantity_on_hand new_qty stock))).

(** ** Shop scope *)

Definition _is_system_owner (current_user : User.t) : bool :=
  match User.role current_user with SYSTEM_OWNER => true | _ => false end
  || User.is_global_access current_user.

(** Returns the key of the user's shop ([assigned_shop.id]). *)
Definition _get_assigned_shop (current_user : User.t) : Tx Z :=
  shop ← query (fun db => DB.shops db !! User.shop_id current_user);
  _ ← or_raise shop
        (HTTPException HTTP_403_FORBIDDEN "Assigned shop not found for current user");
  mret (User.shop_id current_user).

Definition _enforce_shop_scope (request_shop_id assigned_shop_id : Z) : Tx unit :=
  raise_if (negb (request_shop_id =? assigned_shop_id))
    (HTTPException HTTP_403_FORBIDDEN "Cross-shop access is not allowed").

(** The guard that opens most routes. *)
Definition check_scope (current_user : User.t) (shop_id : Z) : Tx unit :=
  if negb (_is_system_owner current_user) then
    assigned_shop ← _get_assigned_shop current_user;
    _enforce_shop_scope shop_id assigned_shop
  else mret tt.

(** [if supplier_id is not None: ...] of the purchase routes. *)
Definition check_supplier (supplier_id : option Z) (shop_id : Z) (where_ : string)
  : Tx unit :=
  match supplier_id with
  | Some k =>
      supplier ← query (fun db => DB.suppliers db !! k);
      supplier ← or_raise supplier
        (HTTPException HTTP_404_NOT_FOUND "Supplier not found");
      raise_if (negb (Supplier.shop_id supplier =? shop_id))
        (HTTPException HTTP_400_BAD_REQUEST where_);;
      raise_if (negb (Supplier.is_active supplier))
        (HTTPException HTTP_400_BAD_REQUEST "Supplier is inactive")
  | None => mret tt
  end.

(** [try: db.commit() except IntegrityError: db.rollback(); raise 409] *)
Definition commit_or_conflict : Tx unit :=
  try_except commit (fun exc =>
    match exc with
    | IntegrityError =>
        rollback;;
        raise (HTTPException HTTP_409_CONFLICT
                 "Invoice number already exists for this shop")
    | _ => raise exc
    end).

(** ** Purchases *)

Definition create_purchase (payload : PurchaseCreate.t) (current_user : User.t)
  : Tx (Z * Purchase.t) :=
  check_scope current_user (PurchaseCreate.shop_id payload);;
  shop ← query (fun db => DB.shops db !! PurchaseCreate.shop_id payload);
  shop ← or_raise shop (HTTPException HTTP_404_NOT_FOUND "Shop not found");
  raise_if (negb (Shop.is_active shop))
    (HTTPException HTTP_400_BAD_REQUEST "Cannot record purchase for inactive shop");;
  product ← query (fun db => DB.products db !! PurchaseCreate.product_id payload);
  product ← or_raise product (HTTPException HTTP_404_NOT_FOUND "Product not found");
  raise_if (negb (Product.shop_id product =? PurchaseCreate.shop_id payload))
    (HTTPException HTTP_400_BAD_REQUEST "Product does not belong to target shop");;
  raise_if (negb (Product.is_active product))
    (HTTPException HTTP_400_BAD_REQUEST "Cannot purchase inactive product");;
  let supplier_id := PurchaseCreate.supplier_id payload in
  check_supplier supplier_id (PurchaseCreate.shop_id payload)
    "Supplier does not belong to target shop";;
  let invoice_number := strip_or (PurchaseCreate.invoice_number payload) None in
  stock ← select_stock (PurchaseCreate.shop_id payload)
            (PurchaseCreate.product_id payload);
  let buy := PurchaseCreate.unit_buying_price payload in
  sell ← match PurchaseCreate.unit_selling_price payload, stock with
         | Some price, _ => mret price
         | None, Some stock => row ← get_stock stock; mret (Stock.selling_price row)
         | None, None => mret buy
         end;
  stock ← match stock with
          | Some stock => mret stock
          | None =>
              add_stock (Stock.mk (PurchaseCreate.shop_id payload)
                           (PurchaseCreate.product_id payload) 0
                           (_quantize_price buy) (_quantize_price sell))
          end;
  row ← get_stock stock;
  row ← lift (_apply_purchase_effect row (PurchaseCreate.quantity payload) buy sell);
  put_stock stock row;;
  let purchase :=
    Purchase.mk (PurchaseCreate.shop_id payload) (PurchaseCreate.product_id payload)
      supplier_id invoice_number (Some (User.id current_user)) (Product.unit product)
      (PurchaseCreate.quantity payload) (_quantize_price buy) (_quantize_price sell)
      (_quantize_price (buy * Decimal.of_int (PurchaseCreate.quantity payload))) in
  purchase_id ← query (fun db => fresh_id (DB.purchases db));
  update (fun db => DB.set_purchases (<[purchase_id := purchase]> (DB.purchases db)) db);;
  commit_or_conflict;;
  mret (purchase_id, purchase).

Definition update_purchase (purchase_id : Z) (payload : PurchaseUpdate.t)
    (current_user : User.t) : Tx (Z * Purchase.t) :=
  purchase ← query (fun db => DB.purchases db !! purchase_id);
  purchase ← or_raise purchase (HTTPException HTTP_404_NOT_FOUND "Purchase not found");
  check_scope current_user (Purchase.shop_id purchase);;
  stock ← select_stock (Purchase.shop_id purchase) (Purchase.product_id purchase);
  stock ← or_raise stock
            (HTTPException HTTP_409_CONFLICT "Stock record missing for purchase");
  let supplier_id :=
    match PurchaseUpdate.supplier_id payload with
    | Some k => Some k
    | None => Purchase.supplier_id purchase
    end in
  let invoice_number :=
    strip_or (PurchaseUpdate.invoice_number payload) (Purchase.invoice_number purchase) in
  check_supplier supplier_id (Purchase.shop_id purchase)
    "Supplier does not belong to purchase shop";;
  let new_qty := default (Purchase.quantity purchase) (PurchaseUpdate.quantity payload) in
  let new_buy :=
    default (Purchase.unit_buying_price purchase) (PurchaseUpdate.unit_buying_price payload) in
  let new_sell :=
    default (Purchase.unit_selling_price purchase) (PurchaseUpdate.unit_selling_price payload) in
  row ← get_stock stock;
  row ← lift (_remove_purchase_effect row (Purchase.quantity purchase)
                (Purchase.unit_buying_price purchase)
                (Purchase.unit_selling_price purchase));
  put_stock stock row;;
  row ← lift (_apply_purchase_effect row new_qty new_buy new_sell);
  put_stock stock row;;
  let purchase :=
    Purchase.mk (Purchase.shop_id purchase) (Purchase.product_id purchase)
      supplier_id invoice_number (Some (User.id current_user)) (Purchase.unit purchase)
      new_qty (_quantize_price new_buy) (_quantize_price new_sell)
      (_quantize_price (new_buy * Decimal.of_int new_qty)) in
  update (fun db => DB.set_purchases (<[purchase_id := purchase]> (DB.purchases db)) db);;
  commit_or_conflict;;
  mret (purchase_id, purchase).

Definition delete_purchase (purchase_id : Z) (current_user : User.t)
  : Tx (Z * Purchase.t) :=
  purchase ← query (fun db => DB.purchases db !! purchase_id);
  purchase ← or_raise purchase (HTTPException HTTP_404_NOT_FOUND "Purchase not found");
  check_scope current_user (Purchase.shop_id purchase);;
  stock ← select_stock (Purchase.shop_id purchase) (Purchase.product_id purchase);
  stock ← or_raise stock
            (HTTPException HTTP_409_CONFLICT "Stock record missing for purchase");
  row ← get_stock stock;
  row ← lift (_remove_purchase_effect row (Purchase.quantity purchase)
                (Purchase.unit_buying_price purchase)
                (Purchase.unit_selling_price purchase));
  put_stock stock row;;
  update (fun db => DB.set_purchases (delete purchase_id (DB.purchases db)) db);;
  commit;;
  mret (purchase_id, purchase).

(** ** Stock rows *)

Definition upsert_stock (payload : StockUpsertRequest.t) (current_user : User.t)
  : Tx (Z * Stock.t) :=
  check_scope current_user (StockUpsertRequest.shop_id payload);;
  shop ← query (fun db => DB.shops db !! StockUpsertRequest.shop_id payload);
  product ← query (fun db => DB.products db !! StockUpsertRequest.product_id payload);
  shop ← or_raise shop (HTTPException HTTP_404_NOT_FOUND "Shop not found");
  product ← or_raise product (HTTPException HTTP_404_NOT_FOUND "Product not found");
  raise_if (negb (Shop.is_active shop))
    (HTTPException HTTP_400_BAD_REQUEST "Cannot manage stock for inactive shop");;
  raise_if (negb (Product.is_active product))
    (HTTPException HTTP_400_BAD_REQUEST "Cannot manage stock for inactive product");;
  raise_if (negb (Product.shop_id product =? StockUpsertRequest.shop_id payload))
    (HTTPException HTTP_400_BAD_REQUEST "Product does not belong to target shop");;
  stock ← select_stock (StockUpsertRequest.shop_id payload)
            (StockUpsertRequest.product_id payload);
  stock ← match stock with
          | None =>
              let row :=
                Stock.mk (StockUpsertRequest.shop_id payload)
                  (StockUpsertRequest.product_id payload)
                  (StockUpsertRequest.quantity_on_hand payload)
                  (StockUpsertRequest.buying_price payload)
                  (StockUpsertRequest.selling_price payload) in
              stock ← add_stock row;
              mret (stock, row)
          | Some stock =>
              row ← get_stock stock;
              let row :=
                Stock.set_selling_price (StockUpsertRequest.selling_price payload)
                  (Stock.set_buying_price (StockUpsertRequest.buying_price payload)
                     (Stock.set_quantity_on_hand
                        (StockUpsertRequest.quantity_on_hand payload) row)) in
              put_stock stock row;;
              mret (stock, row)
          end;
  commit;;
  mret stock.

(** [db.delete(stock)]; the adjustments of the row go with it (their foreign key
    is declared ON DELETE CASCADE). *)
Definition delete_stock (stock_id : Z) (current_user : User.t) : Tx (Z * Stock.t) :=
  stock ← query (fun db => DB.stocks db !! stock_id);
  stock ← or_raise stock (HTTPException HTTP_404_NOT_FOUND "Stock record not found");
  check_scope current_user (Stock.shop_id stock);;
  let result := (stock_id, stock) in
  update (fun db =>
    DB.set_stock_adjustments
      (List.filter (fun a => negb (StockAdjustment.stock_id a =? stock_id))
         (DB.stock_adjustments db))
      (DB.set_stocks (delete stock_id (DB.stocks db)) db));;
  commit;;
  mret result.

Definition adjust_stock (stock_id : Z) (payload : StockAdjustRequest.t)
    (current_user : User.t) : Tx (Z * Stock.t) :=
  stock ← query (fun db => DB.stocks db !! stock_id);
  stock ← or_raise stock (HTTPException HTTP_404_NOT_FOUND "Stock record not found");
  check_scope current_user (Stock.shop_id stock);;
  raise_if ((StockAdjustRequest.quantity_delta payload =? 0)
            && is_none (StockAdjustRequest.buying_price payload)
            && is_none (StockAdjustRequest.selling_price payload))
    (HTTPException HTTP_400_BAD_REQUEST "No adjustment provided");;
  let quantity_before := Stock.quantity_on_hand stock in
  let quantity_after := quantity_before + StockAdjustRequest.quantity_delta payload in
  raise_if (quantity_after <? 0)
    (HTTPException HTTP_400_BAD_REQUEST "Adjustment would make stock negative");;
  let stock := Stock.set_quantity_on_hand quantity_after stock in
  let stock :=
    match StockAdjustRequest.buying_price payload with
    | Some price => Stock.set_buying_price price stock
    | None => stock
    end in
  let stock :=
    match StockAdjustRequest.selling_price payload with
    | Some price => Stock.set_selling_price price stock
    | None => stock
    end in
  put_stock stock_id stock;;
  let adjustment :=
    StockAdjustment.mk stock_id (Stock.shop_id stock) (Stock.product_id stock)
      (Some (User.id current_user)) quantity_before quantity_after
      (StockAdjustRequest.quantity_delta payload) in
  update (fun db =>
    DB.set_stock_adjustments (DB.stock_adjustments db ++ [adjustment]) db);;
  commit;;
  mret (stock_id, stock).

(** ** Sales and returns *)

Definition create_sale (payload : SaleCreateRequest.t) (current_user : User.t)
  : Tx (Z * Sale.t) :=
  check_scope current_user (SaleCreateRequest.shop_id payload);;
  product ← query (fun db => DB.products db !! SaleCreateRequest.product_id payload);
  product ← or_raise product (HTTPException HTTP_404_NOT_FOUND "Product not found");
  raise_if (negb (Product.is_active product))
    (HTTPException HTTP_400_BAD_REQUEST "Cannot create sale for inactive product");;
  shop ← query (fun db => DB.shops db !! SaleCreateRequest.shop_id payload);
  shop ← or_raise shop (HTTPException HTTP_404_NOT_FOUND "Shop not found");
  raise_if (negb (Shop.is_active shop))
    (HTTPException HTTP_400_BAD_REQUEST "Cannot create sale for inactive shop");;
  raise_if (negb (Product.shop_id product =? SaleCreateRequest.shop_id payload))
    (HTTPException HTTP_400_BAD_REQUEST "Product does not belong to target shop");;
  stock ← select_stock (SaleCreateRequest.shop_id payload)
            (SaleCreateRequest.product_id payload);
  stock ← or_raise stock (HTTPException HTTP_404_NOT_FOUND "Stock record not found");
  row ← get_stock stock;
  raise_if (Stock.quantity_on_hand row <? SaleCreateRequest.quantity payload)
    (HTTPException HTTP_400_BAD_REQUEST "Insufficient stock quantity");;
  let unit_buying := Stock.buying_price row in
  let unit_selling :=
    match SaleCreateRequest.unit_selling_price payload with
    | Some price => if Qeq_bool price 0 then Stock.selling_price row else price
    | None => Stock.selling_price row
    end in
  let quantity := Decimal.of_int (SaleCreateRequest.quantity payload) in
  let revenue := (unit_selling * quantity)%Q in
  let cost := (unit_buying * quantity)%Q in
  let profit := (revenue - cost)%Q in
  let sale :=
    Sale.mk (SaleCreateRequest.shop_id payload) (SaleCreateRequest.product_id payload)
      (Some (User.id current_user)) (SaleCreateRequest.quantity payload)
      unit_buying unit_selling revenue cost profit in
  put_stock stock
    (Stock.set_quantity_on_hand
       (Stock.quantity_on_hand row - SaleCreateRequest.quantity payload) row);;
  sale_id ← query (fun db => fresh_id (DB.sales db));
  update (fun db => DB.set_sales (<[sale_id := sale]> (DB.sales db)) db);;
  commit;;
  mret (sale_id, sale).

(** [coalesce(sum(SaleReturn.quantity), 0)] over the returns of one sale. *)
Definition returned_quantity (sale_id : Z) (returns : list SaleReturn.t) : Z :=
  foldr Z.add 0
    (SaleReturn.quantity <$>
       List.filter (fun r => SaleReturn.sale_id r =? sale_id) returns).

Definition create_sale_return (sale_id : Z) (payload : SaleReturnCreateRequest.t)
    (current_user : User.t) : Tx SaleReturn.t :=
  sale ← query (fun db => DB.sales db !! sale_id);
  sale ← or_raise sale (HTTPException HTTP_404_NOT_FOUND "Sale not found");
  check_scope current_user (Sale.shop_id sale);;
  shop ← query (fun db => DB.shops db !! Sale.shop_id sale);
  shop ← or_raise shop (HTTPException HTTP_404_NOT_FOUND "Shop not found");
  raise_if (negb (Shop.is_active shop))
    (HTTPException HTTP_400_BAD_REQUEST "Cannot return sale for inactive shop");;
  product ← query (fun db => DB.products db !! Sale.product_id sale);
  _ ← or_raise product (HTTPException HTTP_404_NOT_FOUND "Product not found");
  already_returned ← query (fun db => returned_quantity sale_id (DB.sale_returns db));
  let remaining_qty := Sale.quantity sale - already_returned in
  raise_if (remaining_qty <=? 0)
    (HTTPException HTTP_400_BAD_REQUEST "Sale is already fully returned");;
  raise_if (remaining_qty <? SaleReturnCreateRequest.quantity payload)
    (HTTPException HTTP_400_BAD_REQUEST
       ("Return quantity exceeds remaining sale quantity ("
        +:+ pretty remaining_qty +:+ ")"));;
  let unit_buying := Sale.unit_buying_price sale in
  let unit_selling := Sale.unit_selling_price sale in
  let quantity := Decimal.of_int (SaleReturnCreateRequest.quantity payload) in
  let refund_amount := (unit_selling * quantity)%Q in
  let cost_reversed := (unit_buying * quantity)%Q in
  let profit_reversed := (refund_amount - cost_reversed)%Q in
  (if SaleReturnCreateRequest.restock payload then
     stock ← select_stock (Sale.shop_id sale) (Sale.product_id sale);
     match stock with
     | None =>
         _ ← add_stock (Stock.mk (Sale.shop_id sale) (Sale.product_id sale)
                          (SaleReturnCreateRequest.quantity payload)
                          unit_buying unit_selling);
         mret tt
     | Some stock =>
         row ← get_stock stock;
         put_stock stock
           (Stock.set_quantity_on_hand
              (Stock.quantity_on_hand row + SaleReturnCreateRequest.quantity payload) row)
     end
   else mret tt);;
  let sale_return :=
    SaleReturn.mk sale_id (Sale.shop_id sale) (Sale.product_id sale)
      (Some (User.id current_user)) (SaleReturnCreateRequest.quantity payload)
      unit_buying unit_selling refund_amount cost_reversed profit_reversed
      (SaleReturnCreateRequest.restock payload) in
  update (fun db => DB.set_sale_returns (DB.sale_returns db ++ [sale_return]) db);;
  commit;;
  mret sale_return.

(** ** Transfers *)

Definition select_product (shop_id : Z) (sku : string) : Tx (option Z) :=
  query (fun db =>
    select_first (fun row => (Product.shop_id row =? shop_id) &&
                             String.eqb (Product.sku row) sku)
      (DB.products db)).

(** The product of the destination shop with the SKU of [source_product],
    created when the shop has none. *)
Definition mirror_product (to_shop_id : Z) (source_product : Product.t) : Tx Z :=
  target_product ← select_product to_shop_id (Product.sku source_product);
  match target_product with
  | Some k => mret k
  | None =>
      k ← query (fun db => fresh_id (DB.products db));
      update (fun db =>
        DB.set_products
          (<[k := Product.mk to_shop_id (Product.sku source_product)
                    (Product.name source_product) (Product.unit source_product)
                    (Product.description source_product) true]> (DB.products db)) db);;
      mret k
  end.

(** The block that [transfer_stock] and [_apply_transfer_impact] share word for
    word, from the lookup of the source stock on: the source gives the quantity
    up, the destination row is created or blended.  Returns the prices of the
    source. *)
Definition move_stock (payload : TransferStockRequest.t) (target_product : Z)
  : Tx (Q * Q) :=
  source_stock ← select_stock (TransferStockRequest.from_shop_id payload)
                   (TransferStockRequest.product_id payload);
  source_stock ← or_raise source_stock
    (HTTPException HTTP_404_NOT_FOUND "Source stock record not found");
  source ← get_stock source_stock;
  raise_if (Stock.quantity_on_hand source <? TransferStockRequest.quantity payload)
    (HTTPException HTTP_400_BAD_REQUEST "Insufficient source stock quantity");;
  target_stock ← select_stock (TransferStockRequest.to_shop_id payload) target_product;
  let transfer_qty := TransferStockRequest.quantity payload in
  let source_buy := Stock.buying_price source in
  let source_sell := Stock.selling_price source in
  put_stock source_stock
    (Stock.set_quantity_on_hand (Stock.quantity_on_hand source - transfer_qty) source);;
  match target_stock with
  | None =>
      _ ← add_stock (Stock.mk (TransferStockRequest.to_shop_id payload) target_product
                       transfer_qty source_buy source_sell);
      mret tt
  | Some target_stock =>
      target ← get_stock target_stock;
      let prev_qty := Decimal.of_int (Stock.quantity_on_hand target) in
      let new_qty := Decimal.of_int (Stock.quantity_on_hand target + transfer_qty) in
      let target_buy := Stock.buying_price target in
      let target_sell := Stock.selling_price target in
      weighted_buy ← lift (Decimal.div
        (target_buy * prev_qty + source_buy * Decimal.of_int transfer_qty)%Q new_qty);
      weighted_sell ← lift (Decimal.div
        (target_sell * prev_qty + source_sell * Decimal.of_int transfer_qty)%Q new_qty);
      put_stock target_stock
        (Stock.set_selling_price (Decimal.quantize weighted_sell (1 # 100))
           (Stock.set_buying_price (Decimal.quantize weighted_buy (1 # 100))
              (Stock.set_quantity_on_hand
                 (Stock.quantity_on_hand target + transfer_qty) target)))
  end;;
  mret (source_buy, source_sell).

Definition _validate_transfer_scope (current_user : User.t) (from_shop_id to_shop_id : Z)
  : Tx unit :=
  if _is_system_owner current_user then mret tt
  else
    assigned_shop ← _get_assigned_shop current_user;
    raise_if (negb (from_shop_id =? assigned_shop) && negb (to_shop_id =? assigned_shop))
      (HTTPException HTTP_403_FORBIDDEN "Cross-shop access is not allowed");;
    raise_if (negb (from_shop_id =? assigned_shop))
      (HTTPException HTTP_403_FORBIDDEN "Transfers must originate from your shop").

Definition transfer_stock (payload : TransferStockRequest.t) (current_user : User.t)
  : Tx (Z * StockTransfer.t) :=
  _validate_transfer_scope current_user (TransferStockRequest.from_shop_id payload)
    (TransferStockRequest.to_shop_id payload);;
  raise_if (TransferStockRequest.from_shop_id payload
            =? TransferStockRequest.to_shop_id payload)
    (HTTPException HTTP_400_BAD_REQUEST "Source and destination shops must differ");;
  source_shop ← query (fun db => DB.shops db !! TransferStockRequest.from_shop_id payload);
  target_shop ← query (fun db => DB.shops db !! TransferStockRequest.to_shop_id payload);
  source_shop ← or_raise source_shop
    (HTTPException HTTP_404_NOT_FOUND "Source or destination shop not found");
  target_shop ← or_raise target_shop
    (HTTPException HTTP_404_NOT_FOUND "Source or destination shop not found");
  source_product ← query (fun db =>
    DB.products db !! TransferStockRequest.product_id payload);
  source_product ← or_raise source_product
    (HTTPException HTTP_404_NOT_FOUND "Product not found");
  raise_if (negb (Product.is_active source_product))
    (HTTPException HTTP_400_BAD_REQUEST "Cannot transfer inactive product");;
  raise_if (negb (Product.shop_id source_product
                  =? TransferStockRequest.from_shop_id payload))
    (HTTPException HTTP_400_BAD_REQUEST "Product does not belong to source shop");;
  raise_if (negb (Shop.is_active source_shop) || negb (Shop.is_active target_shop))
    (HTTPException HTTP_400_BAD_REQUEST "Cannot transfer stock involving inactive shop");;
  target_product ← mirror_product (TransferStockRequest.to_shop_id payload) source_product;
  '(source_buy, source_sell) ← move_stock payload target_product;
  let transfer :=
    StockTransfer.mk (TransferStockRequest.product_id payload)
      (TransferStockRequest.from_shop_id payload)
      (TransferStockRequest.to_shop_id payload) (Some (User.id current_user))
      (TransferStockRequest.quantity payload) source_buy source_sell
      (TransferStockRequest.note payload) in
  transfer_id ← query (fun db => fresh_id (DB.stock_transfers db));
  update (fun db =>
    DB.set_stock_transfers (<[transfer_id := transfer]> (DB.stock_transfers db)) db);;
  commit;;
  mret (transfer_id, transfer).

Definition _reverse_transfer_impact (transfer : StockTransfer.t) : Tx unit :=
  source_product ← query (fun db => DB.products db !! StockTransfer.product_id transfer);
  source_product ← or_raise source_product
    (HTTPException HTTP_409_CONFLICT "Transfer product no longer exists");
  target_product ← select_product (StockTransfer.to_shop_id transfer)
                     (Product.sku source_product);
  target_product ← or_raise target_product
    (HTTPException HTTP_409_CONFLICT "Destination product for transfer not found");
  source_stock ← select_stock (StockTransfer.from_shop_id transfer)
                   (StockTransfer.product_id transfer);
  source_stock ← or_raise source_stock
    (HTTPException HTTP_409_CONFLICT "Source stock record missing for transfer");
  target_stock ← select_stock (StockTransfer.to_shop_id transfer) target_product;
  target_stock ← or_raise target_stock
    (HTTPException HTTP_409_CONFLICT "Destination stock record missing for transfer");
  target ← get_stock target_stock;
  raise_if (Stock.quantity_on_hand target <? StockTransfer.quantity transfer)
    (HTTPException HTTP_409_CONFLICT
       "Cannot modify transfer because destination stock has already been consumed");;
  source ← get_stock source_stock;
  put_stock source_stock
    (Stock.set_quantity_on_hand
       (Stock.quantity_on_hand source + StockTransfer.quantity transfer) source);;
  target ← get_stock target_stock;
  let target_prev_qty := Decimal.of_int (Stock.quantity_on_hand target) in
  let remove_qty := Decimal.of_int (StockTransfer.quantity transfer) in
  let target_new_qty := (target_prev_qty - remove_qty)%Q in
  let target :=
    Stock.set_quantity_on_hand
      (Stock.quantity_on_hand target - StockTransfer.quantity transfer) target in
  put_stock target_stock target;;
  if gt0 target_new_qty then
    let current_buy := Stock.buying_price target in
    let current_sell := Stock.selling_price target in
    let transfer_buy := StockTransfer.unit_buying_price transfer in
    let transfer_sell := StockTransfer.unit_selling_price transfer in
    new_buy ← lift (Decimal.div
      (current_buy * target_prev_qty - transfer_buy * remove_qty)%Q target_new_qty);
    new_sell ← lift (Decimal.div
      (current_sell * target_prev_qty - transfer_sell * remove_qty)%Q target_new_qty);
    put_stock target_stock
      (Stock.set_selling_price (Decimal.quantize new_sell (1 # 100))
         (Stock.set_buying_price (Decimal.quantize new_buy (1 # 100)) target))
  else mret tt.

Definition _apply_transfer_impact (payload : TransferStockRequest.t) : Tx (Z * Q * Q) :=
  raise_if (TransferStockRequest.from_shop_id payload
            =? TransferStockRequest.to_shop_id payload)
    (HTTPException HTTP_400_BAD_REQUEST "Source and destination shops must differ");;
  source_shop ← query (fun db => DB.shops db !! TransferStockRequest.from_shop_id payload);
  target_shop ← query (fun db => DB.shops db !! TransferStockRequest.to_shop_id payload);
  source_shop ← or_raise source_shop
    (HTTPException HTTP_404_NOT_FOUND "Source or destination shop not found");
  target_shop ← or_raise target_shop
    (HTTPException HTTP_404_NOT_FOUND "Source or destination shop not found");
  raise_if (negb (Shop.is_active source_shop) || negb (Shop.is_active target_shop))
    (HTTPException HTTP_400_BAD_REQUEST "Cannot transfer stock involving inactive shop");;
  source_product ← query (fun db =>
    DB.products db !! TransferStockRequest.product_id payload);
  source_product ← or_raise source_product
    (HTTPException HTTP_404_NOT_FOUND "Product not found");
  raise_if (negb (Product.is_active source_product))
    (HTTPException HTTP_400_BAD_REQUEST "Cannot transfer inactive product");;
  raise_if (negb (Product.shop_id source_product
                  =? TransferStockRequest.from_shop_id payload))
    (HTTPException HTTP_400_BAD_REQUEST "Product does not belong to source shop");;
  target_product ← mirror_product (TransferStockRequest.to_shop_id payload) source_product;
  '(source_buy, source_sell) ← move_stock payload target_product;
  mret (TransferStockRequest.product_id payload, source_buy, source_sell).

(** [try: body except HTTPException: db.rollback(); raise] *)
Definition rollback_on_http {A} (body : Tx A) : Tx A :=
  try_except body (fun exc =>
    match exc with
    | HTTPException _ _ => rollback;; raise exc
    | _ => raise exc
    end).

Definition update_transfer (transfer_id : Z) (payload : TransferStockUpdate.t)
    (current_user : User.t) : Tx (Z * StockTransfer.t) :=
  transfer ← query (fun db => DB.stock_transfers db !! transfer_id);
  transfer ← or_raise transfer (HTTPException HTTP_404_NOT_FOUND "Transfer not found");
  let new_product_id :=
    default (StockTransfer.product_id transfer) (TransferStockUpdate.product_id payload) in
  let new_from_shop_id :=
    default (StockTransfer.from_shop_id transfer) (TransferStockUpdate.from_shop_id payload) in
  let new_to_shop_id :=
    default (StockTransfer.to_shop_id transfer) (TransferStockUpdate.to_shop_id payload) in
  let new_quantity :=
    default (StockTransfer.quantity transfer) (TransferStockUpdate.quantity payload) in
  let new_note :=
    match TransferStockUpdate.note payload with
    | Some text => Some text
    | None => StockTransfer.note transfer
    end in
  _validate_transfer_scope current_user new_from_shop_id new_to_shop_id;;
  if (new_product_id =? StockTransfer.product_id transfer)
     && (new_from_shop_id =? StockTransfer.from_shop_id transfer)
     && (new_to_shop_id =? StockTransfer.to_shop_id transfer)
     && (new_quantity =? StockTransfer.quantity transfer)
     && bool_decide (new_note = StockTransfer.note transfer)
  then mret (transfer_id, transfer)
  else
    rollback_on_http (
      _reverse_transfer_impact transfer;;
      '(applied_product_id, applied_buy, applied_sell) ←
        _apply_transfer_impact
          (TransferStockRequest.mk new_product_id new_from_shop_id new_to_shop_id
             new_quantity new_note);
      let transfer :=
        StockTransfer.mk applied_product_id new_from_shop_id new_to_shop_id
          (Some (User.id current_user)) new_quantity applied_buy applied_sell new_note in
      update (fun db =>
        DB.set_stock_transfers (<[transfer_id := transfer]> (DB.stock_transfers db)) db);;
      commit;;
      mret (transfer_id, transfer)).

Definition delete_transfer (transfer_id : Z) (current_user : User.t)
  : Tx (Z * StockTransfer.t) :=
  transfer ← query (fun db => DB.stock_transfers db !! transfer_id);
  transfer ← or_raise transfer (HTTPException HTTP_404_NOT_FOUND "Transfer not found");
  _validate_transfer_scope current_user (StockTransfer.from_shop_id transfer)
    (StockTransfer.to_shop_id transfer);;
  rollback_on_http (
    _reverse_transfer_impact transfer;;
    update (fun db =>
      DB.set_stock_transfers (delete transfer_id (DB.stock_transfers db)) db);;
    commit);;
  mret (transfer_id, transfer).

(** ** The API *)

Inductive Request : Type :=
| POST_purchases (payload : PurchaseCreate.t) (current_user : User.t)
| PATCH_purchases (purchase_id : Z) (payload : PurchaseUpdate.t) (current_user : User.t)
| DELETE_purchases (purchase_id : Z) (current_user : User.t)
| PUT_stocks (payload : StockUpsertRequest.t) (current_user : User.t)
| DELETE_stocks (stock_id : Z) (current_user : User.t)
| POST_stocks_adjust (stock_id : Z) (payload : StockAdjustRequest.t) (current_user : User.t)
| POST_sales (payload : SaleCreateRequest.t) (current_user : User.t)
| POST_sales_returns (sale_id : Z) (payload : SaleReturnCreateRequest.t)
    (current_user : User.t)
| POST_transfers (payload : TransferStockRequest.t) (current_user : User.t)
| PATCH_transfers (transfer_id : Z) (payload : TransferStockUpdate.t)
    (current_user : User.t)
| DELETE_transfers (transfer_id : Z) (current_user : User.t).

(** The body of a request is checked against its schema before the route runs. *)
Definition validated (r : Request) : bool :=
  match r with
  | POST_purchases payload _ => PurchaseCreate.valid payload
  | PATCH_purchases _ payload _ => PurchaseUpdate.valid payload
  | PUT_stocks payload _ => StockUpsertRequest.valid payload
  | POST_stocks_adjust _ payload _ => StockAdjustRequest.valid payload
  | POST_sales payload _ => SaleCreateRequest.valid payload
  | POST_sales_returns _ payload _ => SaleReturnCreateRequest.valid payload
  | POST_transfers payload _ => TransferStockRequest.valid payload
  | PATCH_transfers _ payload _ => TransferStockUpdate.valid payload
  | DELETE_purchases _ _ | DELETE_stocks _ _ | DELETE_transfers _ _ => true
  end.

(** What a client sees of a response: the error, if any. *)
Definition outcome {A} (r : result A * DB.t) : option exn * DB.t :=
  (match fst r with Ok _ => None | Raise e => Some e end, snd r).

Definition route (r : Request) (db : DB.t) : option exn * DB.t :=
  match r with
  | POST_purchases payload u => outcome (request (create_purchase payload u) db)
  | PATCH_purchases k payload u => outcome (request (update_purchase k payload u) db)
  | DELETE_purchases k u => outcome (request (delete_purchase k u) db)
  | PUT_stocks payload u => outcome (request (upsert_stock payload u) db)
  | DELETE_stocks k u => outcome (request (delete_stock k u) db)
  | POST_stocks_adjust k payload u => outcome (request (adjust_stock k payload u) db)
  | POST_sales payload u => outcome (request (create_sale payload u) db)
  | POST_sales_returns k payload u =>
      outcome (request (create_sale_return k payload u) db)
  | POST_transfers payload u => outcome (request (transfer_stock payload u) db)
  | PATCH_transfers k payload u => outcome (request (update_transfer k payload u) db)
  | DELETE_transfers k u => outcome (request (delete_transfer k u) db)
  end.

Definition serve (r : Request) (db : DB.t) : option exn * DB.t :=
  if validated r then route r db else (Some RequestValidationError, db).

(** The database after a sequence of requests, oldest first. *)
Definition serve_all (rs : list Request) (db : DB.t) : DB.t :=
  foldl (fun d r => snd (serve r d)) db rs.

(** ** Vocabulary of the statements *)

(** The blended price of [old_qty] units at [old_price] and [qty] units at
    [price], before any rounding. *)
Definition weighted_average (old_price : Q) (old_qty : Z) (price : Q) (qty : Z) : Q :=
  ((old_price * inject_Z old_qty + price * inject_Z qty) / inject_Z (old_qty + qty))%Q.

(** An amount with at most two decimals: quantizing it changes nothing. *)
Definition two_decimals (x : Q) : Prop := (_quantize_price x == x)%Q.

(** What [move_stock] does to the stocks table when it succeeds: the source row
    gives [qty] units up; the destination row is created with the prices of the
    source, or its prices are blended with them. *)
Definition moved (payload : TransferStockRequest.t) (target_product : Z)
    (stocks0 stocks2 : gmap Z Stock.t) (source_buy source_sell : Q) : Prop :=
  let qty := TransferStockRequest.quantity payload in
  exists source row,
    select_first
      (fun row => (Stock.shop_id row =? TransferStockRequest.from_shop_id payload) &&
                  (Stock.product_id row =? TransferStockRequest.product_id payload))
      stocks0 = Some source /\
    stocks0 !! source = Some row /\
    qty <= Stock.quantity_on_hand row /\
    source_buy = Stock.buying_price row /\
    source_sell = Stock.selling_price row /\
    let stocks1 :=
      <[source := Stock.set_quantity_on_hand (Stock.quantity_on_hand row - qty) row]>
        stocks0 in
    match select_first
            (fun row => (Stock.shop_id row =? TransferStockRequest.to_shop_id payload) &&
                        (Stock.product_id row =? target_product))
            stocks0 with
    | None =>
        stocks2
        = <[fresh_id stocks1 :=
              Stock.mk (TransferStockRequest.to_shop_id payload) target_product qty
                source_buy source_sell]> stocks1
    | Some target =>
        exists target_row,
          stocks1 !! target = Some target_row /\
          Stock.quantity_on_hand target_row + qty <> 0 /\
          stocks2
          = <[target :=
                Stock.mk (Stock.shop_id target_row) (Stock.product_id target_row)
                  (Stock.quantity_on_hand target_row + qty)
                  (_quantize_price
                     (weighted_average (Stock.buying_price target_row)
                        (Stock.quantity_on_hand target_row) source_buy qty))
                  (_quantize_price
                     (weighted_average (Stock.selling_price target_row)
                        (Stock.quantity_on_hand target_row) source_sell qty))]> stocks1
    end.

(** What [_reverse_transfer_impact] does to the stocks table when it succeeds:
    the source row takes the quantity back, then the destination row gives it
    up, with its prices recomputed unless it is drained. *)
Definition reversed (transfer : StockTransfer.t) (target_product : Z)
    (stocks0 stocks2 : gmap Z Stock.t) : Prop :=
  let qty := StockTransfer.quantity transfer in
  exists source target source_row checked_row target_row,
    select_first
      (fun row => (Stock.shop_id row =? StockTransfer.from_shop_id transfer) &&
                  (Stock.product_id row =? StockTransfer.product_id transfer))
      stocks0 = Some source /\
    select_first
      (fun row => (Stock.shop_id row =? StockTransfer.to_shop_id transfer) &&
                  (Stock.product_id row =? target_product))
      stocks0 = Some target /\
    stocks0 !! source = Some source_row /\
    stocks0 !! target = Some checked_row /\
    qty <= Stock.quantity_on_hand checked_row /\
    let stocks1 :=
      <[source := Stock.set_quantity_on_hand (Stock.quantity_on_hand source_row + qty)
                    source_row]> stocks0 in
    stocks1 !! target = Some target_row /\
    stocks2
    = <[target :=
          if gt0 (inject_Z (Stock.quantity_on_hand target_row) - inject_Z qty) then
            Stock.mk (Stock.shop_id target_row) (Stock.product_id target_row)
              (Stock.quantity_on_hand target_row - qty)
              (_quantize_price
                 ((Stock.buying_price target_row
                   * inject_Z (Stock.quantity_on_hand target_row)
                   - StockTransfer.unit_buying_price transfer * inject_Z qty)
                  / (inject_Z (Stock.quantity_on_hand target_row) - inject_Z qty)))
              (_quantize_price
                 ((Stock.selling_price target_row
                   * inject_Z (Stock.quantity_on_hand target_row)
                   - StockTransfer.unit_selling_price transfer * inject_Z qty)
                  / (inject_Z (Stock.quantity_on_hand target_row) - inject_Z qty)))
          else
            Stock.set_quantity_on_hand (Stock.quantity_on_hand target_row - qty)
              target_row]> stocks1.

(** A computation that makes nothing durable, and one that makes nothing
    durable when it raises. *)
Definition no_commit {A} (m : Tx A) : Prop :=
  forall s r s', m s = (r, s') -> committed s' = committed s.

Definition atomic {A} (m : Tx A) : Prop :=
  forall s e s', m s = (Raise e, s') -> committed s' = committed s.

(** A database whose stock quantities are not negative and whose purchases and
    transfers record positive quantities, as the schemas of the requests that
    create them demand. *)
Definition stocks_nonneg (stocks : gmap Z Stock.t) : Prop :=
  map_Forall (fun _ row => 0 <= Stock.quantity_on_hand row) stocks.

Definition db_ok (db : DB.t) : Prop :=
  stocks_nonneg (DB.stocks db) /\
  map_Forall (fun _ purchase => 0 < Purchase.quantity purchase) (DB.purchases db) /\
  map_Forall (fun _ transfer => 0 < StockTransfer.quantity transfer)
    (DB.stock_transfers db).

(** A computation that leaves a part [f] of the database alone. *)
Definition keeps {T A} (f : DB.t -> T) (m : Tx A) : Prop :=
  forall s r s',
    m s = (r, s') ->
    f (pending s) = f (committed s) ->
    f (pending s') = f (pending s) /\ f (committed s') = f (committed s).

(** The sales and what was returned of them. *)
Definition sales_ledger (db : DB.t) : gmap Z Sale.t * list SaleReturn.t :=
  (DB.sales db, DB.sale_returns db).

(** No sale has more returned than was sold, and every return belongs to a
    sale. *)
Definition returns_ok (db : DB.t) : Prop :=
  (forall k sale,
     DB.sales db !! k = Some sale ->
     returned_quantity k (DB.sale_returns db) <= Sale.quantity sale) /\
  (forall r, In r (DB.sale_returns db) -> is_Some (DB.sales db !! SaleReturn.sale_id r)).

(** The user may act on the shop: what [check_scope] lets through. *)
Definition in_scope (current_user : User.t) (shop_id : Z) (db : DB.t) : bool :=
  _is_system_owner current_user
  || (bool_decide (is_Some (DB.shops db !! User.shop_id current_user))
      && (shop_id =? User.shop_id current_user)).

(** The supplier, if one is named, exists, belongs to the shop and is active:
    what [check_supplier] lets through. *)
Definition supplier_ok (supplier_id : option Z) (shop_id : Z) (db : DB.t) : bool :=
  match supplier_id with
  | None => true
  | Some k =>
      match DB.suppliers db !! k with
      | Some supplier => (Supplier.shop_id supplier =? shop_id) && Supplier.is_active supplier
      | None => false
      end
  end.






(** The shop exists and is active. *)
Definition shop_open (shop_id : Z) (db : DB.t) : Prop :=
  exists shop, DB.shops db !! shop_id = Some shop /\ Shop.is_active shop = true.

(** The product exists, is active and is a product of the shop. *)
Definition product_on_sale (shop_id product_id : Z) (db : DB.t) : Prop :=
  exists product,
    DB.products db !! product_id = Some product /\
    Product.is_active product = true /\
    Product.shop_id product = shop_id.

(** No two purchases of one shop carry the same invoice number. *)
Definition invoices_unique (db : DB.t) : Prop :=
  forall k1 k2 p1 p2 number,
    DB.purchases db !! k1 = Some p1 ->
    DB.purchases db !! k2 = Some p2 ->
    k1 <> k2 ->
    Purchase.shop_id p1 = Purchase.shop_id p2 ->
    Purchase.invoice_number p1 = Some number ->
    Purchase.invoice_number p2 <> Some number.

(** A computation that makes durable only states that satisfy [P]. *)
Definition commits_only (P : DB.t -> Prop) {A} (m : Tx A) : Prop :=
  forall s r s', m s = (r, s') -> committed s' = committed s \/ P (committed s').

(** The sales ledger of [db'] extends that of [db]: every sale is still there,
    unchanged, and the returns of [db] are a prefix of the returns of [db']. *)
Definition ledger_grows (db db' : DB.t) : Prop :=
  (forall k sale, DB.sales db !! k = Some sale -> DB.sales db' !! k = Some sale) /\
  exists more, DB.sale_returns db' = (DB.sale_returns db ++ more)%list.

(** ** Permissions ([app/api/deps.py]) *)

Definition ROLE_PERMISSIONS (role : UserRole) : list string :=
  match role with
  | SYSTEM_OWNER =>
      [ "users:approve"; "users:reject"; "users:view_pending"; "sessions:revoke_any";
        "inventory:manage"; "inventory:view"; "inventory:sell" ]
  | BUSINESS_OWNER =>
      [ "sessions:revoke_self"; "inventory:manage"; "inventory:view"; "inventory:sell" ]
  | EMPLOYEE => [ "sessions:revoke_self"; "inventory:view"; "inventory:sell" ]
  end.

Definition require_system_owner (current_user : User.t) : result User.t :=
  match User.role current_user with
  | SYSTEM_OWNER => Ok current_user
  | _ => Raise (HTTPException HTTP_403_FORBIDDEN "System owner role required")
  end.

Definition require_permission (permission : string) (current_user : User.t)
  : result User.t :=
  let permissions := ROLE_PERMISSIONS (User.role current_user) in
  if negb (existsb (String.eqb permission) permissions) then
    Raise (HTTPException HTTP_403_FORBIDDEN ("Permission required: " +:+ permission))
  else Ok current_user.

(** The user of a request and the dependency its route declares. *)
Definition user_of (r : Request) : User.t :=
  match r with
  | POST_purchases _ u | PATCH_purchases _ _ u | DELETE_purchases _ u
  | PUT_stocks _ u | DELETE_stocks _ u | POST_stocks_adjust _ _ u
  | POST_sales _ u | POST_sales_returns _ _ u
  | POST_transfers _ u | PATCH_transfers _ _ u | DELETE_transfers _ u => u
  end.

Definition dependency (r : Request) : User.t -> result User.t :=
  match r with
  | POST_sales _ _ | POST_sales_returns _ _ _ => require_permission "inventory:sell"
  | _ => require_permission "inventory:manage"
  end.

(** A request as the application answers it: the dependency is resolved, then
    the body is validated and the route runs. *)
Definition endpoint (r : Request) (db : DB.t) : option exn * DB.t :=
  match dependency r (user_of r) with
  | Raise e => (Some e, db)
  | Ok _ => serve r db
  end.

(** What only a manager may change. *)
Definition managed (db : DB.t)
  : gmap Z Purchase.t * gmap Z StockTransfer.t * list StockAdjustment.t
    * gmap Z Product.t :=
  (DB.purchases db, DB.stock_transfers db, DB.stock_adjustments db, DB.products db).

(** ** Shops, products and suppliers: archive and activate *)

Definition set_shops (x : gmap Z Shop.t) (d : DB.t) : DB.t :=
  DB.mk x (DB.products d) (DB.suppliers d) (DB.stocks d) (DB.purchases d) (DB.sales d)
    (DB.sale_returns d) (DB.stock_transfers d) (DB.stock_adjustments d).
Definition set_suppliers (x : gmap Z Supplier.t) (d : DB.t) : DB.t :=
  DB.mk (DB.shops d) (DB.products d) x (DB.stocks d) (DB.purchases d) (DB.sales d)
    (DB.sale_returns d) (DB.stock_transfers d) (DB.stock_adjustments d).

Definition shop_set_is_active (b : bool) (shop : Shop.t) : Shop.t :=
  Shop.mk (Shop.code shop) (Shop.name shop) b.
Definition product_set_is_active (b : bool) (product : Product.t) : Product.t :=
  Product.mk (Product.shop_id product) (Product.sku product) (Product.name product)
    (Product.unit product) (Product.description product) b.
Definition supplier_set_is_active (b : bool) (supplier : Supplier.t) : Supplier.t :=
  Supplier.mk (Supplier.shop_id supplier) (Supplier.name supplier) b.

(** [archive_shop] and [activate_shop]; both depend on [require_system_owner]. *)
Definition archive_shop (shop_id : Z) : Tx (Z * Shop.t) :=
  shop ← query (fun db => DB.shops db !! shop_id);
  shop ← or_raise shop (HTTPException HTTP_404_NOT_FOUND "Shop not found");
  let shop := shop_set_is_active false shop in
  update (fun db => set_shops (<[shop_id := shop]> (DB.shops db)) db);;
  commit;;
  mret (shop_id, shop).

Definition activate_shop (shop_id : Z) : Tx (Z * Shop.t) :=
  shop ← query (fun db => DB.shops db !! shop_id);
  shop ← or_raise shop (HTTPException HTTP_404_NOT_FOUND "Shop not found");
  let shop := shop_set_is_active true shop in
  update (fun db => set_shops (<[shop_id := shop]> (DB.shops db)) db);;
  commit;;
  mret (shop_id, shop).

Definition archive_product (product_id : Z) (current_user : User.t)
  : Tx (Z * Product.t) :=
  product ← query (fun db => DB.products db !! product_id);
  product ← or_raise product (HTTPException HTTP_404_NOT_FOUND "Product not found");
  check_scope current_user (Product.shop_id product);;
  let product := product_set_is_active false product in
  update (fun db => DB.set_products (<[product_id := product]> (DB.products db)) db);;
  commit;;
  mret (product_id, product).

Definition activate_product (product_id : Z) (current_user : User.t)
  : Tx (Z * Product.t) :=
  product ← query (fun db => DB.products db !! product_id);
  product ← or_raise product (HTTPException HTTP_404_NOT_FOUND "Product not found");
  check_scope current_user (Product.shop_id product);;
  shop ← query (fun db => DB.shops db !! Product.shop_id product);
  shop ← or_raise shop (HTTPException HTTP_404_NOT_FOUND "Shop not found");
  raise_if (negb (Shop.is_active shop))
    (HTTPException HTTP_400_BAD_REQUEST "Cannot activate product in inactive shop");;
  let product := product_set_is_active true product in
  update (fun db => DB.set_products (<[product_id := product]> (DB.products db)) db);;
  commit;;
  mret (product_id, product).

Definition archive_supplier (supplier_id : Z) (current_user : User.t)
  : Tx (Z * Supplier.t) :=
  supplier ← query (fun db => DB.suppliers db !! supplier_id);
  supplier ← or_raise supplier (HTTPException HTTP_404_NOT_FOUND "Supplier not found");
  check_scope current_user (Supplier.shop_id supplier);;
  let supplier := supplier_set_is_active false supplier in
  update (fun db => set_suppliers (<[supplier_id := supplier]> (DB.suppliers db)) db);;
  commit;;
  mret (supplier_id, supplier).

Definition activate_supplier (supplier_id : Z) (current_user : User.t)
  : Tx (Z * Supplier.t) :=
  supplier ← query (fun db => DB.suppliers db !! supplier_id);
  supplier ← or_raise supplier (HTTPException HTTP_404_NOT_FOUND "Supplier not found");
  check_scope current_user (Supplier.shop_id supplier);;
  shop ← query (fun db => DB.shops db !! Supplier.shop_id supplier);
  raise_if (match shop with Some shop => negb (Shop.is_active shop) | None => true end)
    (HTTPException HTTP_400_BAD_REQUEST "Cannot activate supplier in inactive shop");;
  let supplier := supplier_set_is_active true supplier in
  update (fun db => set_suppliers (<[supplier_id := supplier]> (DB.suppliers db)) db);;
  commit;;
  mret (supplier_id, supplier).

(** ** Low-stock alerts *)

Module LowStockItemOut.
Record t : Type := mk {
  shop_id : Z;
  product_id : Z;
  quantity_on_hand : Z;
  threshold : Z;
}.
End LowStockItemOut.

(** [ORDER BY quantity_on_hand ASC] *)
Definition by_quantity (a b : Stock.t) : Prop :=
  Stock.quantity_on_hand a <= Stock.quantity_on_hand b.

#[global] Instance by_quantity_dec a b : Decision (by_quantity a b).
Proof. unfold by_quantity. apply _. Defined.

(** The rows are those with at most [threshold] units, of the shop asked for
    when the user sees all shops and of the user's own shop otherwise, in
    ascending order of quantity. *)
Definition low_stock_alerts (threshold : Z) (shop_id : option Z) (current_user : User.t)
  : Tx (list LowStockItemOut.t) :=
  shop_id ←
    (if _is_system_owner current_user then mret shop_id
     else
       assigned_shop ← _get_assigned_shop current_user;
       match shop_id with
       | Some k => _enforce_shop_scope k assigned_shop
       | None => mret tt
       end;;
       mret (Some assigned_shop));
  stocks ← query (fun db =>
    merge_sort by_quantity
      (List.filter
         (fun row =>
            (Stock.quantity_on_hand row <=? threshold)
            && match shop_id with
               | Some k => Stock.shop_id row =? k
               | None => true
               end)
         (snd <$> map_to_list (DB.stocks db))));
  mret ((fun stock =>
           LowStockItemOut.mk (Stock.shop_id stock) (Stock.product_id stock)
             (Stock.quantity_on_hand stock) threshold) <$> stocks).

(** The rows a user may see when asking for [shop_id]. *)
Definition visible (current_user : User.t) (shop_id : option Z) (row : Stock.t) : Prop :=
  if _is_system_owner current_user then
    match shop_id with Some k => Stock.shop_id row = k | None => True end
  else Stock.shop_id row = User.shop_id current_user.

(** The unique keys of the models: one stock row per shop and product
    ([uq_stocks_shop_product]), one product per shop and SKU
    ([uq_products_shop_sku]). *)
Definition unique_stocks (stocks : gmap Z Stock.t) : Prop :=
  forall k1 k2 r1 r2,
    stocks !! k1 = Some r1 -> stocks !! k2 = Some r2 ->
    Stock.shop_id r1 = Stock.shop_id r2 -> Stock.product_id r1 = Stock.product_id r2 ->
    k1 = k2.

Definition unique_products (products : gmap Z Product.t) : Prop :=
  forall k1 k2 p1 p2,
    products !! k1 = Some p1 -> products !! k2 = Some p2 ->
    Product.shop_id p1 = Product.shop_id p2 -> Product.sku p1 = Product.sku p2 ->
    k1 = k2.

(** What [mirror_product] does to the products: nothing when the destination
    shop has a product with the SKU, and else a new active product with the
    SKU, name, unit and description of the source product. *)
Definition mirrored (to_shop_id : Z) (source_product : Product.t)
    (products products' : gmap Z Product.t) (target_product : Z) : Prop :=
  match select_first
          (fun row => (Product.shop_id row =? to_shop_id) &&
                      String.eqb (Product.sku row) (Product.sku source_product))
          products with
  | Some k => target_product = k /\ products' = products
  | None =>
      target_product = fresh_id products /\
      products'
      = <[target_product :=
            Product.mk to_shop_id (Product.sku source_product)
              (Product.name source_product) (Product.unit source_product)
              (Product.description source_product) true]> products
  end.

(** The shops whose stock a request can change when its user has no access to
    all shops: the user's own, and the other shops of the transfer it makes,
    edits or deletes. *)
Definition reach (r : Request) (db : DB.t) : list Z :=
  let old_shops k :=
    match DB.stock_transfers db !! k with
    | Some transfer =>
        [StockTransfer.from_shop_id transfer; StockTransfer.to_shop_id transfer]
    | None => []
    end in
  User.shop_id (user_of r) ::
  match r with
  | POST_transfers payload _ => [TransferStockRequest.to_shop_id payload]
  | PATCH_transfers k payload _ =>
      from_option (fun shop => [shop]) [] (TransferStockUpdate.to_shop_id payload)
      ++ old_shops k
  | DELETE_transfers k _ => old_shops k
  | _ => []
  end.

(** The rows that differ between two states of the stocks are rows of the
    shops [shops], before and after. *)
Definition within (shops : list Z) (stocks stocks' : gmap Z Stock.t) : Prop :=
  forall k,
    stocks' !! k = stocks !! k \/
    ((forall row, stocks !! k = Some row -> In (Stock.shop_id row) shops) /\
     (forall row', stocks' !! k = Some row' -> In (Stock.shop_id row') shops)).

(** ** The books of a shop and a product *)

(** The sum of [f] over the rows of a table. *)
Definition total {A} (f : A -> Z) (table : gmap Z A) : Z :=
  map_fold (fun _ row acc => f row + acc) 0 table.

(** The quantity of a row, when the row is of the shop and the product. *)
Definition units {A} (shop product quantity : A -> Z) (shop_id product_id : Z) (row : A)
  : Z :=
  if (shop row =? shop_id) && (product row =? product_id) then quantity row else 0.

(** The units of the product the stock of the shop holds. *)
Definition on_hand (shop_id product_id : Z) (db : DB.t) : Z :=
  total (units Stock.shop_id Stock.product_id Stock.quantity_on_hand shop_id product_id)
    (DB.stocks db).

(** The units the ledgers account for: purchased, less sold, plus returned to
    stock, plus adjusted. *)
Definition booked (shop_id product_id : Z) (db : DB.t) : Z :=
  total (units Purchase.shop_id Purchase.product_id Purchase.quantity shop_id product_id)
    (DB.purchases db)
  - total (units Sale.shop_id Sale.product_id Sale.quantity shop_id product_id)
      (DB.sales db)
  + foldr Z.add 0
      (units SaleReturn.shop_id SaleReturn.product_id
         (fun r => if SaleReturn.restocked r then SaleReturn.quantity r else 0)
         shop_id product_id <$> DB.sale_returns db)
  + foldr Z.add 0
      (units StockAdjustment.shop_id StockAdjustment.product_id
         StockAdjustment.quantity_delta shop_id product_id <$> DB.stock_adjustments db).

(** The requests that write a ledger entry for the stock they move; the others
    write the stock directly ([PUT], [DELETE]) or move it between shops. *)
Definition bookkeeping (r : Request) : bool :=
  match r with
  | POST_purchases _ _ | PATCH_purchases _ _ _ | DELETE_purchases _ _
  | POST_stocks_adjust _ _ _ | POST_sales _ _ | POST_sales_returns _ _ _ => true
  | PUT_stocks _ _ | DELETE_stocks _ _
  | POST_transfers _ _ | PATCH_transfers _ _ _ | DELETE_transfers _ _ => false
  end.

(** ** The money of the returns *)

(** The sum of an amount [f] over the returns of a sale. *)
Definition reversed_total (f : SaleReturn.t -> Q) (sale_id : Z)
    (returns : list SaleReturn.t) : Q :=
  foldr Qplus 0%Q (f <$> List.filter (fun r => SaleReturn.sale_id r =? sale_id) returns).

(** The return is a return of a recorded sale, for the shop and the product of
    the sale and at its unit prices. *)
Definition priced_from_sale (db : DB.t) (ret : SaleReturn.t) : Prop :=
  exists sale,
    DB.sales db !! SaleReturn.sale_id ret = Some sale /\
    SaleReturn.shop_id ret = Sale.shop_id sale /\
    SaleReturn.product_id ret = Sale.product_id sale /\
    (SaleReturn.refund_amount ret
     == Sale.unit_selling_price sale * inject_Z (SaleReturn.quantity ret))%Q /\
    (SaleReturn.cost_reversed ret
     == Sale.unit_buying_price sale * inject_Z (SaleReturn.quantity ret))%Q /\
    (SaleReturn.profit_reversed ret
     == SaleReturn.refund_amount ret - SaleReturn.cost_reversed ret)%Q.

Definition returns_priced (db : DB.t) : Prop :=
  Forall (priced_from_sale db) (DB.sale_returns db).

(** ** The PDF export ([_simple_pdf]) *)

(** A Python [str] is the list of its code points; [bytes] and [bytearray]
    are lists of bytes. *)
Definition str : Type := list N.
Definition bytes : Type := list Byte.byte.

(** A text literal, a bytes literal ([b"..."]) and the character of a
    newline escape. *)
Definition lit (s : string) : str := N_of_ascii <$> list_ascii_of_string s.
Definition blit (s : string) : bytes := list_byte_of_string s.
Definition LF : N := 10.

(** [f"{n}"] for an [int]. *)
Definition str_of_int (n : Z) : str := lit (pretty n).

(** [f"{n:010d}"]: the sign, then zeros up to a width of ten, then the
    digits. *)
Definition format_010d (n : Z) : str :=
  let digits := lit (pretty (Z.abs n)) in
  let sign := if n <? 0 then lit "-" else [] in
  (sign ++ replicate (10 - length sign - length digits) (N_of_ascii "0") ++ digits)%list.

(** [text.replace(old, new)] for a pattern [old] of one character. *)
Definition replace (old : ascii) (new : str) (text : str) : str :=
  c ← text; if (c =? N_of_ascii old)%N then new else [c].

(** [sep.join(parts)]. *)
Definition join (sep : str) (parts : list str) : str :=
  match parts with
  | [] => []
  | part :: parts => (part ++ (p ← parts; sep ++ p))%list
  end.

(** [text.encode("latin-1", errors="replace")]: a character outside Latin-1
    becomes a question mark. *)
Definition encode_latin_1_replace (text : str) : bytes :=
  (fun c => default Byte.x3f (Byte.of_N c)) <$> text.

(** [text.encode("ascii")]: raises on a character outside ASCII. *)
Definition encode_ascii (text : str) : option bytes :=
  mapM (fun c => if (c <? 128)%N then Byte.of_N c else None) text.

Definition esc (text : str) : str :=
  replace ")" (lit "\)") (replace "(" (lit "\(") (replace "\" (lit "\\") text)).

(** The loop over [lines]: one text line each, until [y] falls below 60. *)
Fixpoint text_lines (y : Z) (lines : list str) : list str :=
  match lines with
  | [] => []
  | line :: lines =>
      (lit "0 " ++ str_of_int (y - 800) ++ lit " Td (" ++ esc line ++ lit ") Tj")%list
      :: (let y := y - 14 in if y <? 60 then [] else text_lines y lines)
  end.

(** The loop over the objects, numbered from [i]. *)
Fixpoint write_objects (i : Z) (objects : list bytes) (out : bytes)
    (xref_positions : list Z) : option (bytes * list Z) :=
  match objects with
  | [] => Some (out, xref_positions)
  | obj :: objects =>
      let xref_positions := (xref_positions ++ [Z.of_nat (length out)])%list in
      header ← encode_ascii (str_of_int i ++ lit " 0 obj" ++ [LF])%list;
      let out := (out ++ header)%list in
      let out := (out ++ obj)%list in
      let out := (out ++ Byte.x0a :: blit "endobj" ++ [Byte.x0a])%list in
      write_objects (i + 1) objects out xref_positions
  end.

(** The loop over the positions. *)
Fixpoint write_xref (positions : list Z) (out : bytes) : option bytes :=
  match positions with
  | [] => Some out
  | pos :: positions =>
      entry ← encode_ascii (format_010d pos ++ lit " 00000 n " ++ [LF])%list;
      write_xref positions (out ++ entry)%list
  end.

Definition _simple_pdf (lines : list str) : option bytes :=
  let content_lines :=
    ([lit "BT"; lit "/F1 10 Tf"; lit "50 800 Td"] ++ text_lines 780 lines
     ++ [lit "ET"])%list in
  let stream := encode_latin_1_replace (join [LF] content_lines) in
  length_line ←
    encode_ascii (lit "<< /Length " ++ str_of_int (Z.of_nat (length stream)) ++ lit " >>"
                  ++ [LF] ++ lit "stream" ++ [LF])%list;
  let objects :=
    [ blit "<< /Type /Catalog /Pages 2 0 R >>";
      blit "<< /Type /Pages /Kids [3 0 R] /Count 1 >>";
      blit "<< /Type /Page /Parent 2 0 R /MediaBox [0 0 595 842] /Contents 4 0 R /Resources << /Font << /F1 5 0 R >> >> >>";
      (length_line ++ stream ++ Byte.x0a :: blit "endstream")%list;
      blit "<< /Type /Font /Subtype /Type1 /BaseFont /Helvetica >>" ] in
  '(out, xref_positions) ←
    write_objects 1 objects (blit "%PDF-1.4" ++ [Byte.x0a])%list [0];
  let xref_start := Z.of_nat (length out) in
  head ←
    encode_ascii (lit "xref" ++ [LF] ++ lit "0 "
                  ++ str_of_int (Z.of_nat (length objects) + 1) ++ [LF])%list;
  let out := (out ++ head)%list in
  let out := (out ++ blit "0000000000 65535 f " ++ [Byte.x0a])%list in
  out ← write_xref (tail xref_positions) out;
  trailer ←
    encode_ascii (lit "trailer" ++ [LF] ++ lit "<< /Size "
                  ++ str_of_int (Z.of_nat (length objects) + 1)
                  ++ lit " /Root 1 0 R >>" ++ [LF] ++ lit "startxref" ++ [LF]
                  ++ str_of_int xref_start ++ [LF] ++ lit "%%EOF" ++ [LF])%list;
  Some (out ++ trailer)%list.

(** A text of ASCII characters. *)
Definition is_ascii (text : str) : Prop := Forall (fun c => (c < 128)%N) text.

(** The bytes [piece] are what [out] holds from offset [pos] on. *)
Definition at_offset (pos : Z) (piece out : bytes) : Prop :=
  exists before after,
    out = (before ++ piece ++ after)%list /\ Z.of_nat (length before) = pos.

(** The first line of object [i]. *)
Definition object_text (i : Z) : str := (str_of_int i ++ lit " 0 obj" ++ [LF])%list.

(** The cross-reference table of the objects at [positions], and the trailer
    that tells where the table starts. *)
Definition xref_text (positions : list Z) (xref_start : Z) : str :=
  (lit "xref" ++ [LF] ++ lit "0 6" ++ [LF]
   ++ lit "0000000000 65535 f " ++ [LF]
   ++ (pos ← positions; format_010d pos ++ lit " 00000 n " ++ [LF])
   ++ lit "trailer" ++ [LF] ++ lit "<< /Size 6 /Root 1 0 R >>" ++ [LF]
   ++ lit "startxref" ++ [LF] ++ str_of_int xref_start ++ [LF]
   ++ lit "%%EOF" ++ [LF])%list.

(** The text of the page. *)
Definition page_text (lines : list str) : str :=
  join [LF] ([lit "BT"; lit "/F1 10 Tf"; lit "50 800 Td"] ++ text_lines 780 lines
             ++ [lit "ET"])%list.

(** How a PDF reader reads the inside of a literal string written with
    backslash escapes: the character after a backslash stands for itself. *)
Fixpoint unesc (text : str) : str :=
  match text with
  | [] => []
  | c :: rest =>
      if (c =? N_of_ascii "\")%N then
        match rest with
        | [] => []
        | d :: rest => d :: unesc rest
        end
      else c :: unesc rest
  end.

(** ** A small database to run the routes on *)

Definition owner : User.t := User.mk 1 1 false SYSTEM_OWNER.

(** Two shops, a product of the first, and its stock: 100 units bought at 10.00
    and priced at 15.00. *)
Definition example_db : DB.t :=
  DB.mk (<[1 := Shop.mk "A" "Shop A" true]> (<[2 := Shop.mk "B" "Shop B" true]> ∅))
    (<[7 := Product.mk 1 "SKU-7" "Widget" "piece" None true]> ∅)
    ∅
    (<[1 := Stock.mk 1 7 100 10 15]> ∅)
    ∅ ∅ [] ∅ [].

(** * Properties *)

(** ** Rounding *)

Lemma round_half_even_comp x y :
  (x == y)%Q -> Decimal.round_half_even x = Decimal.round_half_even y.
Proof.
  intros E. unfold Decimal.round_half_even.
  rewrite (Qfloor_comp _ _ E).
  assert (H : ((x - inject_Z (Qfloor y)) ?= (1 # 2))%Q
              = ((y - inject_Z (Qfloor y)) ?= (1 # 2))%Q).
  { apply Qcompare_comp; [rewrite E|]; reflexivity. }
  rewrite H. reflexivity.
Qed.

#[global] Instance quantize_proper : Proper (Qeq ==> Qeq ==> Qeq) Decimal.quantize.
Proof.
  intros x y E e1 e2 E'. unfold Decimal.quantize.
  rewrite (round_half_even_comp (x / e1) (y / e2)), E'; [reflexivity|].
  rewrite E, E'. reflexivity.
Qed.

#[global] Instance _quantize_price_proper : Proper (Qeq ==> Qeq) _quantize_price.
Proof. intros x y E. unfold _quantize_price. rewrite E. reflexivity. Qed.









(** ** The purchase effect on one row *)

Lemma apply_purchase_effect_empty stock qty buy sell :
  Stock.quantity_on_hand stock = 0 ->
  _apply_purchase_effect stock qty buy sell
  = Ok (Stock.mk (Stock.shop_id stock) (Stock.product_id stock) qty
          (_quantize_price buy) (_quantize_price sell)).
Proof. intros H. unfold _apply_purchase_effect. rewrite H. reflexivity. Qed.


Lemma remove_purchase_effect_conflict stock qty buy sell :
  Stock.quantity_on_hand stock < qty ->
  _remove_purchase_effect stock qty buy sell
  = Raise (HTTPException HTTP_409_CONFLICT
             "Cannot modify purchase because purchased stock has already been consumed").
Proof.
  intros H. unfold _remove_purchase_effect.
  destruct (Z.ltb_spec (Stock.quantity_on_hand stock) qty); [reflexivity | lia].
Qed.











(** ** Running a session step by step *)

Section Inversion.
Context {A B : Type}.

Lemma bind_Ok (m : Tx A) (f : A -> Tx B) s v s' :
  (m ≫= f) s = (Ok v, s') -> exists a s1, m s = (Ok a, s1) /\ f a s1 = (Ok v, s').
Proof.
  unfold mbind, Tx_bind. destruct (m s) as [[a|e] s1]; [eauto | discriminate].
Qed.

Lemma bind_Raise (m : Tx A) (f : A -> Tx B) s e s' :
  (m ≫= f) s = (Raise e, s') ->
  m s = (Raise e, s') \/ exists a s1, m s = (Ok a, s1) /\ f a s1 = (Raise e, s').
Proof.
  unfold mbind, Tx_bind. destruct (m s) as [[a|e1] s1]; [eauto | intros [= -> ->]; eauto].
Qed.

Lemma bind_run_Ok (m : Tx A) (f : A -> Tx B) s a s1 :
  m s = (Ok a, s1) -> (m ≫= f) s = f a s1.
Proof. intros H. unfold mbind, Tx_bind. rewrite H. reflexivity. Qed.

Lemma bind_run_Raise (m : Tx A) (f : A -> Tx B) s e s1 :
  m s = (Raise e, s1) -> (m ≫= f) s = (Raise e, s1).
Proof. intros H. unfold mbind, Tx_bind. rewrite H. reflexivity. Qed.

Lemma mret_Ok (a v : A) s s' : (mret a : Tx A) s = (Ok v, s') -> v = a /\ s' = s.
Proof. intros [= -> ->]. auto. Qed.

Lemma query_Ok (f : DB.t -> A) s v s' :
  query f s = (Ok v, s') -> v = f (pending s) /\ s' = s.
Proof. intros [= <- <-]. auto. Qed.

Lemma or_raise_Ok (x : option A) e s v s' :
  or_raise x e s = (Ok v, s') -> x = Some v /\ s' = s.
Proof. destruct x; [intros [= -> ->]; auto | discriminate]. Qed.

Lemma lift_Ok (r : result A) s v s' : lift r s = (Ok v, s') -> r = Ok v /\ s' = s.
Proof. intros [= -> ->]. auto. Qed.

Lemma try_except_Ok (body : Tx A) handler s v s' :
  try_except body handler s = (Ok v, s') ->
  body s = (Ok v, s') \/ exists e s1, body s = (Raise e, s1) /\ handler e s1 = (Ok v, s').
Proof.
  unfold try_except. destruct (body s) as [[a|e] s1]; [auto | eauto].
Qed.

Lemma rollback_on_http_Ok (body : Tx A) s v s' :
  rollback_on_http body s = (Ok v, s') -> body s = (Ok v, s').
Proof.
  intros H. apply try_except_Ok in H as [H | (e & s1 & _ & H)]; [exact H|].
  destruct e; discriminate.
Qed.

End Inversion.

Lemma raise_if_Ok cond e s v s' : raise_if cond e s = (Ok v, s') -> cond = false /\ s' = s.
Proof. destruct cond; [discriminate | intros [= _ ->]; auto]. Qed.

Lemma update_Ok f s v s' :
  update f s = (Ok v, s') -> s' = mkSession (committed s) (f (pending s)).
Proof. intros [= _ <-]. reflexivity. Qed.

Lemma commit_Ok s v s' :
  commit s = (Ok v, s') -> integrity (pending s) = true /\ s' = mkSession (pending s) (pending s).
Proof.
  unfold commit. destruct (integrity (pending s)); [intros [= _ <-]; auto | discriminate].
Qed.

Lemma commit_or_conflict_Ok s v s' :
  commit_or_conflict s = (Ok v, s') ->
  integrity (pending s) = true /\ s' = mkSession (pending s) (pending s).
Proof.
  intros H. apply try_except_Ok in H as [H | (e & s1 & _ & H)].
  - eapply commit_Ok, H.
  - destruct e; discriminate.
Qed.

Lemma get_stock_Ok stock s row s' :
  get_stock stock s = (Ok row, s') -> DB.stocks (pending s) !! stock = Some row /\ s' = s.
Proof.
  unfold get_stock. destruct (DB.stocks (pending s) !! stock);
    [intros [= -> ->]; auto | discriminate].
Qed.

Lemma put_stock_Ok stock row s v s' :
  put_stock stock row s = (Ok v, s') ->
  s' = mkSession (committed s)
         (DB.set_stocks (<[stock := row]> (DB.stocks (pending s))) (pending s)).
Proof. intros [= _ <-]. reflexivity. Qed.

Lemma add_stock_Ok row s k s' :
  add_stock row s = (Ok k, s') ->
  k = fresh_id (DB.stocks (pending s)) /\
  s' = mkSession (committed s)
         (DB.set_stocks (<[k := row]> (DB.stocks (pending s))) (pending s)).
Proof. intros [= <- <-]. auto. Qed.

Lemma select_stock_Ok shop_id product_id s v s' :
  select_stock shop_id product_id s = (Ok v, s') ->
  v = select_first (fun row => (Stock.shop_id row =? shop_id) &&
                               (Stock.product_id row =? product_id))
        (DB.stocks (pending s)) /\ s' = s.
Proof. apply query_Ok. Qed.

Lemma select_product_Ok shop_id sku s v s' :
  select_product shop_id sku s = (Ok v, s') ->
  v = select_first (fun row => (Product.shop_id row =? shop_id) &&
                               String.eqb (Product.sku row) sku)
        (DB.products (pending s)) /\ s' = s.
Proof. apply query_Ok. Qed.

(** The guards read; they write nothing. *)
Lemma _get_assigned_shop_pure u s r s' : _get_assigned_shop u s = (r, s') -> s' = s.
Proof.
  unfold _get_assigned_shop, mbind, Tx_bind, query, or_raise.
  destruct (DB.shops (pending s) !! User.shop_id u); intros [= _ <-]; reflexivity.
Qed.

Lemma raise_if_pure cond e s r s' : raise_if cond e s = (r, s') -> s' = s.
Proof. destruct cond; intros [= _ <-]; reflexivity. Qed.

Lemma check_scope_pure u shop_id s r s' : check_scope u shop_id s = (r, s') -> s' = s.
Proof.
  unfold check_scope. destruct (negb (_is_system_owner u)); [|intros [= _ <-]; reflexivity].
  unfold mbind, Tx_bind.
  destruct (_get_assigned_shop u s) as [[a|e] s1] eqn:E;
    apply _get_assigned_shop_pure in E as ->.
  - apply raise_if_pure.
  - intros [= _ <-]; reflexivity.
Qed.

Lemma _validate_transfer_scope_pure u a b s r s' :
  _validate_transfer_scope u a b s = (r, s') -> s' = s.
Proof.
  unfold _validate_transfer_scope. destruct (_is_system_owner u); [intros [= _ <-]; reflexivity|].
  unfold mbind, Tx_bind.
  destruct (_get_assigned_shop u s) as [[k|e] s1] eqn:E;
    apply _get_assigned_shop_pure in E as ->; [|intros [= _ <-]; reflexivity].
  destruct (raise_if _ _ s) as [[[]|e] s1] eqn:E; apply raise_if_pure in E as ->;
    [apply raise_if_pure | intros [= _ <-]; reflexivity].
Qed.

Lemma check_supplier_pure supplier_id shop_id msg s r s' :
  check_supplier supplier_id shop_id msg s = (r, s') -> s' = s.
Proof.
  unfold check_supplier. destruct supplier_id as [k|]; [|intros [= _ <-]; reflexivity].
  unfold mbind, Tx_bind, query, or_raise.
  destruct (DB.suppliers (pending s) !! k) as [supplier|]; [|intros [= _ <-]; reflexivity].
  cbn [mret Tx_ret].
  destruct (raise_if _ _ s) as [[[]|e] s1] eqn:E; apply raise_if_pure in E as ->;
    [apply raise_if_pure | intros [= _ <-]; reflexivity].
Qed.

(** Inversion of a successful run, one step at a time. *)
Ltac tx_prim H :=
  first
    [ apply or_raise_Ok in H as [? ->]
    | apply raise_if_Ok in H as [? ->]
    | apply get_stock_Ok in H as [? ->]
    | apply put_stock_Ok in H as ->
    | apply add_stock_Ok in H as [-> ->]
    | apply select_stock_Ok in H as [-> ->]
    | apply select_product_Ok in H as [-> ->]
    | apply check_scope_pure in H as ->
    | apply check_supplier_pure in H as ->
    | apply _validate_transfer_scope_pure in H as ->
    | apply commit_or_conflict_Ok in H as [? ->]
    | apply commit_Ok in H as [? ->]
    | apply update_Ok in H as ->
    | apply query_Ok in H as [-> ->]
    | apply mret_Ok in H as [? ->]
    | apply lift_Ok in H as [? ->] ].

Ltac tx_bind H :=
  let a := fresh "a" in
  let s1 := fresh "s" in
  let H1 := fresh "Hstep" in
  apply bind_Ok in H as (a & s1 & H1 & H);
  cbv beta zeta in H;
  repeat match type of H with
  | context [let '(_, _) := ?p in _] => destruct p
  end;
  cbn [pending committed] in *;
  try (tx_prim H1; cbn [pending committed] in * ).

(** The guards that were passed, as propositions. *)
Ltac guards :=
  repeat match goal with
  | H : negb _ = false |- _ => apply negb_false_iff in H
  | H : negb _ = true |- _ => apply negb_true_iff in H
  | H : (_ && _) = true |- _ => apply andb_true_iff in H as [? ?]
  | H : (_ || _) = false |- _ => apply orb_false_iff in H as [? ?]
  | H : (_ <? _) = false |- _ => apply Z.ltb_ge in H
  | H : (_ <? _) = true |- _ => apply Z.ltb_lt in H
  | H : (_ <=? _) = false |- _ => apply Z.leb_gt in H
  | H : (_ <=? _) = true |- _ => apply Z.leb_le in H
  | H : (_ =? _) = true |- _ => apply Z.eqb_eq in H
  | H : (_ =? _) = false |- _ => apply Z.eqb_neq in H
  end.

Ltac tx_run H :=
  repeat (tx_bind H); try (tx_prim H; cbn [pending committed] in * );
  simplify_eq; guards.

(** ** What a successful request leaves behind *)

Lemma select_first_Some {A} (cond : A -> bool) (table : gmap Z A) k :
  select_first cond table = Some k ->
  exists row, table !! k = Some row /\ cond row = true.
Proof.
  unfold select_first. intros H.
  destruct (List.find _ (map_to_list table)) as [[k' row]|] eqn:E; [|discriminate].
  injection H as <-. apply find_some in E as [Hin Hc].
  exists row. split; [|exact Hc].
  apply elem_of_map_to_list, list_elem_of_In. exact Hin.
Qed.

Lemma select_stock_row shop_id product_id (table : gmap Z Stock.t) k :
  select_first (fun row => (Stock.shop_id row =? shop_id) &&
                           (Stock.product_id row =? product_id)) table = Some k ->
  exists row, table !! k = Some row /\
              Stock.shop_id row = shop_id /\ Stock.product_id row = product_id.
Proof.
  intros H. apply select_first_Some in H as (row & Hrow & Hc).
  apply andb_true_iff in Hc as [H1 H2].
  exists row. split; [exact Hrow|]. split; lia.
Qed.

Lemma request_Ok {A} (m : Tx A) db v db' :
  request m db = (Ok v, db') ->
  exists s', m (mkSession db db) = (Ok v, s') /\ db' = committed s'.
Proof.
  unfold request. destruct (m _) as [r s']. intros [= -> <-]. eauto.
Qed.

Lemma request_Raise {A} (m : Tx A) db e db' :
  request m db = (Raise e, db') ->
  exists s', m (mkSession db db) = (Raise e, s') /\ db' = committed s'.
Proof.
  unfold request. destruct (m _) as [r s']. intros [= -> <-]. eauto.
Qed.

Lemma create_sale_Ok payload u db sale_id sale db' :
  request (create_sale payload u) db = (Ok (sale_id, sale), db') ->
  exists stock row,
    select_first (fun row => (Stock.shop_id row =? SaleCreateRequest.shop_id payload) &&
                             (Stock.product_id row =? SaleCreateRequest.product_id payload))
      (DB.stocks db) = Some stock /\
    DB.stocks db !! stock = Some row /\
    SaleCreateRequest.quantity payload <= Stock.quantity_on_hand row /\
    sale_id = fresh_id (DB.sales db) /\
    Sale.quantity sale = SaleCreateRequest.quantity payload /\
    Sale.unit_buying_price sale = Stock.buying_price row /\
    Sale.unit_selling_price sale =
      match SaleCreateRequest.unit_selling_price payload with
      | Some price => if Qeq_bool price 0 then Stock.selling_price row else price
      | None => Stock.selling_price row
      end /\
    Sale.revenue sale
    = (Sale.unit_selling_price sale * inject_Z (SaleCreateRequest.quantity payload))%Q /\
    Sale.cost sale
    = (Stock.buying_price row * inject_Z (SaleCreateRequest.quantity payload))%Q /\
    Sale.profit sale = (Sale.revenue sale - Sale.cost sale)%Q /\
    db' = DB.set_sales (<[sale_id := sale]> (DB.sales db))
            (DB.set_stocks
               (<[stock := Stock.set_quantity_on_hand
                             (Stock.quantity_on_hand row
                              - SaleCreateRequest.quantity payload) row]>
                  (DB.stocks db)) db).
Proof.
  intros H. apply request_Ok in H as (s' & E & ->).
  unfold create_sale in E. tx_run E.
  match goal with H : integrity _ = true |- _ => clear H end.
  eexists _, _. repeat (split; [first [eassumption | reflexivity | lia]|]).
  reflexivity.
Qed.

Ltac db_simpl :=
  cbn [DB.shops DB.products DB.suppliers DB.stocks DB.purchases DB.sales
       DB.sale_returns DB.stock_transfers DB.stock_adjustments
       DB.set_products DB.set_stocks DB.set_purchases DB.set_sales
       DB.set_sale_returns DB.set_stock_transfers DB.set_stock_adjustments
       pending committed] in *.

Lemma create_sale_return_Ok sale_id payload u db ret db' :
  request (create_sale_return sale_id payload u) db = (Ok ret, db') ->
  exists sale,
    DB.sales db !! sale_id = Some sale /\
    SaleReturnCreateRequest.quantity payload
    <= Sale.quantity sale - returned_quantity sale_id (DB.sale_returns db) /\
    SaleReturn.sale_id ret = sale_id /\
    SaleReturn.quantity ret = SaleReturnCreateRequest.quantity payload /\
    DB.sales db' = DB.sales db /\
    DB.sale_returns db' = (DB.sale_returns db ++ [ret])%list /\
    DB.purchases db' = DB.purchases db /\
    DB.stock_transfers db' = DB.stock_transfers db /\
    if SaleReturnCreateRequest.restock payload then
      match select_first
              (fun row => (Stock.shop_id row =? Sale.shop_id sale) &&
                          (Stock.product_id row =? Sale.product_id sale))
              (DB.stocks db) with
      | None =>
          DB.stocks db'
          = <[fresh_id (DB.stocks db) :=
                Stock.mk (Sale.shop_id sale) (Sale.product_id sale)
                  (SaleReturnCreateRequest.quantity payload)
                  (Sale.unit_buying_price sale) (Sale.unit_selling_price sale)]>
              (DB.stocks db)
      | Some stock =>
          exists row,
            DB.stocks db !! stock = Some row /\
            DB.stocks db'
            = <[stock := Stock.set_quantity_on_hand
                           (Stock.quantity_on_hand row
                            + SaleReturnCreateRequest.quantity payload) row]>
                (DB.stocks db)
      end
    else DB.stocks db' = DB.stocks db.
Proof.
  intros H. apply request_Ok in H as (s' & E & ->).
  unfold create_sale_return in E. tx_run E.
  match goal with H : integrity _ = true |- _ => clear H end.
  match goal with H : (if _ then _ else _) _ = _ |- _ => rename H into Hre end.
  eexists. split; [eassumption|]. split; [lia|].
  destruct (SaleReturnCreateRequest.restock payload).
  - tx_run Hre.
    destruct (select_first _ (DB.stocks db)) as [stock|] eqn:Esel;
      tx_run Hre; db_simpl; do 6 (split; [reflexivity|]).
    + eexists. split; [eassumption|reflexivity].
    + reflexivity.
  - tx_run Hre. db_simpl. do 6 (split; [reflexivity|]). reflexivity.
Qed.

(** Two reads of one attribute give one value. *)
Ltac same_row :=
  repeat match goal with
  | H1 : ?m !! ?k = Some ?a, H2 : ?m !! ?k = Some ?b |- _ =>
      rewrite H1 in H2; injection H2 as <-
  | H : <[?k := ?a]> ?m !! ?k = Some ?b |- _ =>
      rewrite lookup_insert_eq in H; injection H as <-
  end.

Ltac tx_more :=
  repeat match goal with
  | H : _ _ = (Ok _, _) |- _ => progress (tx_run H)
  end;
  db_simpl; same_row.

Lemma create_purchase_Ok payload u db purchase_id purchase db' :
  request (create_purchase payload u) db = (Ok (purchase_id, purchase), db') ->
  let buy := PurchaseCreate.unit_buying_price payload in
  exists stock row sell row',
    match select_first
            (fun row => (Stock.shop_id row =? PurchaseCreate.shop_id payload) &&
                        (Stock.product_id row =? PurchaseCreate.product_id payload))
            (DB.stocks db) with
    | Some k =>
        stock = k /\ DB.stocks db !! k = Some row /\
        sell = default (Stock.selling_price row) (PurchaseCreate.unit_selling_price payload)
    | None =>
        stock = fresh_id (DB.stocks db) /\
        sell = default buy (PurchaseCreate.unit_selling_price payload) /\
        row = Stock.mk (PurchaseCreate.shop_id payload) (PurchaseCreate.product_id payload)
                0 (_quantize_price buy) (_quantize_price sell)
    end /\
    _apply_purchase_effect row (PurchaseCreate.quantity payload) buy sell = Ok row' /\
    Purchase.quantity purchase = PurchaseCreate.quantity payload /\
    Purchase.unit_buying_price purchase = _quantize_price buy /\
    Purchase.unit_selling_price purchase = _quantize_price sell /\
    purchase_id = fresh_id (DB.purchases db) /\
    DB.stocks db' = <[stock := row']> (DB.stocks db) /\
    DB.purchases db' = <[purchase_id := purchase]> (DB.purchases db) /\
    DB.stock_transfers db' = DB.stock_transfers db.
Proof.
  intros H buy. apply request_Ok in H as (s' & E & ->).
  unfold create_purchase in E. tx_run E.
  match goal with H : integrity _ = true |- _ => clear H end.
  destruct (select_first _ (DB.stocks db)) as [k|] eqn:Esel;
    destruct (PurchaseCreate.unit_selling_price payload) as [price|] eqn:Eprice;
    tx_more; eexists _, _, _, _.
  - split; [split; [reflexivity|split; [eassumption|reflexivity]]|].
    repeat (split; [first [eassumption | reflexivity]|]). reflexivity.
  - split; [split; [reflexivity|split; [eassumption|reflexivity]]|].
    repeat (split; [first [eassumption | reflexivity]|]). reflexivity.
  - split; [split; [reflexivity|split; reflexivity]|].
    repeat (split; [first [eassumption | reflexivity]|]).
    rewrite insert_insert_eq. repeat split.
  - split; [split; [reflexivity|split; reflexivity]|].
    repeat (split; [first [eassumption | reflexivity]|]).
    rewrite insert_insert_eq. repeat split.
Qed.

Lemma update_purchase_Ok purchase_id payload u db key purchase' db' :
  request (update_purchase purchase_id payload u) db = (Ok (key, purchase'), db') ->
  exists purchase stock row row1 row2,
    DB.purchases db !! purchase_id = Some purchase /\
    select_first (fun row => (Stock.shop_id row =? Purchase.shop_id purchase) &&
                             (Stock.product_id row =? Purchase.product_id purchase))
      (DB.stocks db) = Some stock /\
    DB.stocks db !! stock = Some row /\
    _remove_purchase_effect row (Purchase.quantity purchase)
      (Purchase.unit_buying_price purchase) (Purchase.unit_selling_price purchase)
    = Ok row1 /\
    _apply_purchase_effect row1
      (default (Purchase.quantity purchase) (PurchaseUpdate.quantity payload))
      (default (Purchase.unit_buying_price purchase)
         (PurchaseUpdate.unit_buying_price payload))
      (default (Purchase.unit_selling_price purchase)
         (PurchaseUpdate.unit_selling_price payload))
    = Ok row2 /\
    Purchase.quantity purchase'
    = default (Purchase.quantity purchase) (PurchaseUpdate.quantity payload) /\
    DB.stocks db' = <[stock := row2]> (DB.stocks db) /\
    DB.purchases db' = <[purchase_id := purchase']> (DB.purchases db) /\
    DB.stock_transfers db' = DB.stock_transfers db.
Proof.
  intros H. apply request_Ok in H as (s' & E & ->).
  unfold update_purchase in E. tx_run E.
  match goal with H : integrity _ = true |- _ => clear H end.
  db_simpl. eexists _, _, _, _, _.
  repeat (split; [first [eassumption | reflexivity]|]).
  rewrite insert_insert_eq. repeat split.
Qed.

Lemma delete_purchase_Ok purchase_id u db key purchase db' :
  request (delete_purchase purchase_id u) db = (Ok (key, purchase), db') ->
  exists stock row row1,
    DB.purchases db !! purchase_id = Some purchase /\
    select_first (fun row => (Stock.shop_id row =? Purchase.shop_id purchase) &&
                             (Stock.product_id row =? Purchase.product_id purchase))
      (DB.stocks db) = Some stock /\
    DB.stocks db !! stock = Some row /\
    _remove_purchase_effect row (Purchase.quantity purchase)
      (Purchase.unit_buying_price purchase) (Purchase.unit_selling_price purchase)
    = Ok row1 /\
    DB.stocks db' = <[stock := row1]> (DB.stocks db) /\
    DB.purchases db' = delete purchase_id (DB.purchases db) /\
    DB.stock_transfers db' = DB.stock_transfers db.
Proof.
  intros H. apply request_Ok in H as (s' & E & ->).
  unfold delete_purchase in E. tx_run E.
  match goal with H : integrity _ = true |- _ => clear H end.
  db_simpl. eexists _, _, _.
  repeat (split; [first [eassumption | reflexivity]|]). reflexivity.
Qed.

(** The row an adjustment writes. *)
Lemma adjust_stock_Ok stock_id payload u db key row' db' :
  request (adjust_stock stock_id payload u) db = (Ok (key, row'), db') ->
  exists row,
    DB.stocks db !! stock_id = Some row /\
    0 <= Stock.quantity_on_hand row + StockAdjustRequest.quantity_delta payload /\
    row' = Stock.mk (Stock.shop_id row) (Stock.product_id row)
             (Stock.quantity_on_hand row + StockAdjustRequest.quantity_delta payload)
             (default (Stock.buying_price row) (StockAdjustRequest.buying_price payload))
             (default (Stock.selling_price row) (StockAdjustRequest.selling_price payload)) /\
    DB.stocks db' = <[stock_id := row']> (DB.stocks db) /\
    DB.purchases db' = DB.purchases db /\
    DB.stock_transfers db' = DB.stock_transfers db.
Proof.
  intros H. apply request_Ok in H as (s' & E & ->).
  unfold adjust_stock in E. tx_run E.
  match goal with H : integrity _ = true |- _ => clear H end.
  db_simpl. eexists. split; [eassumption|]. split; [lia|].
  split; [|repeat split].
  destruct (StockAdjustRequest.buying_price payload),
    (StockAdjustRequest.selling_price payload); reflexivity.
Qed.

Lemma upsert_stock_Ok payload u db key row' db' :
  request (upsert_stock payload u) db = (Ok (key, row'), db') ->
  Stock.quantity_on_hand row' = StockUpsertRequest.quantity_on_hand payload /\
  Stock.buying_price row' = StockUpsertRequest.buying_price payload /\
  Stock.selling_price row' = StockUpsertRequest.selling_price payload /\
  match select_first
          (fun row => (Stock.shop_id row =? StockUpsertRequest.shop_id payload) &&
                      (Stock.product_id row =? StockUpsertRequest.product_id payload))
          (DB.stocks db) with
  | Some k => key = k /\ is_Some (DB.stocks db !! k)
  | None => key = fresh_id (DB.stocks db)
  end /\
  DB.stocks db' = <[key := row']> (DB.stocks db) /\
  DB.purchases db' = DB.purchases db /\
  DB.stock_transfers db' = DB.stock_transfers db.
Proof.
  intros H. apply request_Ok in H as (s' & E & ->).
  unfold upsert_stock in E. tx_run E.
  match goal with H : integrity _ = true |- _ => clear H end.
  destruct (select_first _ (DB.stocks db)) as [k|] eqn:Esel; tx_more;
    repeat split; eauto.
Qed.

Lemma delete_stock_Ok stock_id u db key row db' :
  request (delete_stock stock_id u) db = (Ok (key, row), db') ->
  key = stock_id /\
  DB.stocks db !! stock_id = Some row /\
  DB.stocks db' = delete stock_id (DB.stocks db) /\
  DB.purchases db' = DB.purchases db /\
  DB.stock_transfers db' = DB.stock_transfers db.
Proof.
  intros H. apply request_Ok in H as (s' & E & ->).
  unfold delete_stock in E. tx_run E.
  match goal with H : integrity _ = true |- _ => clear H end.
  db_simpl. repeat split. assumption.
Qed.

(** ** Transfers, step by step *)

Lemma Decimal_div_inv x y v :
  Decimal.div x y = Ok v -> ~ (y == 0)%Q /\ v = (x / y)%Q.
Proof.
  unfold Decimal.div. destruct (Qeq_bool y 0) eqn:E; [discriminate|].
  intros [= <-]. split; [|reflexivity].
  intros H. apply Qeq_bool_iff in H. congruence.
Qed.


Lemma DB_set_products_id d : DB.set_products (DB.products d) d = d.
Proof. destruct d. reflexivity. Qed.

Lemma DB_set_stocks_id d : DB.set_stocks (DB.stocks d) d = d.
Proof. destruct d. reflexivity. Qed.

Lemma mirror_product_Ok to_shop_id source_product s k s' :
  mirror_product to_shop_id source_product s = (Ok k, s') ->
  exists products', s' = mkSession (committed s) (DB.set_products products' (pending s)).
Proof.
  unfold mirror_product. intros E. tx_run E.
  destruct (select_first _ (DB.products (pending s))) as [k'|]; tx_more.
  - exists (DB.products (pending s)). rewrite DB_set_products_id. destruct s; reflexivity.
  - eexists. reflexivity.
Qed.

Lemma move_stock_Ok payload target_product s source_buy source_sell s' :
  move_stock payload target_product s = (Ok (source_buy, source_sell), s') ->
  exists stocks2,
    moved payload target_product (DB.stocks (pending s)) stocks2 source_buy source_sell /\
    s' = mkSession (committed s) (DB.set_stocks stocks2 (pending s)).
Proof.
  intros E. unfold move_stock in E. tx_run E.
  match goal with
  | H : (match ?x with _ => _ end) _ = _ |- _ => destruct x as [target|] eqn:Etarget
  end; tx_more.
  - repeat match goal with
    | H : Decimal.div _ _ = Ok _ |- _ => apply Decimal_div_inv in H as [? ->]
    end.
    eexists. split; [|reflexivity].
    unfold moved. eexists _, _.
    do 5 (split; [first [eassumption | reflexivity | lia]|]).
    cbv zeta. rewrite Etarget. eexists. split; [eassumption|].
    split; [|reflexivity].
    intros Hz. match goal with H : ~ (_ == 0)%Q |- _ => apply H end.
    rewrite Hz. reflexivity.
  - eexists. split; [|reflexivity].
    unfold moved. eexists _, _.
    do 5 (split; [first [eassumption | reflexivity | lia]|]).
    cbv zeta. rewrite Etarget. reflexivity.
Qed.

Lemma _reverse_transfer_impact_Ok transfer s v s' :
  _reverse_transfer_impact transfer s = (Ok v, s') ->
  exists source_product target_product stocks2,
    DB.products (pending s) !! StockTransfer.product_id transfer = Some source_product /\
    select_first
      (fun row => (Product.shop_id row =? StockTransfer.to_shop_id transfer) &&
                  String.eqb (Product.sku row) (Product.sku source_product))
      (DB.products (pending s)) = Some target_product /\
    reversed transfer target_product (DB.stocks (pending s)) stocks2 /\
    s' = mkSession (committed s) (DB.set_stocks stocks2 (pending s)).
Proof.
  intros E. unfold _reverse_transfer_impact in E. tx_run E.
  same_row.
  match goal with
  | H : (if ?c then _ else _) _ = _ |- _ => destruct c eqn:Egt
  end; tx_more; unfold Decimal.of_int in *.
  - repeat match goal with
    | H : Decimal.div _ _ = Ok _ |- _ => apply Decimal_div_inv in H as [? ->]
    end.
    eexists _, _, _. do 2 (split; [eassumption|]). split.
    + unfold reversed. eexists _, _, _, _, _.
      do 5 (split; [first [eassumption | reflexivity | lia]|]).
      cbv zeta. split; [eassumption|].
      rewrite Egt. reflexivity.
    + rewrite insert_insert_eq. reflexivity.
  - eexists _, _, _. do 2 (split; [eassumption|]). split.
    + unfold reversed. eexists _, _, _, _, _.
      do 5 (split; [first [eassumption | reflexivity | lia]|]).
      cbv zeta. split; [eassumption|].
      rewrite Egt. reflexivity.
    + reflexivity.
Qed.

Lemma transfer_stock_Ok payload u db transfer_id transfer db' :
  request (transfer_stock payload u) db = (Ok (transfer_id, transfer), db') ->
  TransferStockRequest.from_shop_id payload <> TransferStockRequest.to_shop_id payload /\
  StockTransfer.quantity transfer = TransferStockRequest.quantity payload /\
  StockTransfer.from_shop_id transfer = TransferStockRequest.from_shop_id payload /\
  StockTransfer.to_shop_id transfer = TransferStockRequest.to_shop_id payload /\
  DB.purchases db' = DB.purchases db /\
  DB.stock_transfers db' = <[transfer_id := transfer]> (DB.stock_transfers db) /\
  exists target_product,
    moved payload target_product (DB.stocks db) (DB.stocks db')
      (StockTransfer.unit_buying_price transfer)
      (StockTransfer.unit_selling_price transfer).
Proof.
  intros H. apply request_Ok in H as (s' & E & ->).
  unfold transfer_stock in E. tx_run E.
  match goal with H : integrity _ = true |- _ => clear H end.
  match goal with
  | H : mirror_product _ _ _ = _ |- _ => apply mirror_product_Ok in H as (products' & ->)
  end.
  match goal with
  | H : move_stock _ _ _ = _ |- _ => apply move_stock_Ok in H as (stocks2 & Hmoved & ->)
  end.
  tx_more. do 6 (split; [first [assumption | reflexivity]|]).
  eexists. exact Hmoved.
Qed.

Lemma _apply_transfer_impact_Ok payload s product_id source_buy source_sell s' :
  _apply_transfer_impact payload s = (Ok (product_id, source_buy, source_sell), s') ->
  TransferStockRequest.from_shop_id payload <> TransferStockRequest.to_shop_id payload /\
  exists target_product products' stocks2,
    moved payload target_product (DB.stocks (pending s)) stocks2 source_buy source_sell /\
    s' = mkSession (committed s)
           (DB.set_stocks stocks2 (DB.set_products products' (pending s))).
Proof.
  intros E. unfold _apply_transfer_impact in E. tx_run E.
  match goal with
  | H : mirror_product _ _ _ = _ |- _ => apply mirror_product_Ok in H as (products' & ->)
  end.
  match goal with
  | H : move_stock _ _ _ = _ |- _ => apply move_stock_Ok in H as (stocks2 & Hmoved & ->)
  end.
  tx_more. split; [assumption|].
  eexists _, _, _. split; [exact Hmoved | reflexivity].
Qed.

Lemma update_transfer_Ok transfer_id payload u db key transfer' db' :
  request (update_transfer transfer_id payload u) db = (Ok (key, transfer'), db') ->
  exists transfer,
    DB.stock_transfers db !! transfer_id = Some transfer /\
    ((db' = db /\ transfer' = transfer) \/
     let request_ :=
       TransferStockRequest.mk
         (default (StockTransfer.product_id transfer) (TransferStockUpdate.product_id payload))
         (default (StockTransfer.from_shop_id transfer)
            (TransferStockUpdate.from_shop_id payload))
         (default (StockTransfer.to_shop_id transfer) (TransferStockUpdate.to_shop_id payload))
         (default (StockTransfer.quantity transfer) (TransferStockUpdate.quantity payload))
         (StockTransfer.note transfer') in
     StockTransfer.from_shop_id transfer' <> StockTransfer.to_shop_id transfer' /\
     StockTransfer.quantity transfer'
     = default (StockTransfer.quantity transfer) (TransferStockUpdate.quantity payload) /\
     DB.purchases db' = DB.purchases db /\
     DB.stock_transfers db' = <[transfer_id := transfer']> (DB.stock_transfers db) /\
     exists stocks1 reversed_product target_product,
       reversed transfer reversed_product (DB.stocks db) stocks1 /\
       moved request_ target_product stocks1 (DB.stocks db')
         (StockTransfer.unit_buying_price transfer')
         (StockTransfer.unit_selling_price transfer')).
Proof.
  intros H. apply request_Ok in H as (s' & E & ->).
  unfold update_transfer in E. tx_run E.
  eexists. split; [eassumption|].
  match goal with
  | H : (if ?c then _ else _) _ = _ |- _ => destruct c; [left|right]
  end.
  - tx_more. split; reflexivity.
  - match goal with
    | H : rollback_on_http _ _ = _ |- _ => apply rollback_on_http_Ok in H; tx_run H
    end.
    match goal with
    | H : _reverse_transfer_impact _ _ = _ |- _ =>
        apply _reverse_transfer_impact_Ok in H as (sp & rp & stocks1 & _ & _ & Hrev & ->)
    end.
    match goal with
    | H : _apply_transfer_impact _ _ = _ |- _ =>
        apply _apply_transfer_impact_Ok in H as (Hne & tp & products' & stocks2 & Hmov & ->)
    end.
    tx_more.
    match goal with H : integrity _ = true |- _ => clear H end.
    cbn [TransferStockRequest.from_shop_id TransferStockRequest.to_shop_id] in Hne.
    do 4 (split; [first [assumption | reflexivity]|]).
    eexists _, _, _. split; [exact Hrev | exact Hmov].
Qed.

Lemma delete_transfer_Ok transfer_id u db key transfer db' :
  request (delete_transfer transfer_id u) db = (Ok (key, transfer), db') ->
  DB.stock_transfers db !! transfer_id = Some transfer /\
  DB.purchases db' = DB.purchases db /\
  DB.stock_transfers db' = delete transfer_id (DB.stock_transfers db) /\
  exists source_product target_product,
    DB.products db !! StockTransfer.product_id transfer = Some source_product /\
    select_first
      (fun row => (Product.shop_id row =? StockTransfer.to_shop_id transfer) &&
                  String.eqb (Product.sku row) (Product.sku source_product))
      (DB.products db) = Some target_product /\
    reversed transfer target_product (DB.stocks db) (DB.stocks db').
Proof.
  intros H. apply request_Ok in H as (s' & E & ->).
  unfold delete_transfer in E. tx_run E.
  match goal with
  | H : rollback_on_http _ _ = _ |- _ => apply rollback_on_http_Ok in H; tx_run H
  end.
  match goal with
  | H : _reverse_transfer_impact _ _ = _ |- _ =>
      apply _reverse_transfer_impact_Ok in H as (sp & rp & stocks1 & Hsp & Hrp & Hrev & ->)
  end.
  tx_more.
  match goal with H : integrity _ = true |- _ => clear H end.
  do 3 (split; [first [assumption | reflexivity]|]).
  eexists _, _. repeat split; eassumption.
Qed.

(** ** All or nothing *)

Section Atomicity.
Context {A B : Type}.

Lemma no_commit_ret (a : A) : no_commit (mret a : Tx A).
Proof. intros s r s' [= _ <-]. reflexivity. Qed.

Lemma no_commit_raise e : no_commit (raise e : Tx A).
Proof. intros s r s' [= _ <-]. reflexivity. Qed.

Lemma no_commit_lift (x : result A) : no_commit (lift x).
Proof. intros s r s' [= _ <-]. reflexivity. Qed.

Lemma no_commit_query (f : DB.t -> A) : no_commit (query f).
Proof. intros s r s' [= _ <-]. reflexivity. Qed.

Lemma no_commit_or_raise (x : option A) e : no_commit (or_raise x e).
Proof. destruct x; intros s r s' [= _ <-]; reflexivity. Qed.

Lemma no_commit_bind (m : Tx A) (f : A -> Tx B) :
  no_commit m -> (forall a, no_commit (f a)) -> no_commit (m ≫= f).
Proof.
  intros Hm Hf s r s'. unfold mbind, Tx_bind.
  destruct (m s) as [[a|e] s1] eqn:E; apply Hm in E.
  - intros H. apply Hf in H. congruence.
  - intros [= _ <-]. exact E.
Qed.

Lemma no_commit_atomic (m : Tx A) : no_commit m -> atomic m.
Proof. intros H s e s' E. eapply H, E. Qed.

Lemma atomic_bind (m : Tx A) (f : A -> Tx B) :
  no_commit m -> (forall a, atomic (f a)) -> atomic (m ≫= f).
Proof.
  intros Hm Hf s e s' H. apply bind_Raise in H as [H | (a & s1 & H1 & H)].
  - eapply Hm, H.
  - apply Hm in H1. apply Hf in H. congruence.
Qed.

Lemma atomic_then_ret (m : Tx A) (b : B) : atomic m -> atomic (m ≫= fun _ => mret b).
Proof.
  intros Hm s e s' H. apply bind_Raise in H as [H | (a & s1 & H1 & H)].
  - eapply Hm, H.
  - discriminate H.
Qed.

Lemma atomic_rollback_on_http (body : Tx A) : atomic body -> atomic (rollback_on_http body).
Proof.
  intros Hb s e s'. unfold rollback_on_http, try_except.
  destruct (body s) as [[a|e1] s1] eqn:E; [discriminate|].
  apply Hb in E. destruct e1; intros [= _ <-]; cbn; congruence.
Qed.

End Atomicity.

Lemma no_commit_raise_if cond e : no_commit (raise_if cond e).
Proof. intros s r s' H. apply raise_if_pure in H as ->. reflexivity. Qed.

Lemma no_commit_update f : no_commit (update f).
Proof. intros s r s' [= _ <-]. reflexivity. Qed.

Lemma no_commit_get_stock k : no_commit (get_stock k).
Proof.
  intros s r s'. unfold get_stock.
  destruct (DB.stocks (pending s) !! k); intros [= _ <-]; reflexivity.
Qed.

Lemma no_commit_add_stock row : no_commit (add_stock row).
Proof. intros s r s' [= _ <-]. reflexivity. Qed.

Lemma no_commit_check_scope u k : no_commit (check_scope u k).
Proof. intros s r s' H. apply check_scope_pure in H as ->. reflexivity. Qed.

Lemma no_commit_check_supplier x k msg : no_commit (check_supplier x k msg).
Proof. intros s r s' H. apply check_supplier_pure in H as ->. reflexivity. Qed.

Lemma no_commit__validate_transfer_scope u a b : no_commit (_validate_transfer_scope u a b).
Proof. intros s r s' H. apply _validate_transfer_scope_pure in H as ->. reflexivity. Qed.

Lemma atomic_commit : atomic commit.
Proof.
  intros s e s'. unfold commit.
  destruct (integrity (pending s)); [discriminate | intros [= _ <-]; reflexivity].
Qed.

Lemma atomic_commit_or_conflict : atomic commit_or_conflict.
Proof.
  intros s e s'. unfold commit_or_conflict, try_except, commit.
  destruct (integrity (pending s)); [discriminate|].
  intros [= _ <-]. reflexivity.
Qed.

Ltac no_commit_step :=
  first
    [ apply no_commit_bind; [|intros]
    | apply no_commit_ret | apply no_commit_raise | apply no_commit_lift
    | apply no_commit_query | apply no_commit_or_raise | apply no_commit_raise_if
    | apply no_commit_update | apply no_commit_get_stock | apply no_commit_add_stock
    | apply no_commit_check_scope | apply no_commit_check_supplier
    | apply no_commit__validate_transfer_scope
    | match goal with
      | |- no_commit (match ?x with _ => _ end) => destruct x
      end ].

Ltac solve_no_commit := repeat no_commit_step.

Lemma no_commit_mirror_product k p : no_commit (mirror_product k p).
Proof. unfold mirror_product, select_product. solve_no_commit. Qed.

Lemma no_commit_move_stock payload k : no_commit (move_stock payload k).
Proof. unfold move_stock, select_stock, put_stock. solve_no_commit. Qed.

Lemma no_commit__reverse_transfer_impact transfer :
  no_commit (_reverse_transfer_impact transfer).
Proof.
  unfold _reverse_transfer_impact, select_stock, select_product, put_stock.
  solve_no_commit.
Qed.

Lemma no_commit__apply_transfer_impact payload : no_commit (_apply_transfer_impact payload).
Proof.
  unfold _apply_transfer_impact. solve_no_commit.
Qed.

Ltac atomic_step :=
  first
    [ apply atomic_commit | apply atomic_commit_or_conflict
    | apply atomic_rollback_on_http
    | apply atomic_bind; [solve [solve_no_commit
                                 | apply no_commit_mirror_product
                                 | apply no_commit_move_stock
                                 | apply no_commit__reverse_transfer_impact
                                 | apply no_commit__apply_transfer_impact] | intros]
    | apply atomic_then_ret
    | match goal with
      | |- atomic (match ?x with _ => _ end) => destruct x
      end
    | apply no_commit_atomic; solve [solve_no_commit] ].

Ltac solve_atomic :=
  unfold select_stock, select_product, put_stock; repeat atomic_step.

Lemma request_atomic {A} (m : Tx A) db e db' :
  atomic m -> request m db = (Raise e, db') -> db' = db.
Proof.
  intros Hm H. apply request_Raise in H as (s' & E & ->).
  apply Hm in E. exact E.
Qed.

Lemma create_purchase_atomic payload u : atomic (create_purchase payload u).
Proof. unfold create_purchase. solve_atomic. Qed.

Lemma update_purchase_atomic k payload u : atomic (update_purchase k payload u).
Proof. unfold update_purchase. solve_atomic. Qed.

Lemma delete_purchase_atomic k u : atomic (delete_purchase k u).
Proof. unfold delete_purchase. solve_atomic. Qed.

Lemma upsert_stock_atomic payload u : atomic (upsert_stock payload u).
Proof. unfold upsert_stock. solve_atomic. Qed.

Lemma delete_stock_atomic k u : atomic (delete_stock k u).
Proof. unfold delete_stock. solve_atomic. Qed.

Lemma adjust_stock_atomic k payload u : atomic (adjust_stock k payload u).
Proof. unfold adjust_stock. solve_atomic. Qed.

Lemma create_sale_atomic payload u : atomic (create_sale payload u).
Proof. unfold create_sale. solve_atomic. Qed.

Lemma create_sale_return_atomic k payload u : atomic (create_sale_return k payload u).
Proof. unfold create_sale_return. solve_atomic. Qed.

Lemma transfer_stock_atomic payload u : atomic (transfer_stock payload u).
Proof. unfold transfer_stock. solve_atomic. Qed.

Lemma update_transfer_atomic k payload u : atomic (update_transfer k payload u).
Proof. unfold update_transfer. solve_atomic. Qed.

Lemma delete_transfer_atomic k u : atomic (delete_transfer k u).
Proof. unfold delete_transfer. solve_atomic. Qed.

(** ** Quantities never go below zero *)

Lemma apply_purchase_effect_Ok row qty buy sell row' :
  _apply_purchase_effect row qty buy sell = Ok row' ->
  Stock.quantity_on_hand row' = Stock.quantity_on_hand row + qty /\
  Stock.shop_id row' = Stock.shop_id row /\
  Stock.product_id row' = Stock.product_id row.
Proof.
  unfold _apply_purchase_effect.
  destruct (Z.eqb_spec (Stock.quantity_on_hand row) 0) as [E|E].
  - intros [= <-]. cbn. rewrite E. auto.
  - unfold mbind, result_bind.
    destruct (Decimal.div _ _); [|discriminate].
    destruct (Decimal.div _ _); [|discriminate].
    intros [= <-]. cbn. auto.
Qed.

Lemma remove_purchase_effect_Ok row qty buy sell row' :
  _remove_purchase_effect row qty buy sell = Ok row' ->
  qty <= Stock.quantity_on_hand row /\
  Stock.quantity_on_hand row' = Stock.quantity_on_hand row - qty /\
  Stock.shop_id row' = Stock.shop_id row /\
  Stock.product_id row' = Stock.product_id row.
Proof.
  unfold _remove_purchase_effect.
  destruct (Z.ltb_spec (Stock.quantity_on_hand row) qty) as [E|E]; [discriminate|].
  destruct (Z.eqb_spec (Stock.quantity_on_hand row - qty) 0) as [E0|E0].
  - intros [= <-]. cbn. rewrite E0. auto.
  - unfold mbind, result_bind.
    destruct (Decimal.div _ _); [|discriminate].
    destruct (Decimal.div _ _); [|discriminate].
    intros [= <-]. cbn. auto.
Qed.

Lemma moved_nonneg payload target_product stocks0 stocks2 b sl :
  stocks_nonneg stocks0 ->
  0 < TransferStockRequest.quantity payload ->
  moved payload target_product stocks0 stocks2 b sl ->
  stocks_nonneg stocks2.
Proof.
  intros Hok Hpos (source & row & _ & Hrow & Hle & _ & _ & Htarget).
  cbv zeta in Htarget.
  assert (Hok1 : stocks_nonneg
            (<[source := Stock.set_quantity_on_hand
                           (Stock.quantity_on_hand row
                            - TransferStockRequest.quantity payload) row]> stocks0)).
  { apply map_Forall_insert_2; [cbn; lia | exact Hok]. }
  destruct (select_first _ stocks0) as [target|].
  - destruct Htarget as (target_row & Ht & _ & ->).
    apply map_Forall_insert_2; [|exact Hok1].
    apply (map_Forall_lookup_1 _ _ _ _ Hok1) in Ht. cbn in *. lia.
  - subst stocks2. apply map_Forall_insert_2; [cbn; lia | exact Hok1].
Qed.

Lemma reversed_nonneg transfer target_product stocks0 stocks2 :
  stocks_nonneg stocks0 ->
  0 < StockTransfer.quantity transfer ->
  reversed transfer target_product stocks0 stocks2 ->
  stocks_nonneg stocks2.
Proof.
  intros Hok Hpos
    (source & target & source_row & checked_row & target_row
     & _ & _ & Hs & Hc & Hle & Ht & ->).
  cbv zeta in Ht.
  pose proof (map_Forall_lookup_1 _ _ _ _ Hok Hs) as Hs0. cbn in Hs0.
  assert (Hq : StockTransfer.quantity transfer <= Stock.quantity_on_hand target_row).
  { destruct (decide (source = target)) as [->|Hne].
    - rewrite lookup_insert_eq in Ht. injection Ht as <-. cbn. lia.
    - rewrite lookup_insert_ne in Ht by exact Hne. congruence. }
  apply map_Forall_insert_2.
  - destruct (gt0 _); cbn; lia.
  - apply map_Forall_insert_2; [cbn; lia | exact Hok].
Qed.

Lemma default_pos (d : Z) (o : option Z) : 0 < d -> opt_pos o = true -> 0 < default d o.
Proof. destruct o as [v|]; cbn; [intros _ H; apply Z.ltb_lt in H; exact H | auto]. Qed.

Lemma db_ok_intro db' :
  stocks_nonneg (DB.stocks db') ->
  map_Forall (fun _ purchase => 0 < Purchase.quantity purchase) (DB.purchases db') ->
  map_Forall (fun _ transfer => 0 < StockTransfer.quantity transfer)
    (DB.stock_transfers db') ->
  db_ok db'.
Proof. intros. repeat split; assumption. Qed.

Ltac failed E lemma :=
  apply request_atomic in E; [subst; repeat split; assumption | apply lemma].

Lemma create_purchase_ok payload u db :
  PurchaseCreate.valid payload = true -> db_ok db ->
  db_ok (snd (request (create_purchase payload u) db)).
Proof.
  intros Hv (Hs & Hp & Ht).
  destruct (request _ db) as [[[k purchase]|e] db'] eqn:E; cbn [snd];
    [|failed E create_purchase_atomic].
  unfold PurchaseCreate.valid in Hv. guards.
  apply create_purchase_Ok in E
    as (stock & row & sell & row' & Hsel & Happ & Hq & _ & _ & _ & Est & Epu & Etr).
  apply apply_purchase_effect_Ok in Happ as (Hq' & _ & _).
  apply db_ok_intro; rewrite ?Est, ?Epu, ?Etr; try assumption.
  - apply map_Forall_insert_2; [|exact Hs].
    destruct (select_first _ (DB.stocks db)).
    + destruct Hsel as (_ & Hrow & _).
      apply (map_Forall_lookup_1 _ _ _ _ Hs) in Hrow. cbn in Hrow. lia.
    + destruct Hsel as (_ & _ & ->). cbn in Hq'. lia.
  - apply map_Forall_insert_2; [lia | exact Hp].
Qed.

Lemma update_purchase_ok k payload u db :
  PurchaseUpdate.valid payload = true -> db_ok db ->
  db_ok (snd (request (update_purchase k payload u) db)).
Proof.
  intros Hv (Hs & Hp & Ht).
  destruct (request _ db) as [[[k' purchase']|e] db'] eqn:E; cbn [snd];
    [|failed E update_purchase_atomic].
  unfold PurchaseUpdate.valid in Hv. guards.
  apply update_purchase_Ok in E
    as (purchase & stock & row & row1 & row2 & Hpu & _ & Hrow & Hrem & Happ & Hq
        & Est & Epu & Etr).
  apply remove_purchase_effect_Ok in Hrem as (Hle & Hq1 & _ & _).
  apply apply_purchase_effect_Ok in Happ as (Hq2 & _ & _).
  pose proof (map_Forall_lookup_1 _ _ _ _ Hp Hpu) as Hpos. cbn in Hpos.
  pose proof (default_pos _ _ Hpos H) as Hnew.
  apply db_ok_intro; rewrite ?Est, ?Epu, ?Etr; try assumption.
  - apply map_Forall_insert_2; [lia | exact Hs].
  - apply map_Forall_insert_2; [lia | exact Hp].
Qed.

Lemma delete_purchase_ok k u db :
  db_ok db -> db_ok (snd (request (delete_purchase k u) db)).
Proof.
  intros (Hs & Hp & Ht).
  destruct (request _ db) as [[[k' purchase']|e] db'] eqn:E; cbn [snd];
    [|failed E delete_purchase_atomic].
  apply delete_purchase_Ok in E
    as (stock & row & row1 & Hpu & _ & Hrow & Hrem & Est & Epu & Etr).
  apply remove_purchase_effect_Ok in Hrem as (Hle & Hq1 & _ & _).
  apply db_ok_intro; rewrite ?Est, ?Epu, ?Etr; try assumption.
  - apply map_Forall_insert_2; [lia | exact Hs].
  - apply map_Forall_delete. exact Hp.
Qed.

Lemma upsert_stock_ok payload u db :
  StockUpsertRequest.valid payload = true -> db_ok db ->
  db_ok (snd (request (upsert_stock payload u) db)).
Proof.
  intros Hv (Hs & Hp & Ht).
  destruct (request _ db) as [[[k row']|e] db'] eqn:E; cbn [snd];
    [|failed E upsert_stock_atomic].
  unfold StockUpsertRequest.valid in Hv. guards.
  apply upsert_stock_Ok in E as (Hq & _ & _ & _ & Est & Epu & Etr).
  apply db_ok_intro; rewrite ?Est, ?Epu, ?Etr; try assumption.
  apply map_Forall_insert_2; [lia | exact Hs].
Qed.

Lemma delete_stock_ok k u db :
  db_ok db -> db_ok (snd (request (delete_stock k u) db)).
Proof.
  intros (Hs & Hp & Ht).
  destruct (request _ db) as [[[k' row']|e] db'] eqn:E; cbn [snd];
    [|failed E delete_stock_atomic].
  apply delete_stock_Ok in E as (_ & _ & Est & Epu & Etr).
  apply db_ok_intro; rewrite ?Est, ?Epu, ?Etr; try assumption.
  apply map_Forall_delete. exact Hs.
Qed.

Lemma adjust_stock_ok k payload u db :
  db_ok db -> db_ok (snd (request (adjust_stock k payload u) db)).
Proof.
  intros (Hs & Hp & Ht).
  destruct (request _ db) as [[[k' row']|e] db'] eqn:E; cbn [snd];
    [|failed E adjust_stock_atomic].
  apply adjust_stock_Ok in E as (row & _ & Hq & -> & Est & Epu & Etr).
  apply db_ok_intro; rewrite ?Est, ?Epu, ?Etr; try assumption.
  apply map_Forall_insert_2; [exact Hq | exact Hs].
Qed.

Lemma create_sale_ok payload u db :
  db_ok db -> db_ok (snd (request (create_sale payload u) db)).
Proof.
  intros (Hs & Hp & Ht).
  destruct (request _ db) as [[[k sale]|e] db'] eqn:E; cbn [snd];
    [|failed E create_sale_atomic].
  apply create_sale_Ok in E as (stock & row & _ & _ & Hle & _ & _ & _ & _ & _ & _ & _ & ->).
  apply db_ok_intro; db_simpl; try assumption.
  apply map_Forall_insert_2; [cbn; lia | exact Hs].
Qed.

Lemma create_sale_return_ok k payload u db :
  SaleReturnCreateRequest.valid payload = true -> db_ok db ->
  db_ok (snd (request (create_sale_return k payload u) db)).
Proof.
  intros Hv (Hs & Hp & Ht).
  destruct (request _ db) as [[ret|e] db'] eqn:E; cbn [snd];
    [|failed E create_sale_return_atomic].
  unfold SaleReturnCreateRequest.valid in Hv. guards.
  apply create_sale_return_Ok in E as (sale & _ & _ & _ & _ & _ & _ & Epu & Etr & Est).
  apply db_ok_intro; rewrite ?Epu, ?Etr; try assumption.
  destruct (SaleReturnCreateRequest.restock payload); [|rewrite Est; exact Hs].
  destruct (select_first _ (DB.stocks db)).
  - destruct Est as (row & Hrow & ->).
    apply (map_Forall_lookup_1 _ _ _ _ Hs) in Hrow. cbn in Hrow.
    apply map_Forall_insert_2; [cbn; lia | exact Hs].
  - rewrite Est. apply map_Forall_insert_2; [cbn; lia | exact Hs].
Qed.

Lemma transfer_stock_ok payload u db :
  TransferStockRequest.valid payload = true -> db_ok db ->
  db_ok (snd (request (transfer_stock payload u) db)).
Proof.
  intros Hv (Hs & Hp & Ht).
  destruct (request _ db) as [[[k transfer]|e] db'] eqn:E; cbn [snd];
    [|failed E transfer_stock_atomic].
  unfold TransferStockRequest.valid in Hv. guards.
  apply transfer_stock_Ok in E as (_ & Hq & _ & _ & Epu & Etr & tp & Hmoved).
  apply db_ok_intro; rewrite ?Epu, ?Etr; try assumption.
  - eapply moved_nonneg; eassumption.
  - apply map_Forall_insert_2; [lia | exact Ht].
Qed.

Lemma update_transfer_ok k payload u db :
  TransferStockUpdate.valid payload = true -> db_ok db ->
  db_ok (snd (request (update_transfer k payload u) db)).
Proof.
  intros Hv (Hs & Hp & Ht).
  destruct (request _ db) as [[[k' transfer']|e] db'] eqn:E; cbn [snd];
    [|failed E update_transfer_atomic].
  unfold TransferStockUpdate.valid in Hv.
  apply update_transfer_Ok in E as (transfer & Htr & [[-> _] | E]);
    [repeat split; assumption|].
  cbv zeta in E.
  destruct E as (_ & Hq & Epu & Etr & stocks1 & rp & tp & Hrev & Hmov).
  pose proof (map_Forall_lookup_1 _ _ _ _ Ht Htr) as Hpos. cbn in Hpos.
  pose proof (default_pos _ _ Hpos Hv) as Hnew.
  apply db_ok_intro; rewrite ?Epu, ?Etr; try assumption.
  - eapply moved_nonneg; [| |exact Hmov]; [|exact Hnew].
    eapply reversed_nonneg; eassumption.
  - apply map_Forall_insert_2; [lia | exact Ht].
Qed.

Lemma delete_transfer_ok k u db :
  db_ok db -> db_ok (snd (request (delete_transfer k u) db)).
Proof.
  intros (Hs & Hp & Ht).
  destruct (request _ db) as [[[k' transfer']|e] db'] eqn:E; cbn [snd];
    [|failed E delete_transfer_atomic].
  apply delete_transfer_Ok in E as (Htr & Epu & Etr & sp & rp & _ & _ & Hrev).
  pose proof (map_Forall_lookup_1 _ _ _ _ Ht Htr) as Hpos. cbn in Hpos.
  apply db_ok_intro; rewrite ?Epu, ?Etr; try assumption.
  - eapply reversed_nonneg; eassumption.
  - apply map_Forall_delete. exact Ht.
Qed.

Lemma serve_ok r db : db_ok db -> db_ok (snd (serve r db)).
Proof.
  intros Hok. unfold serve. destruct (validated r) eqn:Hv; [|exact Hok].
  destruct r; cbn [route validated outcome snd] in *.
  - apply create_purchase_ok; assumption.
  - apply update_purchase_ok; assumption.
  - apply delete_purchase_ok; assumption.
  - apply upsert_stock_ok; assumption.
  - apply delete_stock_ok; assumption.
  - apply adjust_stock_ok; assumption.
  - apply create_sale_ok; assumption.
  - apply create_sale_return_ok; assumption.
  - apply transfer_stock_ok; assumption.
  - apply update_transfer_ok; assumption.
  - apply delete_transfer_ok; assumption.
Qed.

Lemma serve_all_ok rs : forall db, db_ok db -> db_ok (serve_all rs db).
Proof.
  unfold serve_all. induction rs as [|r rs IH]; intros db Hok; [exact Hok|].
  cbn [foldl]. apply IH, serve_ok, Hok.
Qed.

Lemma serve_atomic r db e : fst (serve r db) = Some e -> snd (serve r db) = db.
Proof.
  unfold serve. destruct (validated r); [|reflexivity].
  destruct r; cbn [route]; unfold outcome;
    destruct (request _ db) as [[v|e'] db'] eqn:E; cbn [fst snd];
    try discriminate; intros _; eapply request_atomic; try exact E.
  - apply create_purchase_atomic.
  - apply update_purchase_atomic.
  - apply delete_purchase_atomic.
  - apply upsert_stock_atomic.
  - apply delete_stock_atomic.
  - apply adjust_stock_atomic.
  - apply create_sale_atomic.
  - apply create_sale_return_atomic.
  - apply transfer_stock_atomic.
  - apply update_transfer_atomic.
  - apply delete_transfer_atomic.
Qed.

Lemma create_sale_insufficient db payload u stock row :
  select_first (fun row => (Stock.shop_id row =? SaleCreateRequest.shop_id payload) &&
                           (Stock.product_id row =? SaleCreateRequest.product_id payload))
    (DB.stocks db) = Some stock ->
  DB.stocks db !! stock = Some row ->
  Stock.quantity_on_hand row < SaleCreateRequest.quantity payload ->
  exists e, request (create_sale payload u) db = (Raise e, db).
Proof.
  intros Hsel Hrow Hlt.
  destruct (request _ db) as [[[k sale]|e] db'] eqn:E.
  - apply create_sale_Ok in E as (stock' & row' & Hsel' & Hrow' & Hle & _).
    rewrite Hsel in Hsel'. injection Hsel' as <-.
    rewrite Hrow in Hrow'. injection Hrow' as <-. lia.
  - exists e. f_equal. eapply request_atomic; [apply create_sale_atomic | exact E].
Qed.

Lemma adjust_stock_insufficient db stock_id payload u row :
  DB.stocks db !! stock_id = Some row ->
  Stock.quantity_on_hand row + StockAdjustRequest.quantity_delta payload < 0 ->
  exists e, request (adjust_stock stock_id payload u) db = (Raise e, db).
Proof.
  intros Hrow Hlt.
  destruct (request _ db) as [[[k row']|e] db'] eqn:E.
  - apply adjust_stock_Ok in E as (row0 & Hrow0 & Hle & _).
    rewrite Hrow in Hrow0. injection Hrow0 as <-. lia.
  - exists e. f_equal. eapply request_atomic; [apply adjust_stock_atomic | exact E].
Qed.

Lemma transfer_stock_insufficient db payload u stock row :
  select_first
    (fun row => (Stock.shop_id row =? TransferStockRequest.from_shop_id payload) &&
                (Stock.product_id row =? TransferStockRequest.product_id payload))
    (DB.stocks db) = Some stock ->
  DB.stocks db !! stock = Some row ->
  Stock.quantity_on_hand row < TransferStockRequest.quantity payload ->
  exists e, request (transfer_stock payload u) db = (Raise e, db).
Proof.
  intros Hsel Hrow Hlt.
  destruct (request _ db) as [[[k transfer]|e] db'] eqn:E.
  - apply transfer_stock_Ok in E as (_ & _ & _ & _ & _ & _ & tp & Hmoved).
    destruct Hmoved as (stock' & row' & Hsel' & Hrow' & Hle & _).
    rewrite Hsel in Hsel'. injection Hsel' as <-.
    rewrite Hrow in Hrow'. injection Hrow' as <-. lia.
  - exists e. f_equal. eapply request_atomic; [apply transfer_stock_atomic | exact E].
Qed.

Lemma delete_transfer_insufficient db transfer_id u transfer source_product
    target_product target row :
  DB.stock_transfers db !! transfer_id = Some transfer ->
  DB.products db !! StockTransfer.product_id transfer = Some source_product ->
  select_first
    (fun row => (Product.shop_id row =? StockTransfer.to_shop_id transfer) &&
                String.eqb (Product.sku row) (Product.sku source_product))
    (DB.products db) = Some target_product ->
  select_first
    (fun row => (Stock.shop_id row =? StockTransfer.to_shop_id transfer) &&
                (Stock.product_id row =? target_product))
    (DB.stocks db) = Some target ->
  DB.stocks db !! target = Some row ->
  Stock.quantity_on_hand row < StockTransfer.quantity transfer ->
  exists e, request (delete_transfer transfer_id u) db = (Raise e, db).
Proof.
  intros Htr Hsp Htp Hsel Hrow Hlt.
  destruct (request _ db) as [[[k transfer']|e] db'] eqn:E.
  - apply delete_transfer_Ok in E as (Htr' & _ & _ & sp & tp & Hsp' & Htp' & Hrev).
    rewrite Htr in Htr'. injection Htr' as <-.
    rewrite Hsp in Hsp'. injection Hsp' as <-.
    rewrite Htp in Htp'. injection Htp' as <-.
    destruct Hrev as (source & target' & source_row & checked_row & target_row
                      & _ & Hsel' & _ & Hc & Hle & _).
    rewrite Hsel in Hsel'. injection Hsel' as <-.
    rewrite Hrow in Hc. injection Hc as <-. lia.
  - exists e. f_equal. eapply request_atomic; [apply delete_transfer_atomic | exact E].
Qed.

(** C2.  From a database whose stock quantities are not negative (and whose
    purchases and transfers record positive quantities), no sequence of requests
    leaves a stock row with a negative quantity, after any number of steps; a
    request that fails leaves the database as it was; and the operations that
    take stock out fail when the row holds less than they ask for. *)
Theorem quantities_never_negative :
  (forall (rs : list Request) (db : DB.t),
     db_ok db ->
     forall n k row,
       DB.stocks (serve_all (take n rs) db) !! k = Some row ->
       0 <= Stock.quantity_on_hand row) /\
  (forall r db e, fst (serve r db) = Some e -> snd (serve r db) = db) /\
  (forall row qty buy sell,
     Stock.quantity_on_hand row < qty ->
     exists e, _remove_purchase_effect row qty buy sell = Raise e /\ is_conflict e = true) /\
  (forall db payload u stock row,
     select_first (fun row => (Stock.shop_id row =? SaleCreateRequest.shop_id payload) &&
                              (Stock.product_id row =? SaleCreateRequest.product_id payload))
       (DB.stocks db) = Some stock ->
     DB.stocks db !! stock = Some row ->
     Stock.quantity_on_hand row < SaleCreateRequest.quantity payload ->
     exists e, request (create_sale payload u) db = (Raise e, db)) /\
  (forall db stock_id payload u row,
     DB.stocks db !! stock_id = Some row ->
     Stock.quantity_on_hand row + StockAdjustRequest.quantity_delta payload < 0 ->
     exists e, request (adjust_stock stock_id payload u) db = (Raise e, db)) /\
  (forall db payload u stock row,
     select_first
       (fun row => (Stock.shop_id row =? TransferStockRequest.from_shop_id payload) &&
                   (Stock.product_id row =? TransferStockRequest.product_id payload))
       (DB.stocks db) = Some stock ->
     DB.stocks db !! stock = Some row ->
     Stock.quantity_on_hand row < TransferStockRequest.quantity payload ->
     exists e, request (transfer_stock payload u) db = (Raise e, db)) /\
  (forall db transfer_id u transfer source_product target_product target row,
     DB.stock_transfers db !! transfer_id = Some transfer ->
     DB.products db !! StockTransfer.product_id transfer = Some source_product ->
     select_first
       (fun row => (Product.shop_id row =? StockTransfer.to_shop_id transfer) &&
                   String.eqb (Product.sku row) (Product.sku source_product))
       (DB.products db) = Some target_product ->
     select_first
       (fun row => (Stock.shop_id row =? StockTransfer.to_shop_id transfer) &&
                   (Stock.product_id row =? target_product))
       (DB.stocks db) = Some target ->
     DB.stocks db !! target = Some row ->
     Stock.quantity_on_hand row < StockTransfer.quantity transfer ->
     exists e, request (delete_transfer transfer_id u) db = (Raise e, db)).
Proof.
  split.
  { intros rs db Hok n k row Hrow.
    destruct (serve_all_ok (take n rs) db Hok) as (Hs & _).
    exact (map_Forall_lookup_1 _ _ _ _ Hs Hrow). }
  split; [exact serve_atomic|].
  split.
  { intros row qty buy sell Hlt. eexists.
    split; [apply remove_purchase_effect_conflict; exact Hlt | reflexivity]. }
  split; [exact create_sale_insufficient|].
  split; [exact adjust_stock_insufficient|].
  split; [exact transfer_stock_insufficient | exact delete_transfer_insufficient].
Qed.

Lemma example_db_ok : db_ok example_db.
Proof.
  repeat split.
  - apply map_Forall_insert_2; [cbn; lia | apply map_Forall_empty].
  - apply map_Forall_empty.
  - apply map_Forall_empty.
Qed.

Lemma quantities_never_negative_witness :
  let rs :=
    [ POST_sales (SaleCreateRequest.mk 1 7 40 None) owner;
      POST_sales (SaleCreateRequest.mk 1 7 70 None) owner;
      POST_stocks_adjust 1 (StockAdjustRequest.mk (-100) None None) owner;
      POST_transfers (TransferStockRequest.mk 7 1 2 25 None) owner ] in
  (forall k row,
     DB.stocks (serve_all (take 4 rs) example_db) !! k = Some row ->
     0 <= Stock.quantity_on_hand row) /\
  exists e,
    request (create_sale (SaleCreateRequest.mk 1 7 101 None) owner) example_db
    = (Raise e, example_db).
Proof.
  destruct quantities_never_negative as (Hall & _ & _ & Hsale & _).
  split.
  - intros k row. apply Hall. exact example_db_ok.
  - apply (Hsale example_db (SaleCreateRequest.mk 1 7 101 None) owner 1
             (Stock.mk 1 7 100 10 15)).
    + vm_compute. reflexivity.
    + vm_compute. reflexivity.
    + cbn. lia.
Defined.

(** ** Parts of the database a route leaves alone *)

Section Keeps.
Context {T : Type} (f : DB.t -> T).
Context {A B : Type}.

Lemma keeps_pure (m : Tx A) : (forall s r s', m s = (r, s') -> s' = s) -> keeps f m.
Proof. intros H s r s' E _. apply H in E as ->. auto. Qed.

Lemma keeps_ret (a : A) : keeps f (mret a : Tx A).
Proof. apply keeps_pure. intros s r s' [= _ <-]. reflexivity. Qed.

Lemma keeps_raise e : keeps f (raise e : Tx A).
Proof. apply keeps_pure. intros s r s' [= _ <-]. reflexivity. Qed.

Lemma keeps_lift (x : result A) : keeps f (lift x).
Proof. apply keeps_pure. intros s r s' [= _ <-]. reflexivity. Qed.

Lemma keeps_query (g : DB.t -> A) : keeps f (query g).
Proof. apply keeps_pure. intros s r s' [= _ <-]. reflexivity. Qed.

Lemma keeps_or_raise (x : option A) e : keeps f (or_raise x e).
Proof. apply keeps_pure. destruct x; intros s r s' [= _ <-]; reflexivity. Qed.

Lemma keeps_bind (m : Tx A) (k : A -> Tx B) :
  keeps f m -> (forall a, keeps f (k a)) -> keeps f (m ≫= k).
Proof.
  intros Hm Hk s r s' E H0. unfold mbind, Tx_bind in E.
  destruct (m s) as [[a|e] s1] eqn:E1; apply Hm in E1 as [E1 E2]; try exact H0.
  - destruct (Hk a s1 r s' E) as [E3 E4]; [congruence | split; congruence].
  - injection E as <- <-. auto.
Qed.

Lemma keeps_try_except (body : Tx A) handler :
  keeps f body -> (forall e, keeps f (handler e)) -> keeps f (try_except body handler).
Proof.
  intros Hb Hh s r s' E H0. unfold try_except in E.
  destruct (body s) as [[a|e] s1] eqn:E1; apply Hb in E1 as [E1 E2]; try exact H0.
  - injection E as <- <-. auto.
  - destruct (Hh e s1 r s' E) as [E3 E4]; [congruence | split; congruence].
Qed.

End Keeps.

Section KeepsMore.
Context {T : Type} (f : DB.t -> T).

Lemma keeps_update g : (forall db, f (g db) = f db) -> keeps f (update g).
Proof. intros H s r s' [= _ <-] _. cbn. auto. Qed.

Lemma keeps_commit : keeps f commit.
Proof.
  intros s r s' E H0. unfold commit in E.
  destruct (integrity (pending s)); injection E as <- <-; cbn; auto.
Qed.

Lemma keeps_rollback : keeps f rollback.
Proof. intros s r s' [= _ <-] H0. cbn. auto. Qed.

Lemma keeps_raise_if cond e : keeps f (raise_if cond e).
Proof. apply keeps_pure, raise_if_pure. Qed.

Lemma keeps_get_stock k : keeps f (get_stock k).
Proof.
  apply keeps_pure. intros s r s'. unfold get_stock.
  destruct (DB.stocks (pending s) !! k); intros [= _ <-]; reflexivity.
Qed.

Lemma keeps_check_scope u k : keeps f (check_scope u k).
Proof. apply keeps_pure, check_scope_pure. Qed.

Lemma keeps_check_supplier x k msg : keeps f (check_supplier x k msg).
Proof. apply keeps_pure, check_supplier_pure. Qed.

Lemma keeps__validate_transfer_scope u a b : keeps f (_validate_transfer_scope u a b).
Proof. apply keeps_pure, _validate_transfer_scope_pure. Qed.

Lemma keeps_add_stock row :
  (forall db x, f (DB.set_stocks x db) = f db) -> keeps f (add_stock row).
Proof. intros H s r s' [= _ <-] _. cbn. auto. Qed.

End KeepsMore.

Ltac keeps_step :=
  first
    [ apply keeps_bind; [|intros]
    | apply keeps_try_except; [|intros]
    | apply keeps_ret | apply keeps_raise | apply keeps_lift | apply keeps_query
    | apply keeps_or_raise | apply keeps_raise_if | apply keeps_get_stock
    | apply keeps_check_scope | apply keeps_check_supplier
    | apply keeps__validate_transfer_scope
    | apply keeps_commit | apply keeps_rollback
    | apply keeps_add_stock; intros; reflexivity
    | apply keeps_update; intros; reflexivity
    | match goal with
      | |- keeps _ (match ?x with _ => _ end) => destruct x
      end ].

Ltac solve_keeps :=
  unfold select_stock, select_product, put_stock, commit_or_conflict, rollback_on_http,
    mirror_product, move_stock, _reverse_transfer_impact, _apply_transfer_impact;
  repeat keeps_step.

Lemma request_keeps {T A} (f : DB.t -> T) (m : Tx A) db :
  keeps f m -> f (snd (request m db)) = f db.
Proof.
  intros Hm. unfold request. destruct (m _) as [r s'] eqn:E.
  destruct (Hm _ _ _ E) as [_ H]; [reflexivity | exact H].
Qed.

(** Only a sale and a return touch the sales and their returns. *)
Lemma serve_keeps_sales r db :
  match r with
  | POST_sales _ _ | POST_sales_returns _ _ _ => True
  | _ => sales_ledger (snd (serve r db)) = sales_ledger db
  end.
Proof.
  unfold serve.
  destruct r; try exact I; (destruct (validated _); [|reflexivity]);
    cbn [route outcome snd]; apply request_keeps.
  - unfold create_purchase. solve_keeps.
  - unfold update_purchase. solve_keeps.
  - unfold delete_purchase. solve_keeps.
  - unfold upsert_stock. solve_keeps.
  - unfold delete_stock. solve_keeps.
  - unfold adjust_stock. solve_keeps.
  - unfold transfer_stock. solve_keeps.
  - unfold update_transfer. solve_keeps.
  - unfold delete_transfer. solve_keeps.
Qed.

(** ** Returns against a sale *)

Lemma fresh_id_above {A} (table : gmap Z A) k row :
  table !! k = Some row -> k < fresh_id table.
Proof.
  intros H. unfold fresh_id. rewrite map_fold_foldr.
  apply elem_of_map_to_list in H.
  induction (map_to_list table) as [|[k' row'] l IH]; [inversion H|].
  cbn [foldr uncurry]. apply elem_of_cons in H as [[= <- <-]|H].
  - lia.
  - specialize (IH H). lia.
Qed.

Lemma fresh_id_fresh {A} (table : gmap Z A) : table !! fresh_id table = None.
Proof.
  destruct (table !! fresh_id table) as [row|] eqn:E; [|reflexivity].
  apply fresh_id_above in E. lia.
Qed.

Lemma returned_quantity_app k l r :
  returned_quantity k (l ++ [r])
  = returned_quantity k l + (if SaleReturn.sale_id r =? k then SaleReturn.quantity r else 0).
Proof.
  unfold returned_quantity. rewrite List.filter_app, fmap_app, foldr_app. cbn [List.filter].
  destruct (SaleReturn.sale_id r =? k); cbn [fmap list_fmap app foldr].
  - generalize (SaleReturn.quantity r). intros q.
    induction (SaleReturn.quantity <$> List.filter _ l) as [|x xs IH]; cbn [foldr]; lia.
  - lia.
Qed.

Lemma returned_quantity_absent k l :
  (forall r, In r l -> SaleReturn.sale_id r <> k) -> returned_quantity k l = 0.
Proof.
  intros H. unfold returned_quantity.
  induction l as [|r l IH]; [reflexivity|].
  cbn [List.filter].
  destruct (Z.eqb_spec (SaleReturn.sale_id r) k) as [E|E].
  - exfalso. apply (H r); [left; reflexivity | exact E].
  - apply IH. intros r' Hin. apply H. right. exact Hin.
Qed.

Lemma create_sale_returns_ok payload u db :
  SaleCreateRequest.valid payload = true -> returns_ok db ->
  returns_ok (snd (request (create_sale payload u) db)).
Proof.
  intros Hv [Hb Ha].
  destruct (request _ db) as [[[k sale]|e] db'] eqn:E; cbn [snd].
  2:{ apply request_atomic in E; [subst; split; assumption | apply create_sale_atomic]. }
  unfold SaleCreateRequest.valid in Hv. guards.
  apply create_sale_Ok in E as (stock & row & _ & _ & _ & -> & Hq & _ & _ & _ & _ & _ & ->).
  split; db_simpl.
  - intros k sale' Hk. destruct (decide (k = fresh_id (DB.sales db))) as [->|Hne].
    + rewrite lookup_insert_eq in Hk. injection Hk as <-.
      rewrite returned_quantity_absent; [lia|].
      intros r Hin Heq. apply Ha in Hin as [x Hx].
      rewrite Heq, fresh_id_fresh in Hx. discriminate.
    + rewrite lookup_insert_ne in Hk by congruence. apply Hb, Hk.
  - intros r Hin. apply Ha in Hin as [x Hx].
    destruct (decide (SaleReturn.sale_id r = fresh_id (DB.sales db))) as [Heq|Hne].
    + rewrite Heq, fresh_id_fresh in Hx. discriminate.
    + rewrite lookup_insert_ne by congruence. eauto.
Qed.

Lemma create_sale_return_returns_ok k payload u db :
  returns_ok db -> returns_ok (snd (request (create_sale_return k payload u) db)).
Proof.
  intros [Hb Ha].
  destruct (request _ db) as [[ret|e] db'] eqn:E; cbn [snd].
  2:{ apply request_atomic in E; [subst; split; assumption | apply create_sale_return_atomic]. }
  apply create_sale_return_Ok in E as (sale & Hsale & Hle & Hid & Hq & Esa & Ere & _).
  split; rewrite Esa, Ere.
  - intros k' sale' Hk'. rewrite returned_quantity_app, Hid, Hq.
    destruct (Z.eqb_spec k k') as [<-|Hne].
    + rewrite Hsale in Hk'. injection Hk' as <-. lia.
    + specialize (Hb _ _ Hk'). lia.
  - intros r Hin. apply in_app_or in Hin as [Hin|[<-|[]]].
    + apply Ha, Hin.
    + rewrite Hid, Hsale. eauto.
Qed.

Lemma serve_returns_ok r db : returns_ok db -> returns_ok (snd (serve r db)).
Proof.
  intros Hok.
  pose proof (serve_keeps_sales r db) as Hkeep.
  assert (Hsame : sales_ledger (snd (serve r db)) = sales_ledger db ->
                  returns_ok (snd (serve r db))).
  { unfold sales_ledger, returns_ok. intros [= -> ->]. exact Hok. }
  destruct r; try (apply Hsame, Hkeep); clear Hkeep Hsame;
    unfold serve; (destruct (validated _) eqn:Hv; [|exact Hok]);
    cbn [route outcome snd validated] in *.
  - apply create_sale_returns_ok; assumption.
  - apply create_sale_return_returns_ok; assumption.
Qed.

Lemma serve_all_returns_ok rs : forall db, returns_ok db -> returns_ok (serve_all rs db).
Proof.
  unfold serve_all. induction rs as [|r rs IH]; intros db Hok; [exact Hok|].
  cbn [foldl]. apply IH, serve_returns_ok, Hok.
Qed.

(** ** Which error a refused request gets *)

Lemma check_scope_run u k s :
  in_scope u k (pending s) = true -> check_scope u k s = (Ok tt, s).
Proof.
  unfold in_scope, check_scope. destruct (_is_system_owner u); [reflexivity|].
  cbn [orb negb]. intros H. apply andb_true_iff in H as [H1 H2].
  apply bool_decide_eq_true in H1 as [shop Hshop]. apply Z.eqb_eq in H2.
  unfold _get_assigned_shop, _enforce_shop_scope, mbind, Tx_bind, query, or_raise.
  rewrite Hshop. cbn [mret Tx_ret]. unfold raise_if.
  rewrite H2, Z.eqb_refl. reflexivity.
Qed.

Ltac tx_eval :=
  unfold mbind, Tx_bind;
  cbn [mret Tx_ret query or_raise raise_if raise lift update
       pending committed negb fst snd].

Lemma create_sale_return_exceeds db sale_id payload u sale shop :
  DB.sales db !! sale_id = Some sale ->
  in_scope u (Sale.shop_id sale) db = true ->
  DB.shops db !! Sale.shop_id sale = Some shop ->
  Shop.is_active shop = true ->
  is_Some (DB.products db !! Sale.product_id sale) ->
  Sale.quantity sale - returned_quantity sale_id (DB.sale_returns db)
  < SaleReturnCreateRequest.quantity payload ->
  exists detail,
    request (create_sale_return sale_id payload u) db
    = (Raise (HTTPException HTTP_400_BAD_REQUEST detail), db).
Proof.
  intros Hsale Hscope Hshop Hactive [product Hproduct] Hlt.
  unfold request, create_sale_return. tx_eval.
  rewrite Hsale. tx_eval.
  rewrite check_scope_run by exact Hscope. tx_eval.
  rewrite Hshop. tx_eval. rewrite Hactive. tx_eval.
  rewrite Hproduct. tx_eval.
  destruct (Z.leb_spec (Sale.quantity sale - returned_quantity sale_id (DB.sale_returns db)) 0)
    as [Hle|Hgt]; tx_eval.
  - eexists. reflexivity.
  - destruct (Z.ltb_spec
                (Sale.quantity sale - returned_quantity sale_id (DB.sale_returns db))
                (SaleReturnCreateRequest.quantity payload)) as [_|Hge]; [|lia].
    tx_eval. eexists. reflexivity.
Qed.

(** C4 (as amended).  Through any sequence of requests the quantities returned
    against a sale add up to at most the quantity sold; a return request for
    more than remains of the sale, from a user in scope and for an active shop,
    is refused with status 400 (a Validation error, not a Conflict) and changes
    nothing; so is a request for Q+1 units of a sale of Q of which nothing has
    been returned. *)
Theorem returns_never_exceed_sale :
  (forall (rs : list Request) (db : DB.t),
     returns_ok db ->
     forall n k sale,
       let db' := serve_all (take n rs) db in
       DB.sales db' !! k = Some sale ->
       returned_quantity k (DB.sale_returns db') <= Sale.quantity sale) /\
  (forall db sale_id payload u sale shop,
     DB.sales db !! sale_id = Some sale ->
     in_scope u (Sale.shop_id sale) db = true ->
     DB.shops db !! Sale.shop_id sale = Some shop ->
     Shop.is_active shop = true ->
     is_Some (DB.products db !! Sale.product_id sale) ->
     (Sale.quantity sale - returned_quantity sale_id (DB.sale_returns db)
      < SaleReturnCreateRequest.quantity payload
      \/ (returned_quantity sale_id (DB.sale_returns db) = 0 /\
          SaleReturnCreateRequest.quantity payload = Sale.quantity sale + 1)) ->
     exists detail,
       request (create_sale_return sale_id payload u) db
       = (Raise (HTTPException HTTP_400_BAD_REQUEST detail), db)).
Proof.
  split.
  - intros rs db Hok n k sale db' Hsale.
    destruct (serve_all_returns_ok (take n rs) db Hok) as [Hb _].
    apply Hb, Hsale.
  - intros db sale_id payload u sale shop Hsale Hscope Hshop Hactive Hproduct Hq.
    eapply create_sale_return_exceeds; try eassumption.
    destruct Hq as [Hq|[H0 H1]]; lia.
Qed.

Lemma returns_never_exceed_sale_witness :
  let db := snd (request (create_sale (SaleCreateRequest.mk 1 7 40 None) owner) example_db) in
  exists detail,
    request (create_sale_return 1 (SaleReturnCreateRequest.mk 50 true) owner) db
    = (Raise (HTTPException HTTP_400_BAD_REQUEST detail), db).
Proof.
  intros db.
  apply (proj2 returns_never_exceed_sale db 1 (SaleReturnCreateRequest.mk 50 true) owner
           (Sale.mk 1 7 (Some 1) 40 10 15 (15 * inject_Z 40) (10 * inject_Z 40)
              (15 * inject_Z 40 - 10 * inject_Z 40))
           (Shop.mk "A" "Shop A" true)).
  - vm_compute. reflexivity.
  - vm_compute. reflexivity.
  - vm_compute. reflexivity.
  - reflexivity.
  - eexists. vm_compute. reflexivity.
  - left. vm_compute. reflexivity.
Defined.

(** C4 as stated fails on the kind of the error: for a sale of 40 units of which
    nothing was returned, a request to return 41 is refused with status 400,
    which is not a Conflict. *)
Lemma returns_never_exceed_sale_counterexample :
  let db := snd (request (create_sale (SaleCreateRequest.mk 1 7 40 None) owner) example_db) in
  exists sale,
    DB.sales db !! 1 = Some sale /\ Sale.quantity sale = 40 /\
    returned_quantity 1 (DB.sale_returns db) = 0 /\
    request (create_sale_return 1 (SaleReturnCreateRequest.mk 41 true) owner) db
    = (Raise (HTTPException HTTP_400_BAD_REQUEST
                "Return quantity exceeds remaining sale quantity (40)"), db) /\
    is_conflict (HTTPException HTTP_400_BAD_REQUEST
                   "Return quantity exceeds remaining sale quantity (40)") = false.
Proof.
  intros db. eexists.
  split; [vm_compute; reflexivity|].
  split; [reflexivity|]. split; [reflexivity|].
  split; [vm_compute; reflexivity | reflexivity].
Qed.

(** ** A purchase whose stock is gone *)

Lemma check_supplier_run supplier_id shop_id msg s :
  supplier_ok supplier_id shop_id (pending s) = true ->
  check_supplier supplier_id shop_id msg s = (Ok tt, s).
Proof.
  unfold supplier_ok, check_supplier. destruct supplier_id as [k|]; [|reflexivity].
  tx_eval. destruct (DB.suppliers (pending s) !! k) as [supplier|]; [|discriminate].
  intros H. apply andb_true_iff in H as [H1 H2]. tx_eval.
  rewrite H1, H2. reflexivity.
Qed.

Lemma get_stock_run k s row :
  DB.stocks (pending s) !! k = Some row -> get_stock k s = (Ok row, s).
Proof. intros H. unfold get_stock. rewrite H. reflexivity. Qed.

Lemma update_purchase_consumed purchase_id payload u s purchase stock row :
  DB.purchases (pending s) !! purchase_id = Some purchase ->
  in_scope u (Purchase.shop_id purchase) (pending s) = true ->
  select_first (fun row => (Stock.shop_id row =? Purchase.shop_id purchase) &&
                           (Stock.product_id row =? Purchase.product_id purchase))
    (DB.stocks (pending s)) = Some stock ->
  DB.stocks (pending s) !! stock = Some row ->
  supplier_ok (match PurchaseUpdate.supplier_id payload with
               | Some k => Some k
               | None => Purchase.supplier_id purchase
               end) (Purchase.shop_id purchase) (pending s) = true ->
  Stock.quantity_on_hand row < Purchase.quantity purchase ->
  update_purchase purchase_id payload u s
  = (Raise (HTTPException HTTP_409_CONFLICT
              "Cannot modify purchase because purchased stock has already been consumed"),
     s).
Proof.
  intros Hpurchase Hscope Hsel Hrow Hsupplier Hlt.
  unfold update_purchase, select_stock. tx_eval.
  rewrite Hpurchase. tx_eval.
  rewrite check_scope_run by exact Hscope.
  rewrite Hsel. tx_eval.
  rewrite check_supplier_run by exact Hsupplier.
  rewrite (get_stock_run _ _ _ Hrow).
  rewrite remove_purchase_effect_conflict by exact Hlt. reflexivity.
Qed.

Lemma delete_purchase_consumed purchase_id u s purchase stock row :
  DB.purchases (pending s) !! purchase_id = Some purchase ->
  in_scope u (Purchase.shop_id purchase) (pending s) = true ->
  select_first (fun row => (Stock.shop_id row =? Purchase.shop_id purchase) &&
                           (Stock.product_id row =? Purchase.product_id purchase))
    (DB.stocks (pending s)) = Some stock ->
  DB.stocks (pending s) !! stock = Some row ->
  Stock.quantity_on_hand row < Purchase.quantity purchase ->
  delete_purchase purchase_id u s
  = (Raise (HTTPException HTTP_409_CONFLICT
              "Cannot modify purchase because purchased stock has already been consumed"),
     s).
Proof.
  intros Hpurchase Hscope Hsel Hrow Hlt.
  unfold delete_purchase, select_stock. tx_eval.
  rewrite Hpurchase. tx_eval.
  rewrite check_scope_run by exact Hscope.
  rewrite Hsel. tx_eval.
  rewrite (get_stock_run _ _ _ Hrow).
  rewrite remove_purchase_effect_conflict by exact Hlt. reflexivity.
Qed.

Lemma update_purchase_rejected purchase_id payload u db purchase stock row :
  DB.purchases db !! purchase_id = Some purchase ->
  select_first (fun row => (Stock.shop_id row =? Purchase.shop_id purchase) &&
                           (Stock.product_id row =? Purchase.product_id purchase))
    (DB.stocks db) = Some stock ->
  DB.stocks db !! stock = Some row ->
  Stock.quantity_on_hand row < Purchase.quantity purchase ->
  exists e, request (update_purchase purchase_id payload u) db = (Raise e, db).
Proof.
  intros Hpurchase Hsel Hrow Hlt.
  destruct (request _ db) as [[[k purchase']|e] db'] eqn:E.
  - apply update_purchase_Ok in E
      as (purchase0 & stock0 & row0 & row1 & row2 & Hp0 & Hsel0 & Hrow0 & Hrem & _).
    rewrite Hpurchase in Hp0. injection Hp0 as <-.
    rewrite Hsel in Hsel0. injection Hsel0 as <-.
    rewrite Hrow in Hrow0. injection Hrow0 as <-.
    apply remove_purchase_effect_Ok in Hrem as (Hle & _). lia.
  - exists e. f_equal. eapply request_atomic; [apply update_purchase_atomic | exact E].
Qed.

Lemma delete_purchase_rejected purchase_id u db purchase stock row :
  DB.purchases db !! purchase_id = Some purchase ->
  select_first (fun row => (Stock.shop_id row =? Purchase.shop_id purchase) &&
                           (Stock.product_id row =? Purchase.product_id purchase))
    (DB.stocks db) = Some stock ->
  DB.stocks db !! stock = Some row ->
  Stock.quantity_on_hand row < Purchase.quantity purchase ->
  exists e, request (delete_purchase purchase_id u) db = (Raise e, db).
Proof.
  intros Hpurchase Hsel Hrow Hlt.
  destruct (request _ db) as [[[k purchase']|e] db'] eqn:E.
  - apply delete_purchase_Ok in E
      as (stock0 & row0 & row1 & Hp0 & Hsel0 & Hrow0 & Hrem & _).
    rewrite Hpurchase in Hp0. injection Hp0 as <-.
    rewrite Hsel in Hsel0. injection Hsel0 as <-.
    rewrite Hrow in Hrow0. injection Hrow0 as <-.
    apply remove_purchase_effect_Ok in Hrem as (Hle & _). lia.
  - exists e. f_equal. eapply request_atomic; [apply delete_purchase_atomic | exact E].
Qed.

(** C5.  [_remove_purchase_effect] raises a Conflict when the purchase holds
    more than the row has on hand.  An edit or a delete of such a purchase, by a
    user in scope (and, for an edit, with a valid supplier), ends with that
    Conflict and leaves the session exactly as it found it: nothing has been
    written, pending or committed, so the new effect was never applied.
    Whoever the user and whatever the supplier, the request fails and the
    database is unchanged. *)
Theorem failed_reversal_rejects_edit :
  (forall row qty buy sell,
     Stock.quantity_on_hand row < qty ->
     exists detail,
       _remove_purchase_effect row qty buy sell
       = Raise (HTTPException HTTP_409_CONFLICT detail)) /\
  (forall purchase_id payload u s purchase stock row,
     DB.purchases (pending s) !! purchase_id = Some purchase ->
     in_scope u (Purchase.shop_id purchase) (pending s) = true ->
     select_first (fun row => (Stock.shop_id row =? Purchase.shop_id purchase) &&
                              (Stock.product_id row =? Purchase.product_id purchase))
       (DB.stocks (pending s)) = Some stock ->
     DB.stocks (pending s) !! stock = Some row ->
     supplier_ok (match PurchaseUpdate.supplier_id payload with
                  | Some k => Some k
                  | None => Purchase.supplier_id purchase
                  end) (Purchase.shop_id purchase) (pending s) = true ->
     Stock.quantity_on_hand row < Purchase.quantity purchase ->
     exists detail,
       update_purchase purchase_id payload u s
       = (Raise (HTTPException HTTP_409_CONFLICT detail), s)) /\
  (forall purchase_id u s purchase stock row,
     DB.purchases (pending s) !! purchase_id = Some purchase ->
     in_scope u (Purchase.shop_id purchase) (pending s) = true ->
     select_first (fun row => (Stock.shop_id row =? Purchase.shop_id purchase) &&
                              (Stock.product_id row =? Purchase.product_id purchase))
       (DB.stocks (pending s)) = Some stock ->
     DB.stocks (pending s) !! stock = Some row ->
     Stock.quantity_on_hand row < Purchase.quantity purchase ->
     exists detail,
       delete_purchase purchase_id u s
       = (Raise (HTTPException HTTP_409_CONFLICT detail), s)) /\
  (forall purchase_id u db purchase stock row,
     DB.purchases db !! purchase_id = Some purchase ->
     select_first (fun row => (Stock.shop_id row =? Purchase.shop_id purchase) &&
                              (Stock.product_id row =? Purchase.product_id purchase))
       (DB.stocks db) = Some stock ->
     DB.stocks db !! stock = Some row ->
     Stock.quantity_on_hand row < Purchase.quantity purchase ->
     (forall payload,
        exists e, request (update_purchase purchase_id payload u) db = (Raise e, db)) /\
     (exists e, request (delete_purchase purchase_id u) db = (Raise e, db))).
Proof.
  split.
  { intros row qty buy sell Hlt. eexists.
    apply remove_purchase_effect_conflict. exact Hlt. }
  split.
  { intros. eexists. eapply update_purchase_consumed; eassumption. }
  split.
  { intros. eexists. eapply delete_purchase_consumed; eassumption. }
  intros purchase_id u db purchase stock row Hp Hsel Hrow Hlt. split.
  - intros payload. eapply update_purchase_rejected; eassumption.
  - eapply delete_purchase_rejected; eassumption.
Qed.

Lemma failed_reversal_rejects_edit_witness :
  let db1 :=
    snd (request (create_purchase (PurchaseCreate.mk 1 7 None None 100 12 None) owner)
           example_db) in
  let db2 := snd (request (create_sale (SaleCreateRequest.mk 1 7 150 None) owner) db1) in
  exists detail,
    update_purchase 1 (PurchaseUpdate.mk None None (Some 120) None None) owner
      (mkSession db2 db2)
    = (Raise (HTTPException HTTP_409_CONFLICT detail), mkSession db2 db2).
Proof.
  intros db1 db2.
  destruct failed_reversal_rejects_edit as (_ & Hupdate & _).
  apply (Hupdate 1 (PurchaseUpdate.mk None None (Some 120) None None) owner
           (mkSession db2 db2)
           (Purchase.mk 1 7 None None (Some 1) "piece" 100 (_quantize_price 12)
              (_quantize_price 15) (_quantize_price (12 * inject_Z 100)))
           1 (Stock.mk 1 7 50 (_quantize_price ((10 * inject_Z 100 + 12 * inject_Z 100)
                                                 / inject_Z 200))
                (_quantize_price ((15 * inject_Z 100 + 15 * inject_Z 100)
                                  / inject_Z 200)))).
  - vm_compute. reflexivity.
  - vm_compute. reflexivity.
  - vm_compute. reflexivity.
  - vm_compute. reflexivity.
  - vm_compute. reflexivity.
  - cbn. lia.
Defined.

(** ** Transfers move stock, they do not make or lose any *)

Lemma moved_rows payload target_product stocks0 stocks2 b sl :
  TransferStockRequest.from_shop_id payload <> TransferStockRequest.to_shop_id payload ->
  moved payload target_product stocks0 stocks2 b sl ->
  let T := TransferStockRequest.quantity payload in
  exists source target source_row target_row',
    stocks0 !! source = Some source_row /\
    Stock.shop_id source_row = TransferStockRequest.from_shop_id payload /\
    Stock.product_id source_row = TransferStockRequest.product_id payload /\
    stocks2 !! source
    = Some (Stock.set_quantity_on_hand (Stock.quantity_on_hand source_row - T) source_row) /\
    source <> target /\
    stocks2 !! target = Some target_row' /\
    Stock.shop_id target_row' = TransferStockRequest.to_shop_id payload /\
    Stock.quantity_on_hand target_row'
    = from_option Stock.quantity_on_hand 0 (stocks0 !! target) + T /\
    (forall k, k <> source -> k <> target -> stocks2 !! k = stocks0 !! k).
Proof.
  intros Hne (source & row & Hsel & Hrow & Hle & _ & _ & Htarget) T.
  cbv zeta in Htarget. fold T in Htarget, Hle.
  pose proof Hsel as Hsrc. apply select_stock_row in Hsrc as (row0 & Hrow0 & Hshop & Hprod).
  rewrite Hrow in Hrow0. injection Hrow0 as <-.
  set (stocks1 := <[source := Stock.set_quantity_on_hand
                                (Stock.quantity_on_hand row - T) row]> stocks0) in *.
  match type of Htarget with
  | match ?x with _ => _ end => destruct x as [target|] eqn:Etarget
  end.
  - destruct Htarget as (target_row & Ht & _ & Est).
    apply select_stock_row in Etarget as (trow & Htrow & Htshop & _).
    assert (Hst : source <> target).
    { intros ->. rewrite Hrow in Htrow. injection Htrow as <-. congruence. }
    unfold stocks1 in Ht. rewrite lookup_insert_ne in Ht by exact Hst.
    rewrite Htrow in Ht. injection Ht as <-.
    eexists source, target, row, _.
    split; [exact Hrow|]. split; [exact Hshop|]. split; [exact Hprod|].
    split. { rewrite Est, lookup_insert_ne by congruence. apply lookup_insert_eq. }
    split; [exact Hst|].
    split. { rewrite Est. apply lookup_insert_eq. }
    split; [exact Htshop|]. rewrite Htrow. cbn.
    split; [reflexivity|].
    intros k Hk1 Hk2. rewrite Est. unfold stocks1.
    rewrite !lookup_insert_ne by congruence. reflexivity.
  - pose proof (fresh_id_fresh stocks1) as Hfresh.
    assert (Hst : source <> fresh_id stocks1).
    { intros Heq. rewrite <- Heq in Hfresh. unfold stocks1 in Hfresh.
      rewrite lookup_insert_eq in Hfresh. discriminate. }
    assert (Hnone : stocks0 !! fresh_id stocks1 = None).
    { rewrite <- Hfresh. unfold stocks1 at 3.
      rewrite lookup_insert_ne by exact Hst. reflexivity. }
    eexists source, (fresh_id stocks1), row, _.
    split; [exact Hrow|]. split; [exact Hshop|]. split; [exact Hprod|].
    split. { rewrite Htarget, lookup_insert_ne by congruence. apply lookup_insert_eq. }
    split; [exact Hst|].
    split. { rewrite Htarget. apply lookup_insert_eq. }
    split; [reflexivity|]. rewrite Hnone. cbn.
    split; [reflexivity|].
    intros k Hk1 Hk2. rewrite Htarget. rewrite lookup_insert_ne by congruence.
    unfold stocks1. rewrite lookup_insert_ne by congruence. reflexivity.
Qed.

(** C6.  A successful transfer of [T] units takes exactly [T] from the row of
    the source shop and adds exactly [T] to the row of the destination shop, a
    different row, created with quantity [T] when the shop had none; every other
    row is untouched, and the two rows hold together what they held before. *)
Theorem transfer_conserves_quantity payload u db transfer_id transfer db' :
  request (transfer_stock payload u) db = (Ok (transfer_id, transfer), db') ->
  let T := TransferStockRequest.quantity payload in
  exists source target source_row source_row' target_row',
    DB.stocks db !! source = Some source_row /\
    Stock.shop_id source_row = TransferStockRequest.from_shop_id payload /\
    Stock.product_id source_row = TransferStockRequest.product_id payload /\
    DB.stocks db' !! source = Some source_row' /\
    Stock.quantity_on_hand source_row' = Stock.quantity_on_hand source_row - T /\
    source <> target /\
    DB.stocks db' !! target = Some target_row' /\
    Stock.shop_id target_row' = TransferStockRequest.to_shop_id payload /\
    Stock.quantity_on_hand target_row'
    = from_option Stock.quantity_on_hand 0 (DB.stocks db !! target) + T /\
    (forall k, k <> source -> k <> target -> DB.stocks db' !! k = DB.stocks db !! k) /\
    Stock.quantity_on_hand source_row' + Stock.quantity_on_hand target_row'
    = Stock.quantity_on_hand source_row
      + from_option Stock.quantity_on_hand 0 (DB.stocks db !! target).
Proof.
  intros H T.
  apply transfer_stock_Ok in H as (Hne & _ & _ & _ & _ & _ & tp & Hmoved).
  destruct (moved_rows _ _ _ _ _ _ Hne Hmoved)
    as (source & target & source_row & target_row'
        & Hs & Hshop & Hprod & Hs' & Hst & Ht' & Htshop & Hq & Hother).
  fold T in Hs', Hq.
  eexists source, target, source_row, _, target_row'.
  split; [exact Hs|]. split; [exact Hshop|]. split; [exact Hprod|].
  split; [exact Hs'|]. split; [reflexivity|]. split; [exact Hst|].
  split; [exact Ht'|]. split; [exact Htshop|]. split; [exact Hq|].
  split; [exact Hother|]. cbn. lia.
Qed.

Lemma transfer_conserves_quantity_witness :
  let db' := snd (request (transfer_stock (TransferStockRequest.mk 7 1 2 10 None) owner)
                    example_db) in
  exists source target source_row' target_row',
    source <> target /\
    DB.stocks db' !! source = Some source_row' /\
    Stock.quantity_on_hand source_row' = 100 - 10 /\
    DB.stocks db' !! target = Some target_row' /\
    Stock.quantity_on_hand target_row'
    = from_option Stock.quantity_on_hand 0 (DB.stocks example_db !! target) + 10.
Proof.
  intros db'.
  destruct (transfer_conserves_quantity (TransferStockRequest.mk 7 1 2 10 None) owner
              example_db 1
              (StockTransfer.mk 7 1 2 (Some 1) 10 10 15 None) db')
    as (source & target & source_row & source_row' & target_row'
        & Hs & _ & _ & Hs' & Hq & Hne & Ht' & _ & Hqt & _).
  { vm_compute. reflexivity. }
  assert (source = 1) as ->.
  { destruct (decide (source = 1)) as [E|E]; [exact E|].
    exfalso. unfold example_db in Hs. cbn [DB.stocks] in Hs.
    rewrite lookup_insert_ne, lookup_empty in Hs by congruence. discriminate. }
  unfold example_db in Hs. cbn [DB.stocks] in Hs.
  rewrite lookup_insert_eq in Hs. injection Hs as <-.
  exists 1, target, source_row', target_row'.
  split; [exact Hne|]. split; [exact Hs'|]. split; [exact Hq|].
  split; [exact Ht' | exact Hqt].
Defined.

(** ** A sale *)



(** ** Prices that stay *)

(** C8.  A successful sale and a successful return, restocking or not, leave
    every existing stock row in place with its buying and selling price; the
    return is priced from the sale, not from the row.  A successful transfer
    leaves the prices of the row of the source shop. *)
Theorem sale_return_transfer_keep_prices :
  (forall payload u db sale_id sale db',
     request (create_sale payload u) db = (Ok (sale_id, sale), db') ->
     forall k row,
       DB.stocks db !! k = Some row ->
       exists row',
         DB.stocks db' !! k = Some row' /\
         Stock.buying_price row' = Stock.buying_price row /\
         Stock.selling_price row' = Stock.selling_price row) /\
  (forall sale_id payload u db ret db',
     request (create_sale_return sale_id payload u) db = (Ok ret, db') ->
     (exists sale,
        DB.sales db !! sale_id = Some sale /\ DB.sales db' !! sale_id = Some sale) /\
     forall k row,
       DB.stocks db !! k = Some row ->
       exists row',
         DB.stocks db' !! k = Some row' /\
         Stock.buying_price row' = Stock.buying_price row /\
         Stock.selling_price row' = Stock.selling_price row) /\
  (forall payload u db transfer_id transfer db',
     request (transfer_stock payload u) db = (Ok (transfer_id, transfer), db') ->
     exists source row row',
       select_first
         (fun row => (Stock.shop_id row =? TransferStockRequest.from_shop_id payload) &&
                     (Stock.product_id row =? TransferStockRequest.product_id payload))
         (DB.stocks db) = Some source /\
       DB.stocks db !! source = Some row /\
       DB.stocks db' !! source = Some row' /\
       Stock.quantity_on_hand row'
       = Stock.quantity_on_hand row - TransferStockRequest.quantity payload /\
       Stock.buying_price row' = Stock.buying_price row /\
       Stock.selling_price row' = Stock.selling_price row).
Proof.
  split; [|split].
  - intros payload u db sale_id sale db' H k row Hrow.
    apply create_sale_Ok in H
      as (stock & srow & _ & Hsrow & _ & _ & _ & _ & _ & _ & _ & _ & ->).
    db_simpl. destruct (decide (k = stock)) as [->|Hne].
    + rewrite Hsrow in Hrow. injection Hrow as <-.
      eexists. split; [apply lookup_insert_eq|]. split; reflexivity.
    + exists row. rewrite lookup_insert_ne by congruence. auto.
  - intros sale_id payload u db ret db' H.
    apply create_sale_return_Ok in H as (sale & Hsale & _ & _ & _ & Esa & _ & _ & _ & Est).
    split. { exists sale. rewrite Esa. auto. }
    intros k row Hrow.
    destruct (SaleReturnCreateRequest.restock payload);
      [|exists row; rewrite Est; auto].
    destruct (select_first _ (DB.stocks db)) as [stock|].
    + destruct Est as (srow & Hsrow & ->).
      destruct (decide (k = stock)) as [->|Hne].
      * rewrite Hsrow in Hrow. injection Hrow as <-.
        eexists. split; [apply lookup_insert_eq|]. split; reflexivity.
      * exists row. rewrite lookup_insert_ne by congruence. auto.
    + exists row. rewrite Est. split; [|auto].
      rewrite lookup_insert_ne; [exact Hrow|].
      intros <-. rewrite fresh_id_fresh in Hrow. discriminate.
  - intros payload u db transfer_id transfer db' H.
    apply transfer_stock_Ok in H as (Hne & _ & _ & _ & _ & _ & tp & Hmoved).
    pose proof Hmoved as (source0 & row0 & Hsel & Hrow0 & _).
    destruct Hmoved as (source1 & row1 & Hsel1 & Hrow1 & _ & _ & _ & Htarget).
    exists source0, row0.
    assert (Hsame : DB.stocks db' !! source0
                    = Some (Stock.set_quantity_on_hand
                              (Stock.quantity_on_hand row0
                               - TransferStockRequest.quantity payload) row0)).
    { rewrite Hsel in Hsel1. injection Hsel1 as <-.
      rewrite Hrow0 in Hrow1. injection Hrow1 as <-.
      cbv zeta in Htarget.
      apply select_stock_row in Hsel as (r & Hr & Hfrom & _).
      rewrite Hrow0 in Hr. injection Hr as <-.
      match type of Htarget with
      | match ?x with _ => _ end => destruct x as [t|] eqn:Et
      end.
      - destruct Htarget as (trow & _ & _ & ->).
        apply select_stock_row in Et as (r & Hr & Hto & _).
        rewrite lookup_insert_ne; [apply lookup_insert_eq|].
        intros <-. rewrite Hrow0 in Hr. injection Hr as <-. congruence.
      - rewrite Htarget. rewrite lookup_insert_ne; [apply lookup_insert_eq|].
        intros Heq.
        pose proof (fresh_id_fresh
                      (<[source0 := Stock.set_quantity_on_hand
                                      (Stock.quantity_on_hand row0
                                       - TransferStockRequest.quantity payload) row0]>
                         (DB.stocks db))) as Hf.
        rewrite Heq, lookup_insert_eq in Hf. discriminate. }
    eexists. split; [exact Hsel|]. split; [exact Hrow0|]. split; [exact Hsame|].
    repeat split.
Qed.

Lemma sale_return_transfer_keep_prices_witness :
  let db' := snd (request (create_sale (SaleCreateRequest.mk 1 7 40 None) owner) example_db) in
  exists row',
    DB.stocks db' !! 1 = Some row' /\
    Stock.buying_price row' = 10%Q /\
    Stock.selling_price row' = 15%Q.
Proof.
  intros db'.
  destruct sale_return_transfer_keep_prices as (Hsale & _ & _).
  apply (Hsale (SaleCreateRequest.mk 1 7 40 None) owner example_db 1
           (Sale.mk 1 7 (Some 1) 40 10 15 (15 * inject_Z 40) (10 * inject_Z 40)
              (15 * inject_Z 40 - 10 * inject_Z 40)) db' eq_refl
           1 (Stock.mk 1 7 100 10 15)).
  vm_compute. reflexivity.
Defined.

(** ** The selling price of a purchase that names none *)

Lemma apply_purchase_effect_same_selling_price row qty buy sell row' :
  _apply_purchase_effect row qty buy sell = Ok row' ->
  (sell == Stock.selling_price row)%Q ->
  two_decimals (Stock.selling_price row) ->
  (Stock.selling_price row' == Stock.selling_price row)%Q.
Proof.
  unfold _apply_purchase_effect. intros H Hsell Htwo.
  destruct (Z.eqb_spec (Stock.quantity_on_hand row) 0) as [E|E].
  - injection H as <-. cbn [Stock.selling_price Stock.set_selling_price].
    rewrite Hsell. exact Htwo.
  - unfold mbind, result_bind in H.
    destruct (Decimal.div _ _) as [wb|] eqn:Eb; [|discriminate].
    destruct (Decimal.div _ _) as [ws|] eqn:Es in H; [|discriminate].
    injection H as <-.
    cbn [Stock.selling_price Stock.set_selling_price Stock.set_buying_price
         Stock.set_quantity_on_hand].
    apply Decimal_div_inv in Es as [Hnz ->].
    unfold two_decimals in Htwo. rewrite <- Htwo at 2. apply _quantize_price_proper.
    rewrite Hsell. unfold Decimal.of_int in *. rewrite inject_Z_plus in *.
    field. exact Hnz.
Qed.

(** C10.  A purchase that names no selling price and finds no stock row for its
    shop and product records its buying price (quantized) as the selling price,
    in the purchase and in the row it creates.  When a row exists, the selling
    price recorded in the purchase is the selling price of that row, and the row
    keeps it. *)
Theorem purchase_default_selling_price payload u db purchase_id purchase db' :
  request (create_purchase payload u) db = (Ok (purchase_id, purchase), db') ->
  PurchaseCreate.unit_selling_price payload = None ->
  match select_first
          (fun row => (Stock.shop_id row =? PurchaseCreate.shop_id payload) &&
                      (Stock.product_id row =? PurchaseCreate.product_id payload))
          (DB.stocks db) with
  | None =>
      Purchase.unit_selling_price purchase
      = _quantize_price (PurchaseCreate.unit_buying_price payload) /\
      Purchase.unit_selling_price purchase = Purchase.unit_buying_price purchase /\
      exists row',
        DB.stocks db' !! fresh_id (DB.stocks db) = Some row' /\
        Stock.shop_id row' = PurchaseCreate.shop_id payload /\
        Stock.product_id row' = PurchaseCreate.product_id payload /\
        Stock.selling_price row' = _quantize_price (PurchaseCreate.unit_buying_price payload) /\
        Stock.buying_price row' = _quantize_price (PurchaseCreate.unit_buying_price payload)
  | Some stock =>
      exists row row',
        DB.stocks db !! stock = Some row /\
        DB.stocks db' !! stock = Some row' /\
        Purchase.unit_selling_price purchase = _quantize_price (Stock.selling_price row) /\
        (two_decimals (Stock.selling_price row) ->
         (Purchase.unit_selling_price purchase == Stock.selling_price row)%Q /\
         (Stock.selling_price row' == Stock.selling_price row)%Q)
  end.
Proof.
  intros H Hnone.
  apply create_purchase_Ok in H as (stock & row & sell & row' & Hsel & Happ & _
                                    & Hbuy & Hsell & _ & Est & _).
  rewrite Hnone in Hsel. cbn [default] in Hsel.
  destruct (select_first _ (DB.stocks db)) as [k|].
  - destruct Hsel as (-> & Hrow & ->).
    exists row, row'. split; [exact Hrow|].
    split; [rewrite Est; apply lookup_insert_eq|].
    split; [exact Hsell|].
    intros Htwo. split.
    + rewrite Hsell. exact Htwo.
    + eapply apply_purchase_effect_same_selling_price; [exact Happ | reflexivity | exact Htwo].
  - destruct Hsel as (-> & -> & ->).
    split; [exact Hsell|]. split; [congruence|].
    rewrite apply_purchase_effect_empty in Happ by reflexivity. injection Happ as <-.
    eexists. split; [rewrite Est; apply lookup_insert_eq|].
    repeat split.
Qed.

Lemma purchase_default_selling_price_witness :
  let payload := PurchaseCreate.mk 2 9 None None 5 (1005 # 100) None in
  let db := DB.set_products
              (<[9 := Product.mk 2 "SKU-9" "Gadget" "piece" None true]>
                 (DB.products example_db)) example_db in
  exists purchase row',
    fst (request (create_purchase payload owner) db) = Ok (1, purchase) /\
    (Purchase.unit_selling_price purchase == 1005 # 100)%Q /\
    DB.stocks (snd (request (create_purchase payload owner) db)) !! 2 = Some row' /\
    (Stock.selling_price row' == 1005 # 100)%Q.
Proof.
  intros payload db.
  pose proof (purchase_default_selling_price payload owner db 1
                (Purchase.mk 2 9 None None (Some 1) "piece" 5
                   (_quantize_price (1005 # 100)) (_quantize_price (1005 # 100))
                   (_quantize_price ((1005 # 100) * inject_Z 5)))
                (snd (request (create_purchase payload owner) db))) as H.
  assert (Hrun : request (create_purchase payload owner) db
                 = (Ok (1, Purchase.mk 2 9 None None (Some 1) "piece" 5
                             (_quantize_price (1005 # 100)) (_quantize_price (1005 # 100))
                             (_quantize_price ((1005 # 100) * inject_Z 5))),
                    snd (request (create_purchase payload owner) db))).
  { vm_compute. reflexivity. }
  specialize (H Hrun eq_refl).
  assert (Hsel : select_first
                   (fun row => (Stock.shop_id row =? PurchaseCreate.shop_id payload) &&
                               (Stock.product_id row =? PurchaseCreate.product_id payload))
                   (DB.stocks db) = None) by (vm_compute; reflexivity).
  rewrite Hsel in H. destruct H as (Hsell & _ & row' & Hrow' & _ & _ & Hs & _).
  eexists _, row'. split; [rewrite Hrun; reflexivity|].
  split; [vm_compute; reflexivity|].
  split.
  - assert (Hf : fresh_id (DB.stocks db) = 2) by (vm_compute; reflexivity).
    rewrite Hf in Hrow'. exact Hrow'.
  - rewrite Hs. vm_compute. reflexivity.
Defined.

(** ** Rows change through the ledger effects only *)

Section RowsEvolve.
Context (R : relation Stock.t).





End RowsEvolve.









(** ** More on rounding *)









(** ** What the guards let through *)

Lemma check_scope_Ok u shop_id s v s' :
  check_scope u shop_id s = (Ok v, s') ->
  in_scope u shop_id (pending s) = true /\ s' = s.
Proof.
  unfold check_scope, in_scope. destruct (_is_system_owner u); cbn [negb orb].
  { intros [= _ <-]. auto. }
  unfold _get_assigned_shop, _enforce_shop_scope, mbind, Tx_bind, query, or_raise.
  destruct (DB.shops (pending s) !! User.shop_id u) as [shop|] eqn:E; [|discriminate].
  cbn [mret Tx_ret]. unfold raise_if.
  destruct (Z.eqb_spec shop_id (User.shop_id u)) as [->|Hne]; [|discriminate].
  intros [= _ <-]. split; [|reflexivity].
  apply andb_true_iff. split; [|reflexivity].
  apply bool_decide_eq_true. eauto.
Qed.

Lemma _validate_transfer_scope_Ok u from_shop_id to_shop_id s v s' :
  _validate_transfer_scope u from_shop_id to_shop_id s = (Ok v, s') ->
  in_scope u from_shop_id (pending s) = true /\ s' = s.
Proof.
  unfold _validate_transfer_scope, in_scope. destruct (_is_system_owner u); cbn [orb].
  { intros [= _ <-]. auto. }
  unfold _get_assigned_shop, mbind, Tx_bind, query, or_raise.
  destruct (DB.shops (pending s) !! User.shop_id u) as [shop|] eqn:E; [|discriminate].
  cbn [mret Tx_ret]. unfold raise_if.
  destruct (Z.eqb_spec from_shop_id (User.shop_id u)) as [->|Hne]; cbn [negb andb].
  - intros [= _ <-]. split; [|reflexivity].
    apply andb_true_iff. split; [|reflexivity].
    apply bool_decide_eq_true. eauto.
  - destruct (negb (to_shop_id =? User.shop_id u)); discriminate.
Qed.

Lemma check_supplier_Ok supplier_id shop_id msg s v s' :
  check_supplier supplier_id shop_id msg s = (Ok v, s') ->
  supplier_ok supplier_id shop_id (pending s) = true /\ s' = s.
Proof.
  unfold check_supplier, supplier_ok. destruct supplier_id as [k|].
  - unfold mbind, Tx_bind, query, or_raise.
    destruct (DB.suppliers (pending s) !! k) as [supplier|]; [|discriminate].
    cbn [mret Tx_ret]. unfold raise_if.
    destruct (Supplier.shop_id supplier =? shop_id); [|discriminate].
    destruct (Supplier.is_active supplier); [|discriminate].
    intros [= _ <-]. auto.
  - intros [= _ <-]. auto.
Qed.

(** Inversion of a successful run that keeps what the guards checked. *)
Ltac tx_prim2 H :=
  first
    [ apply check_scope_Ok in H as [? ->]
    | apply _validate_transfer_scope_Ok in H as [? ->]
    | apply check_supplier_Ok in H as [? ->]
    | tx_prim H ].

Ltac tx_bind2 H :=
  let a := fresh "a" in
  let s1 := fresh "s" in
  let H1 := fresh "Hstep" in
  apply bind_Ok in H as (a & s1 & H1 & H);
  cbv beta zeta in H;
  repeat match type of H with
  | context [let '(_, _) := ?p in _] => destruct p
  end;
  cbn [pending committed] in *;
  try (tx_prim2 H1; cbn [pending committed] in * ).

Ltac tx_run2 H :=
  repeat (tx_bind2 H); try (tx_prim2 H; cbn [pending committed] in * );
  simplify_eq; guards.

Lemma adjust_stock_noop stock_id u s row :
  DB.stocks (pending s) !! stock_id = Some row ->
  in_scope u (Stock.shop_id row) (pending s) = true ->
  adjust_stock stock_id (StockAdjustRequest.mk 0 None None) u s
  = (Raise (HTTPException HTTP_400_BAD_REQUEST "No adjustment provided"), s).
Proof.
  intros Hrow Hscope. unfold adjust_stock. tx_eval. rewrite Hrow. tx_eval.
  rewrite check_scope_run by exact Hscope. reflexivity.
Qed.

(** X3.  A successful adjustment appends exactly one record to the
    adjustments, and the record tells what happened to the row: the quantity
    before is the quantity the row had, the quantity after is the quantity it
    has now, and the two differ by the delta of the request; the user who
    adjusted was in scope for the shop of the row.  A request with a zero delta
    and no price is always refused and records nothing; from a user in scope
    of an existing row it is refused with status 400. *)
Theorem adjustment_is_recorded :
  (forall stock_id payload u db key row' db',
     request (adjust_stock stock_id payload u) db = (Ok (key, row'), db') ->
     exists row,
       DB.stocks db !! stock_id = Some row /\
       DB.stocks db' !! stock_id = Some row' /\
       in_scope u (Stock.shop_id row) db = true /\
       DB.stock_adjustments db'
       = (DB.stock_adjustments db
          ++ [StockAdjustment.mk stock_id (Stock.shop_id row) (Stock.product_id row)
                (Some (User.id u)) (Stock.quantity_on_hand row)
                (Stock.quantity_on_hand row') (StockAdjustRequest.quantity_delta payload)])%list /\
       Stock.quantity_on_hand row'
       = Stock.quantity_on_hand row + StockAdjustRequest.quantity_delta payload) /\
  (forall stock_id u db,
     exists e, request (adjust_stock stock_id (StockAdjustRequest.mk 0 None None) u) db
               = (Raise e, db)) /\
  (forall stock_id u db row,
     DB.stocks db !! stock_id = Some row ->
     in_scope u (Stock.shop_id row) db = true ->
     request (adjust_stock stock_id (StockAdjustRequest.mk 0 None None) u) db
     = (Raise (HTTPException HTTP_400_BAD_REQUEST "No adjustment provided"), db)).
Proof.
  split; [|split].
  - intros stock_id payload u db key row' db' H.
    apply request_Ok in H as (s' & E & ->).
    unfold adjust_stock in E. tx_run2 E.
    match goal with H : integrity _ = true |- _ => clear H end.
    db_simpl. eexists. split; [eassumption|].
    split; [apply lookup_insert_eq|]. split; [assumption|].
    split; destruct (StockAdjustRequest.buying_price payload),
        (StockAdjustRequest.selling_price payload); reflexivity.
  - intros stock_id u db.
    destruct (request _ db) as [[v|e] db'] eqn:E.
    + exfalso. apply request_Ok in E as (s' & E & ->).
      unfold adjust_stock in E. tx_run2 E.
    + exists e. f_equal.
      eapply request_atomic; [apply adjust_stock_atomic | exact E].
  - intros stock_id u db row Hrow Hscope. unfold request.
    rewrite (adjust_stock_noop stock_id u (mkSession db db) row Hrow Hscope).
    reflexivity.
Qed.

Lemma adjustment_is_recorded_witness :
  request (adjust_stock 1 (StockAdjustRequest.mk 0 None None) owner) example_db
  = (Raise (HTTPException HTTP_400_BAD_REQUEST "No adjustment provided"), example_db).
Proof.
  apply (proj2 (proj2 adjustment_is_recorded) 1 owner example_db (Stock.mk 1 7 100 10 15));
    reflexivity.
Defined.

(** ** What a successful request was allowed to touch *)

Lemma create_purchase_guards payload u db v db' :
  request (create_purchase payload u) db = (Ok v, db') ->
  in_scope u (PurchaseCreate.shop_id payload) db = true /\
  shop_open (PurchaseCreate.shop_id payload) db /\
  product_on_sale (PurchaseCreate.shop_id payload) (PurchaseCreate.product_id payload) db /\
  supplier_ok (PurchaseCreate.supplier_id payload) (PurchaseCreate.shop_id payload) db
  = true.
Proof.
  unfold shop_open, product_on_sale.
  intros H. apply request_Ok in H as (s' & E & ->).
  unfold create_purchase in E.
  do 10 tx_bind2 E. guards.
  repeat split; eauto 10.
Qed.

Lemma create_sale_guards payload u db v db' :
  request (create_sale payload u) db = (Ok v, db') ->
  in_scope u (SaleCreateRequest.shop_id payload) db = true /\
  shop_open (SaleCreateRequest.shop_id payload) db /\
  product_on_sale (SaleCreateRequest.shop_id payload)
    (SaleCreateRequest.product_id payload) db.
Proof.
  unfold shop_open, product_on_sale.
  intros H. apply request_Ok in H as (s' & E & ->).
  unfold create_sale in E.
  do 8 tx_bind2 E. guards.
  repeat split; eauto 10.
Qed.

Lemma upsert_stock_guards payload u db v db' :
  request (upsert_stock payload u) db = (Ok v, db') ->
  in_scope u (StockUpsertRequest.shop_id payload) db = true /\
  shop_open (StockUpsertRequest.shop_id payload) db /\
  product_on_sale (StockUpsertRequest.shop_id payload)
    (StockUpsertRequest.product_id payload) db.
Proof.
  unfold shop_open, product_on_sale.
  intros H. apply request_Ok in H as (s' & E & ->).
  unfold upsert_stock in E.
  do 8 tx_bind2 E. guards.
  repeat split; eauto 10.
Qed.

Lemma create_sale_return_guards sale_id payload u db v db' :
  request (create_sale_return sale_id payload u) db = (Ok v, db') ->
  exists sale,
    DB.sales db !! sale_id = Some sale /\
    in_scope u (Sale.shop_id sale) db = true /\
    shop_open (Sale.shop_id sale) db /\
    is_Some (DB.products db !! Sale.product_id sale).
Proof.
  unfold shop_open.
  intros H. apply request_Ok in H as (s' & E & ->).
  unfold create_sale_return in E.
  do 8 tx_bind2 E. guards.
  eexists. repeat split; eauto 10.
Qed.

Lemma transfer_stock_guards payload u db v db' :
  request (transfer_stock payload u) db = (Ok v, db') ->
  TransferStockRequest.from_shop_id payload <> TransferStockRequest.to_shop_id payload /\
  in_scope u (TransferStockRequest.from_shop_id payload) db = true /\
  shop_open (TransferStockRequest.from_shop_id payload) db /\
  shop_open (TransferStockRequest.to_shop_id payload) db /\
  product_on_sale (TransferStockRequest.from_shop_id payload)
    (TransferStockRequest.product_id payload) db.
Proof.
  unfold shop_open, product_on_sale.
  intros H. apply request_Ok in H as (s' & E & ->).
  unfold transfer_stock in E.
  do 11 tx_bind2 E. guards.
  repeat split; eauto 10.
Qed.

(** X4.  Stock only moves for what is open: a purchase, a sale or an upsert
    that succeeds was for an active shop and an active product of that shop,
    asked by a user in scope of the shop (and a purchase names no supplier but
    an active one of the shop); a return that succeeds was for a sale of an
    active shop; a transfer that succeeds went between two different active
    shops, for an active product of the source shop, asked by a user in scope
    of the source shop. *)
Theorem stock_moves_only_for_open_shops :
  (forall payload u db v db',
     request (create_purchase payload u) db = (Ok v, db') ->
     in_scope u (PurchaseCreate.shop_id payload) db = true /\
     shop_open (PurchaseCreate.shop_id payload) db /\
     product_on_sale (PurchaseCreate.shop_id payload) (PurchaseCreate.product_id payload) db /\
     supplier_ok (PurchaseCreate.supplier_id payload) (PurchaseCreate.shop_id payload) db
     = true) /\
  (forall payload u db v db',
     request (create_sale payload u) db = (Ok v, db') ->
     in_scope u (SaleCreateRequest.shop_id payload) db = true /\
     shop_open (SaleCreateRequest.shop_id payload) db /\
     product_on_sale (SaleCreateRequest.shop_id payload)
       (SaleCreateRequest.product_id payload) db) /\
  (forall payload u db v db',
     request (upsert_stock payload u) db = (Ok v, db') ->
     in_scope u (StockUpsertRequest.shop_id payload) db = true /\
     shop_open (StockUpsertRequest.shop_id payload) db /\
     product_on_sale (StockUpsertRequest.shop_id payload)
       (StockUpsertRequest.product_id payload) db) /\
  (forall sale_id payload u db v db',
     request (create_sale_return sale_id payload u) db = (Ok v, db') ->
     exists sale,
       DB.sales db !! sale_id = Some sale /\
       in_scope u (Sale.shop_id sale) db = true /\
       shop_open (Sale.shop_id sale) db /\
       is_Some (DB.products db !! Sale.product_id sale)) /\
  (forall payload u db v db',
     request (transfer_stock payload u) db = (Ok v, db') ->
     TransferStockRequest.from_shop_id payload <> TransferStockRequest.to_shop_id payload /\
     in_scope u (TransferStockRequest.from_shop_id payload) db = true /\
     shop_open (TransferStockRequest.from_shop_id payload) db /\
     shop_open (TransferStockRequest.to_shop_id payload) db /\
     product_on_sale (TransferStockRequest.from_shop_id payload)
       (TransferStockRequest.product_id payload) db).
Proof.
  split; [exact create_purchase_guards|].
  split; [exact create_sale_guards|].
  split; [exact upsert_stock_guards|].
  split; [exact create_sale_return_guards | exact transfer_stock_guards].
Qed.

Lemma stock_moves_only_for_open_shops_witness :
  shop_open 1 example_db /\ product_on_sale 1 7 example_db.
Proof.
  destruct stock_moves_only_for_open_shops as (_ & Hsale & _).
  edestruct (Hsale (SaleCreateRequest.mk 1 7 40 None) owner example_db) as (_ & H1 & H2);
    [vm_compute; reflexivity | split; assumption].
Defined.

(** ** Invoice numbers *)

Lemma integrity_unique db : integrity db = true <-> invoices_unique db.
Proof.
  unfold integrity, invoices_unique. split.
  - intros H k1 k2 p1 p2 number H1 H2 Hne Hshop Hn1 Hn2.
    rewrite forallb_forall in H.
    assert (In1 : In (k1, p1) (map_to_list (DB.purchases db))).
    { apply list_elem_of_In, elem_of_map_to_list. exact H1. }
    assert (In2 : In (k2, p2) (map_to_list (DB.purchases db))).
    { apply list_elem_of_In, elem_of_map_to_list. exact H2. }
    specialize (H _ In1). rewrite forallb_forall in H. specialize (H _ In2).
    cbn [fst snd] in H. apply orb_true_iff in H as [H|H]; [lia|].
    apply negb_true_iff in H. unfold invoice_clash in H.
    rewrite Hshop, Z.eqb_refl, Hn1, Hn2, String.eqb_refl in H. discriminate.
  - intros H. apply forallb_forall. intros [k1 p1] In1.
    apply forallb_forall. intros [k2 p2] In2. cbn [fst snd].
    apply list_elem_of_In, elem_of_map_to_list in In1.
    apply list_elem_of_In, elem_of_map_to_list in In2.
    destruct (Z.eqb_spec k1 k2) as [E|Hne]; [reflexivity|]. cbn [orb].
    apply negb_true_iff. unfold invoice_clash.
    destruct (Z.eqb_spec (Purchase.shop_id p1) (Purchase.shop_id p2)) as [Hshop|];
      [|reflexivity].
    destruct (Purchase.invoice_number p1) as [a|] eqn:Ea; [|reflexivity].
    destruct (Purchase.invoice_number p2) as [b|] eqn:Eb; [|reflexivity].
    cbn [andb]. apply String.eqb_neq. intros <-.
    exact (H k1 k2 p1 p2 a In1 In2 Hne Hshop Ea Eb).
Qed.

Section CommitsOnly.
Context (P : DB.t -> Prop) {A B : Type}.

Lemma commits_only_no_commit (m : Tx A) : no_commit m -> commits_only P m.
Proof. intros H s r s' E. left. eapply H, E. Qed.

Lemma commits_only_bind (m : Tx A) (f : A -> Tx B) :
  commits_only P m -> (forall a, commits_only P (f a)) -> commits_only P (m ≫= f).
Proof.
  intros Hm Hf s r s'. unfold mbind, Tx_bind.
  destruct (m s) as [[a|e] s1] eqn:E; apply Hm in E.
  - intros H. apply Hf in H. destruct H as [H|H]; [|right; exact H].
    destruct E as [E|E]; [left; congruence | right; rewrite H; exact E].
  - intros [= _ <-]. exact E.
Qed.

Lemma commits_only_try_except (body : Tx A) handler :
  commits_only P body -> (forall e, commits_only P (handler e)) ->
  commits_only P (try_except body handler).
Proof.
  intros Hb Hh s r s'. unfold try_except.
  destruct (body s) as [[a|e] s1] eqn:E; apply Hb in E.
  - intros [= _ <-]. exact E.
  - intros H. apply Hh in H. destruct H as [H|H]; [|right; exact H].
    destruct E as [E|E]; [left; congruence | right; rewrite H; exact E].
Qed.

End CommitsOnly.

Lemma no_commit_rollback : no_commit rollback.
Proof. intros s r s' [= _ <-]. reflexivity. Qed.

Lemma commits_only_commit : commits_only (fun db => integrity db = true) commit.
Proof.
  intros s r s'. unfold commit.
  destruct (integrity (pending s)) eqn:E; intros [= _ <-]; cbn; auto.
Qed.

Ltac commits_only_step :=
  first
    [ apply commits_only_commit
    | apply commits_only_no_commit;
      solve [solve_no_commit
            | apply no_commit_rollback
            | apply no_commit_mirror_product
            | apply no_commit_move_stock
            | apply no_commit__reverse_transfer_impact
            | apply no_commit__apply_transfer_impact]
    | apply commits_only_try_except; [|intros]
    | apply commits_only_bind; [|intros]
    | match goal with
      | |- commits_only _ (match ?x with _ => _ end) => destruct x
      | |- commits_only _ (if ?x then _ else _) => destruct x
      | |- commits_only _ (let '(_, _) := ?x in _) => destruct x
      end ].

Ltac solve_commits_only :=
  unfold select_stock, select_product, put_stock, commit_or_conflict, rollback_on_http;
  repeat commits_only_step.

Lemma serve_commits_only r db :
  snd (serve r db) = db \/ integrity (snd (serve r db)) = true.
Proof.
  unfold serve. destruct (validated r); [|left; reflexivity].
  assert (Hreq : forall A (m : Tx A),
             commits_only (fun db => integrity db = true) m ->
             snd (outcome (request m db)) = db
             \/ integrity (snd (outcome (request m db))) = true).
  { intros A m Hm. unfold request, outcome.
    destruct (m _) as [r' s'] eqn:E. cbn [snd]. exact (Hm _ _ _ E). }
  destruct r; cbn [route]; apply Hreq.
  - unfold create_purchase. solve_commits_only.
  - unfold update_purchase. solve_commits_only.
  - unfold delete_purchase. solve_commits_only.
  - unfold upsert_stock. solve_commits_only.
  - unfold delete_stock. solve_commits_only.
  - unfold adjust_stock. solve_commits_only.
  - unfold create_sale. solve_commits_only.
  - unfold create_sale_return. solve_commits_only.
  - unfold transfer_stock. solve_commits_only.
  - unfold update_transfer. solve_commits_only.
  - unfold delete_transfer. solve_commits_only.
Qed.

Lemma serve_all_integrity rs :
  forall db, integrity db = true -> integrity (serve_all rs db) = true.
Proof.
  induction rs as [|r rs IH]; intros db H; [exact H|].
  cbn. apply IH. destruct (serve_commits_only r db) as [E|E]; [rewrite E|]; assumption.
Qed.

(** The purchase that [create_purchase] records. *)
Lemma create_purchase_record payload u db purchase_id purchase db' :
  request (create_purchase payload u) db = (Ok (purchase_id, purchase), db') ->
  purchase_id = fresh_id (DB.purchases db) /\
  Purchase.shop_id purchase = PurchaseCreate.shop_id payload /\
  Purchase.product_id purchase = PurchaseCreate.product_id payload /\
  Purchase.supplier_id purchase = PurchaseCreate.supplier_id payload /\
  Purchase.invoice_number purchase = strip_or (PurchaseCreate.invoice_number payload) None /\
  Purchase.purchased_by_user_id purchase = Some (User.id u) /\
  Purchase.quantity purchase = PurchaseCreate.quantity payload /\
  Purchase.total_cost purchase
  = _quantize_price (PurchaseCreate.unit_buying_price payload
                     * Decimal.of_int (PurchaseCreate.quantity payload)) /\
  DB.purchases db' = <[purchase_id := purchase]> (DB.purchases db) /\
  integrity db' = true.
Proof.
  intros H. apply request_Ok in H as (s' & E & ->).
  unfold create_purchase in E. tx_run E.
  destruct (select_first _ (DB.stocks db)) as [k|] eqn:Esel;
    destruct (PurchaseCreate.unit_selling_price payload) as [price|] eqn:Eprice;
    tx_more; repeat split; try assumption.
Qed.

(** The purchase that [update_purchase] leaves. *)
Lemma update_purchase_record purchase_id payload u db key purchase' db' :
  request (update_purchase purchase_id payload u) db = (Ok (key, purchase'), db') ->
  exists purchase,
    key = purchase_id /\
    DB.purchases db !! purchase_id = Some purchase /\
    Purchase.shop_id purchase' = Purchase.shop_id purchase /\
    Purchase.product_id purchase' = Purchase.product_id purchase /\
    Purchase.invoice_number purchase'
    = strip_or (PurchaseUpdate.invoice_number payload) (Purchase.invoice_number purchase) /\
    Purchase.purchased_by_user_id purchase' = Some (User.id u) /\
    DB.purchases db' = <[purchase_id := purchase']> (DB.purchases db) /\
    integrity db' = true.
Proof.
  intros H. apply request_Ok in H as (s' & E & ->).
  unfold update_purchase in E. tx_run E.
  db_simpl.
  match goal with H : DB.purchases db !! purchase_id = Some ?a |- _ => exists a end.
  repeat split; try assumption.
Qed.

Lemma strip_or_Some c rest fallback :
  strip_or (Some (String c rest)) fallback = Some (strip (String c rest)).
Proof. reflexivity. Qed.

(** X5.  Invoice numbers stay unique within a shop: whatever the requests,
    no two purchases of one shop end up with the same invoice number.  The
    number is compared as it is stored, stripped of surrounding whitespace: a
    new purchase, or an edit of another purchase of the shop, that names a
    number equal after stripping to one the shop has used is refused and leaves
    the database as it was. *)
Theorem invoice_numbers_stay_unique :
  (forall rs db, invoices_unique db -> invoices_unique (serve_all rs db)) /\
  (forall payload u db k p number,
     DB.purchases db !! k = Some p ->
     Purchase.shop_id p = PurchaseCreate.shop_id payload ->
     PurchaseCreate.invoice_number payload = Some number ->
     number <> "" ->
     Purchase.invoice_number p = Some (strip number) ->
     exists e, request (create_purchase payload u) db = (Raise e, db)) /\
  (forall purchase_id payload u db edited k p number,
     DB.purchases db !! purchase_id = Some edited ->
     DB.purchases db !! k = Some p ->
     k <> purchase_id ->
     Purchase.shop_id p = Purchase.shop_id edited ->
     PurchaseUpdate.invoice_number payload = Some number ->
     number <> "" ->
     Purchase.invoice_number p = Some (strip number) ->
     exists e, request (update_purchase purchase_id payload u) db = (Raise e, db)).
Proof.
  split; [|split].
  - intros rs db H. apply integrity_unique, serve_all_integrity, integrity_unique, H.
  - intros payload u db k p number Hp Hshop Hinv Hne Hn.
    destruct (request _ db) as [[[purchase_id purchase]|e] db'] eqn:E.
    + exfalso.
      apply create_purchase_record in E
        as (-> & Hshop' & _ & _ & Hinv' & _ & _ & _ & Hdb' & Hint).
      apply integrity_unique in Hint.
      destruct number as [|c rest]; [contradiction|].
      rewrite Hinv, strip_or_Some in Hinv'.
      assert (Hk : k <> fresh_id (DB.purchases db)).
      { intros ->. rewrite fresh_id_fresh in Hp. discriminate. }
      eapply (Hint k (fresh_id (DB.purchases db)) p purchase); try eassumption.
      * rewrite Hdb', lookup_insert_ne by congruence. exact Hp.
      * rewrite Hdb'. apply lookup_insert_eq.
      * congruence.
    + exists e. f_equal.
      eapply request_atomic; [apply create_purchase_atomic | exact E].
  - intros purchase_id payload u db edited k p number Hed Hp Hk Hshop Hinv Hne Hn.
    destruct (request _ db) as [[[key purchase']|e] db'] eqn:E.
    + exfalso.
      apply update_purchase_record in E
        as (purchase & -> & Hpu & Hshop' & _ & Hinv' & _ & Hdb' & Hint).
      apply integrity_unique in Hint.
      rewrite Hed in Hpu. injection Hpu as <-.
      destruct number as [|c rest]; [contradiction|].
      rewrite Hinv, strip_or_Some in Hinv'.
      eapply (Hint k purchase_id p purchase'); try eassumption.
      * rewrite Hdb', lookup_insert_ne by congruence. exact Hp.
      * rewrite Hdb'. apply lookup_insert_eq.
      * congruence.
    + exists e. f_equal.
      eapply request_atomic; [apply update_purchase_atomic | exact E].
Qed.

Lemma invoice_numbers_stay_unique_witness :
  let db1 :=
    snd (request (create_purchase
                    (PurchaseCreate.mk 1 7 None (Some "INV-1") 10 12 None) owner)
           example_db) in
  exists e,
    request (create_purchase (PurchaseCreate.mk 1 7 None (Some " INV-1 ") 5 12 None) owner)
      db1
    = (Raise e, db1).
Proof.
  intros db1.
  eapply (proj1 (proj2 invoice_numbers_stay_unique)
            (PurchaseCreate.mk 1 7 None (Some " INV-1 ") 5 12 None) owner db1 1 _ " INV-1 ").
  - vm_compute. reflexivity.
  - reflexivity.
  - reflexivity.
  - discriminate.
  - vm_compute. reflexivity.
Defined.

(** ** The sales ledger only grows *)

Lemma ledger_grows_refl db : ledger_grows db db.
Proof. split; [auto|]. exists []. rewrite app_nil_r. reflexivity. Qed.

Lemma ledger_grows_trans db1 db2 db3 :
  ledger_grows db1 db2 -> ledger_grows db2 db3 -> ledger_grows db1 db3.
Proof.
  intros [H1 [l1 E1]] [H2 [l2 E2]]. split; [auto|].
  exists (l1 ++ l2)%list. rewrite E2, E1, app_assoc. reflexivity.
Qed.

Lemma ledger_grows_same db db' : sales_ledger db' = sales_ledger db -> ledger_grows db db'.
Proof.
  unfold sales_ledger. intros [= E1 E2]. split.
  - intros k sale H. rewrite E1. exact H.
  - exists []. rewrite E2, app_nil_r. reflexivity.
Qed.

Lemma serve_ledger_grows r db : ledger_grows db (snd (serve r db)).
Proof.
  pose proof (serve_keeps_sales r db) as Hkeep.
  destruct r; try (apply ledger_grows_same; exact Hkeep); clear Hkeep;
    unfold serve; (destruct (validated _); [|apply ledger_grows_refl]);
    cbn [route outcome snd];
    match goal with
    | |- context [request ?m db] => destruct (request m db) as [[v|e] db'] eqn:E; cbn [snd]
    end.
  - destruct v as [sale_id sale].
    apply create_sale_Ok in E
      as (stock & row & _ & _ & _ & -> & _ & _ & _ & _ & _ & _ & ->).
    unfold ledger_grows. db_simpl. split.
    + intros k s Hs. rewrite lookup_insert_ne; [exact Hs|].
      intros <-. rewrite fresh_id_fresh in Hs. discriminate.
    + exists []. rewrite app_nil_r. reflexivity.
  - apply request_atomic in E as ->; [|apply create_sale_atomic]. apply ledger_grows_refl.
  - apply create_sale_return_Ok in E as (sale & _ & _ & _ & _ & Esales & Eret & _).
    split.
    + intros k s Hs. rewrite Esales. exact Hs.
    + eexists. exact Eret.
  - apply request_atomic in E as ->; [|apply create_sale_return_atomic].
    apply ledger_grows_refl.
Qed.

(** X6.  The sales ledger only grows: whatever the requests, a sale once
    recorded is still there afterwards, under its key and unchanged, and the
    returns recorded so far are still there, in order, at the head of the
    list of returns. *)
Theorem sales_ledger_only_grows (rs : list Request) (db : DB.t) :
  (forall k sale,
     DB.sales db !! k = Some sale -> DB.sales (serve_all rs db) !! k = Some sale) /\
  exists more, DB.sale_returns (serve_all rs db) = (DB.sale_returns db ++ more)%list.
Proof.
  change (ledger_grows db (serve_all rs db)).
  revert db. induction rs as [|r rs IH]; intros db; [apply ledger_grows_refl|].
  cbn. eapply ledger_grows_trans; [apply serve_ledger_grows | apply IH].
Qed.

Lemma sales_ledger_only_grows_witness :
  let db1 := snd (request (create_sale (SaleCreateRequest.mk 1 7 40 None) owner) example_db) in
  let rs := [ POST_sales_returns 1 (SaleReturnCreateRequest.mk 15 true) owner;
              POST_purchases (PurchaseCreate.mk 1 7 None None 10 12 None) owner;
              DELETE_stocks 1 owner ] in
  exists sale,
    DB.sales db1 !! 1 = Some sale /\ DB.sales (serve_all rs db1) !! 1 = Some sale.
Proof.
  intros db1 rs. eexists. split; [vm_compute; reflexivity|].
  apply (proj1 (sales_ledger_only_grows rs db1)). vm_compute. reflexivity.
Defined.

(** ** An edit of a transfer that changes nothing *)

Lemma _validate_transfer_scope_run u from_shop_id to_shop_id s :
  in_scope u from_shop_id (pending s) = true ->
  _validate_transfer_scope u from_shop_id to_shop_id s = (Ok tt, s).
Proof.
  unfold in_scope, _validate_transfer_scope.
  destruct (_is_system_owner u); [reflexivity|].
  cbn [orb]. intros H. apply andb_true_iff in H as [H1 H2].
  apply bool_decide_eq_true in H1 as [shop Hshop]. apply Z.eqb_eq in H2.
  unfold _get_assigned_shop, mbind, Tx_bind, query, or_raise.
  rewrite Hshop. cbn [mret Tx_ret]. unfold raise_if.
  rewrite H2, Z.eqb_refl. reflexivity.
Qed.

(** X7.  An edit of a transfer that names no new value, or only the values
    the transfer has, is answered with the transfer as it is and changes
    nothing, whatever has happened to the stock since: nothing is reversed,
    nothing re-applied. *)
Theorem transfer_edit_without_change_is_noop transfer_id payload u db transfer :
  DB.stock_transfers db !! transfer_id = Some transfer ->
  in_scope u (StockTransfer.from_shop_id transfer) db = true ->
  default (StockTransfer.product_id transfer) (TransferStockUpdate.product_id payload)
  = StockTransfer.product_id transfer ->
  default (StockTransfer.from_shop_id transfer) (TransferStockUpdate.from_shop_id payload)
  = StockTransfer.from_shop_id transfer ->
  default (StockTransfer.to_shop_id transfer) (TransferStockUpdate.to_shop_id payload)
  = StockTransfer.to_shop_id transfer ->
  default (StockTransfer.quantity transfer) (TransferStockUpdate.quantity payload)
  = StockTransfer.quantity transfer ->
  (TransferStockUpdate.note payload = None
   \/ TransferStockUpdate.note payload = StockTransfer.note transfer) ->
  request (update_transfer transfer_id payload u) db = (Ok (transfer_id, transfer), db).
Proof.
  intros Htr Hscope Hp Hf Ht Hq Hn.
  unfold request, update_transfer. tx_eval. cbn [pending]. rewrite Htr. tx_eval.
  rewrite Hp, Hf, Ht, Hq.
  rewrite _validate_transfer_scope_run by exact Hscope.
  rewrite !Z.eqb_refl. cbn [andb].
  assert (En : match TransferStockUpdate.note payload with
               | Some text => Some text
               | None => StockTransfer.note transfer
               end = StockTransfer.note transfer).
  { destruct Hn as [-> | Hn]; [reflexivity|].
    rewrite Hn. destruct (StockTransfer.note transfer); reflexivity. }
  rewrite En, bool_decide_eq_true_2 by reflexivity. reflexivity.
Qed.

Lemma transfer_edit_without_change_is_noop_witness :
  let db1 :=
    snd (request (transfer_stock (TransferStockRequest.mk 7 1 2 10 None) owner) example_db) in
  let db2 := snd (request (create_sale (SaleCreateRequest.mk 2 8 10 None) owner) db1) in
  exists transfer,
    DB.stock_transfers db2 !! 1 = Some transfer /\
    request (update_transfer 1 (TransferStockUpdate.mk None None None (Some 10) None) owner)
      db2
    = (Ok (1, transfer), db2).
Proof.
  intros db1 db2. eexists. split; [vm_compute; reflexivity|].
  apply transfer_edit_without_change_is_noop; try reflexivity.
  left. reflexivity.
Defined.

(** ** Who may do what *)

(** X8.  An employee sells and takes returns, and manages nothing: each of
    the employee's requests on purchases, stock rows and transfers is refused
    with status 403 before its route runs, and whatever is asked, purchases, transfers,
    adjustments and products stay as they are.  The other two roles pass the
    dependency of every route. *)
Theorem employees_sell_and_do_not_manage (r : Request) (db : DB.t) :
  (User.role (user_of r) = EMPLOYEE ->
   match r with
   | POST_sales _ _ | POST_sales_returns _ _ _ => endpoint r db = serve r db
   | _ =>
       endpoint r db
       = (Some (HTTPException HTTP_403_FORBIDDEN "Permission required: inventory:manage"),
          db)
   end /\
   managed (snd (endpoint r db)) = managed db) /\
  (User.role (user_of r) <> EMPLOYEE -> endpoint r db = serve r db).
Proof.
  split.
  - intros Hrole. unfold endpoint, dependency, require_permission.
    destruct r; cbn [user_of] in *; rewrite Hrole; cbn;
      split; try reflexivity;
      unfold serve; (destruct (validated _); [|reflexivity]);
      cbn [route outcome snd]; apply request_keeps.
    + unfold create_sale. solve_keeps.
    + unfold create_sale_return. solve_keeps.
  - intros Hrole. unfold endpoint, dependency, require_permission.
    destruct r; cbn [user_of] in *;
      destruct (User.role _); try contradiction; reflexivity.
Qed.

Lemma employees_sell_and_do_not_manage_witness :
  let clerk := User.mk 5 1 false EMPLOYEE in
  endpoint (POST_stocks_adjust 1 (StockAdjustRequest.mk (-100) None None) clerk) example_db
  = (Some (HTTPException HTTP_403_FORBIDDEN "Permission required: inventory:manage"),
     example_db).
Proof.
  intros clerk.
  apply (proj1 (employees_sell_and_do_not_manage
                  (POST_stocks_adjust 1 (StockAdjustRequest.mk (-100) None None) clerk)
                  example_db)).
  reflexivity.
Defined.

(** ** Archived shops *)

Lemma commit_run s :
  integrity (pending s) = true -> commit s = (Ok tt, mkSession (pending s) (pending s)).
Proof. intros H. unfold commit. rewrite H. reflexivity. Qed.

Lemma integrity_set_shops x db : integrity (set_shops x db) = integrity db.
Proof. reflexivity. Qed.

Lemma archive_shop_run shop_id db shop :
  DB.shops db !! shop_id = Some shop ->
  integrity db = true ->
  request (archive_shop shop_id) db
  = (Ok (shop_id, shop_set_is_active false shop),
     set_shops (<[shop_id := shop_set_is_active false shop]> (DB.shops db)) db).
Proof.
  intros Hshop Hint. unfold request, archive_shop. tx_eval. cbn [pending].
  rewrite Hshop. tx_eval.
  rewrite commit_run by exact Hint. reflexivity.
Qed.

Lemma activate_shop_run shop_id db shop :
  DB.shops db !! shop_id = Some shop ->
  integrity db = true ->
  request (activate_shop shop_id) db
  = (Ok (shop_id, shop_set_is_active true shop),
     set_shops (<[shop_id := shop_set_is_active true shop]> (DB.shops db)) db).
Proof.
  intros Hshop Hint. unfold request, activate_shop. tx_eval. cbn [pending].
  rewrite Hshop. tx_eval.
  rewrite commit_run by exact Hint. reflexivity.
Qed.

Lemma shop_closed_not_open shop_id db shop :
  DB.shops db !! shop_id = Some shop -> Shop.is_active shop = false ->
  ~ shop_open shop_id db.
Proof. intros H1 H2 (shop' & H3 & H4). congruence. Qed.

Lemma refused {A} (m : Tx A) db :
  atomic m -> (forall v db', request m db <> (Ok v, db')) ->
  exists e, request m db = (Raise e, db).
Proof.
  intros Hm Hno. destruct (request m db) as [[v|e] db'] eqn:E.
  - exfalso. exact (Hno v db' eq_refl).
  - exists e. f_equal. eapply request_atomic; eassumption.
Qed.

(** X9.  Archiving a shop that exists succeeds, marks it inactive and
    touches nothing else, not even its stock; from then on the shop is frozen:
    no purchase, sale or upsert for it, no return of one of its sales and no
    transfer from it or to it succeeds, and each such request leaves the
    database as it is.  Activating the shop again gives back the database
    there was before it was archived. *)
Theorem archived_shop_is_frozen shop_id db shop :
  DB.shops db !! shop_id = Some shop ->
  integrity db = true ->
  let closed :=
    set_shops (<[shop_id := shop_set_is_active false shop]> (DB.shops db)) db in
  request (archive_shop shop_id) db = (Ok (shop_id, shop_set_is_active false shop), closed) /\
  DB.stocks closed = DB.stocks db /\
  (forall payload u,
     PurchaseCreate.shop_id payload = shop_id ->
     exists e, request (create_purchase payload u) closed = (Raise e, closed)) /\
  (forall payload u,
     SaleCreateRequest.shop_id payload = shop_id ->
     exists e, request (create_sale payload u) closed = (Raise e, closed)) /\
  (forall payload u,
     StockUpsertRequest.shop_id payload = shop_id ->
     exists e, request (upsert_stock payload u) closed = (Raise e, closed)) /\
  (forall sale_id payload u sale,
     DB.sales db !! sale_id = Some sale ->
     Sale.shop_id sale = shop_id ->
     exists e, request (create_sale_return sale_id payload u) closed = (Raise e, closed)) /\
  (forall payload u,
     TransferStockRequest.from_shop_id payload = shop_id
     \/ TransferStockRequest.to_shop_id payload = shop_id ->
     exists e, request (transfer_stock payload u) closed = (Raise e, closed)) /\
  (Shop.is_active shop = true ->
   request (activate_shop shop_id) closed = (Ok (shop_id, shop), db)).
Proof.
  intros Hshop Hint closed.
  assert (Hclosed : ~ shop_open shop_id closed).
  { eapply shop_closed_not_open; [apply lookup_insert_eq | reflexivity]. }
  split; [apply archive_shop_run; assumption|].
  split; [reflexivity|].
  split.
  { intros payload u <-. apply refused; [apply create_purchase_atomic|].
    intros v db' E. apply create_purchase_guards in E as (_ & H & _). auto. }
  split.
  { intros payload u <-. apply refused; [apply create_sale_atomic|].
    intros v db' E. apply create_sale_guards in E as (_ & H & _). auto. }
  split.
  { intros payload u <-. apply refused; [apply upsert_stock_atomic|].
    intros v db' E. apply upsert_stock_guards in E as (_ & H & _). auto. }
  split.
  { intros sale_id payload u sale Hsale <-. apply refused; [apply create_sale_return_atomic|].
    intros v db' E. apply create_sale_return_guards in E as (sale' & Hs & _ & H & _).
    change (DB.sales closed) with (DB.sales db) in Hs.
    rewrite Hsale in Hs. injection Hs as <-. auto. }
  split.
  { intros payload u Hor. apply refused; [apply transfer_stock_atomic|].
    intros v db' E. apply transfer_stock_guards in E as (_ & _ & H1 & H2 & _).
    destruct Hor as [<- | <-]; auto. }
  intros Hactive.
  rewrite (activate_shop_run shop_id closed (shop_set_is_active false shop));
    [|apply lookup_insert_eq | exact Hint].
  f_equal.
  - destruct shop as [code name active]. cbn in Hactive. subst active. reflexivity.
  - unfold closed. destruct db, shop as [code name active]. cbn in *. subst active.
    unfold set_shops, shop_set_is_active. cbn. f_equal.
    rewrite insert_insert_eq. apply insert_id. exact Hshop.
Qed.

Lemma archived_shop_is_frozen_witness :
  let closed := snd (request (archive_shop 1) example_db) in
  DB.stocks closed = DB.stocks example_db /\
  (exists e,
     request (create_sale (SaleCreateRequest.mk 1 7 40 None) owner) closed = (Raise e, closed)) /\
  request (activate_shop 1) closed = (Ok (1, Shop.mk "A" "Shop A" true), example_db).
Proof.
  destruct (archived_shop_is_frozen 1 example_db (Shop.mk "A" "Shop A" true))
    as (Harchive & Hstocks & _ & Hsale & _ & _ & _ & Hactivate);
    [reflexivity | vm_compute; reflexivity |].
  cbv zeta. rewrite Harchive. cbn [snd].
  split; [exact Hstocks|].
  split; [apply (Hsale (SaleCreateRequest.mk 1 7 40 None) owner); reflexivity|].
  apply Hactivate. reflexivity.
Defined.

(** ** Archived products and suppliers *)

Lemma archive_product_run product_id u db product :
  DB.products db !! product_id = Some product ->
  in_scope u (Product.shop_id product) db = true ->
  integrity db = true ->
  request (archive_product product_id u) db
  = (Ok (product_id, product_set_is_active false product),
     DB.set_products (<[product_id := product_set_is_active false product]> (DB.products db))
       db).
Proof.
  intros Hproduct Hscope Hint. unfold request, archive_product. tx_eval. cbn [pending].
  rewrite Hproduct. tx_eval. rewrite check_scope_run by exact Hscope.
  rewrite commit_run by exact Hint. reflexivity.
Qed.

Lemma in_scope_shops u shop_id db db' :
  DB.shops db' = DB.shops db -> in_scope u shop_id db' = in_scope u shop_id db.
Proof. unfold in_scope. intros ->. reflexivity. Qed.

Lemma activate_product_run product_id u db product shop :
  DB.products db !! product_id = Some product ->
  in_scope u (Product.shop_id product) db = true ->
  DB.shops db !! Product.shop_id product = Some shop ->
  integrity db = true ->
  request (activate_product product_id u) db
  = if Shop.is_active shop then
      (Ok (product_id, product_set_is_active true product),
       DB.set_products (<[product_id := product_set_is_active true product]> (DB.products db))
         db)
    else
      (Raise (HTTPException HTTP_400_BAD_REQUEST "Cannot activate product in inactive shop"),
       db).
Proof.
  intros Hproduct Hscope Hshop Hint. unfold request, activate_product. tx_eval. cbn [pending].
  rewrite Hproduct. tx_eval. rewrite check_scope_run by exact Hscope.
  cbn [pending]. rewrite Hshop. tx_eval.
  destruct (Shop.is_active shop); [|reflexivity]. tx_eval.
  rewrite commit_run by exact Hint. reflexivity.
Qed.

Lemma product_off_not_on_sale shop_id product_id db product :
  DB.products db !! product_id = Some product -> Product.is_active product = false ->
  ~ product_on_sale shop_id product_id db.
Proof. intros H1 H2 (product' & H3 & H4 & _). congruence. Qed.

(** X10.  Archiving a product, by a user in scope of its shop, marks it
    inactive and touches nothing else: its stock rows stay.  From then on no
    purchase, sale or upsert of the product and no transfer of it succeeds.
    The product cannot be activated while its shop is inactive (status 400);
    when the shop is active, activating the product gives back the database
    there was before it was archived. *)
Theorem archived_product_is_off_sale product_id u db product :
  DB.products db !! product_id = Some product ->
  in_scope u (Product.shop_id product) db = true ->
  integrity db = true ->
  let off :=
    DB.set_products (<[product_id := product_set_is_active false product]> (DB.products db))
      db in
  request (archive_product product_id u) db
  = (Ok (product_id, product_set_is_active false product), off) /\
  DB.stocks off = DB.stocks db /\
  (forall payload v,
     PurchaseCreate.product_id payload = product_id ->
     exists e, request (create_purchase payload v) off = (Raise e, off)) /\
  (forall payload v,
     SaleCreateRequest.product_id payload = product_id ->
     exists e, request (create_sale payload v) off = (Raise e, off)) /\
  (forall payload v,
     StockUpsertRequest.product_id payload = product_id ->
     exists e, request (upsert_stock payload v) off = (Raise e, off)) /\
  (forall payload v,
     TransferStockRequest.product_id payload = product_id ->
     exists e, request (transfer_stock payload v) off = (Raise e, off)) /\
  (forall shop,
     DB.shops db !! Product.shop_id product = Some shop ->
     request (activate_product product_id u) off
     = if Shop.is_active shop then
         (Ok (product_id, product_set_is_active true product),
          if Product.is_active product then db
          else DB.set_products
                 (<[product_id := product_set_is_active true product]> (DB.products db)) db)
       else
         (Raise (HTTPException HTTP_400_BAD_REQUEST
                   "Cannot activate product in inactive shop"), off)).
Proof.
  intros Hproduct Hscope Hint off.
  assert (Hoff : forall shop_id, ~ product_on_sale shop_id product_id off).
  { intros shop_id. eapply product_off_not_on_sale; [apply lookup_insert_eq | reflexivity]. }
  split; [apply archive_product_run; assumption|].
  split; [reflexivity|].
  split.
  { intros payload v <-. apply refused; [apply create_purchase_atomic|].
    intros w db' E. apply create_purchase_guards in E as (_ & _ & H & _).
    exact (Hoff _ H). }
  split.
  { intros payload v <-. apply refused; [apply create_sale_atomic|].
    intros w db' E. apply create_sale_guards in E as (_ & _ & H).
    exact (Hoff _ H). }
  split.
  { intros payload v <-. apply refused; [apply upsert_stock_atomic|].
    intros w db' E. apply upsert_stock_guards in E as (_ & _ & H).
    exact (Hoff _ H). }
  split.
  { intros payload v <-. apply refused; [apply transfer_stock_atomic|].
    intros w db' E. apply transfer_stock_guards in E as (_ & _ & _ & _ & H).
    exact (Hoff _ H). }
  intros shop Hshop.
  rewrite (activate_product_run product_id u off (product_set_is_active false product) shop);
    [|apply lookup_insert_eq | exact Hscope | exact Hshop | exact Hint].
  destruct (Shop.is_active shop); [|reflexivity].
  f_equal. unfold off. destruct db, product as [ps sku name unit descr active].
  cbn in *. unfold DB.set_products, product_set_is_active. cbn.
  rewrite insert_insert_eq. destruct active; [|reflexivity].
  f_equal. apply insert_id. exact Hproduct.
Qed.

Lemma archived_product_is_off_sale_witness :
  let off := snd (request (archive_product 7 owner) example_db) in
  DB.stocks off = DB.stocks example_db /\
  (exists e,
     request (create_sale (SaleCreateRequest.mk 1 7 40 None) owner) off = (Raise e, off)) /\
  request (activate_product 7 owner) off
  = (Ok (7, Product.mk 1 "SKU-7" "Widget" "piece" None true), example_db).
Proof.
  destruct (archived_product_is_off_sale 7 owner example_db
              (Product.mk 1 "SKU-7" "Widget" "piece" None true))
    as (Harchive & Hstocks & _ & Hsale & _ & _ & Hactivate);
    [reflexivity | reflexivity | vm_compute; reflexivity |].
  cbv zeta. rewrite Harchive. cbn [snd].
  split; [exact Hstocks|].
  split; [apply (Hsale (SaleCreateRequest.mk 1 7 40 None) owner); reflexivity|].
  apply (Hactivate (Shop.mk "A" "Shop A" true)). reflexivity.
Defined.

Lemma update_purchase_guards purchase_id payload u db v db' :
  request (update_purchase purchase_id payload u) db = (Ok v, db') ->
  exists purchase,
    DB.purchases db !! purchase_id = Some purchase /\
    in_scope u (Purchase.shop_id purchase) db = true /\
    supplier_ok (match PurchaseUpdate.supplier_id payload with
                 | Some k => Some k
                 | None => Purchase.supplier_id purchase
                 end) (Purchase.shop_id purchase) db = true.
Proof.
  intros H. apply request_Ok in H as (s' & E & ->).
  unfold update_purchase in E.
  do 6 tx_bind2 E. eexists. repeat split; eassumption.
Qed.

Lemma archive_supplier_run supplier_id u db supplier :
  DB.suppliers db !! supplier_id = Some supplier ->
  in_scope u (Supplier.shop_id supplier) db = true ->
  integrity db = true ->
  request (archive_supplier supplier_id u) db
  = (Ok (supplier_id, supplier_set_is_active false supplier),
     set_suppliers (<[supplier_id := supplier_set_is_active false supplier]>
                      (DB.suppliers db)) db).
Proof.
  intros Hsupplier Hscope Hint. unfold request, archive_supplier. tx_eval. cbn [pending].
  rewrite Hsupplier. tx_eval. rewrite check_scope_run by exact Hscope.
  rewrite commit_run by exact Hint. reflexivity.
Qed.

Lemma activate_supplier_run supplier_id u db supplier :
  DB.suppliers db !! supplier_id = Some supplier ->
  in_scope u (Supplier.shop_id supplier) db = true ->
  integrity db = true ->
  request (activate_supplier supplier_id u) db
  = if from_option Shop.is_active false (DB.shops db !! Supplier.shop_id supplier) then
      (Ok (supplier_id, supplier_set_is_active true supplier),
       set_suppliers (<[supplier_id := supplier_set_is_active true supplier]>
                        (DB.suppliers db)) db)
    else
      (Raise (HTTPException HTTP_400_BAD_REQUEST "Cannot activate supplier in inactive shop"),
       db).
Proof.
  intros Hsupplier Hscope Hint. unfold request, activate_supplier. tx_eval. cbn [pending].
  rewrite Hsupplier. tx_eval. rewrite check_scope_run by exact Hscope.
  cbn [pending].
  destruct (DB.shops db !! Supplier.shop_id supplier) as [shop|]; cbn [from_option];
    [destruct (Shop.is_active shop)|]; try reflexivity.
  tx_eval. rewrite commit_run by exact Hint. reflexivity.
Qed.

(** X11.  Archiving a supplier, by a user in scope of its shop, marks it
    inactive and touches nothing else.  From then on no new purchase can name
    the supplier, and a purchase recorded with it can no longer be edited
    unless the edit names another supplier.  The supplier can be activated
    again only while its shop exists and is active; otherwise the request is
    refused with status 400. *)
Theorem archived_supplier_is_not_named supplier_id u db supplier :
  DB.suppliers db !! supplier_id = Some supplier ->
  in_scope u (Supplier.shop_id supplier) db = true ->
  integrity db = true ->
  let off :=
    set_suppliers (<[supplier_id := supplier_set_is_active false supplier]>
                     (DB.suppliers db)) db in
  request (archive_supplier supplier_id u) db
  = (Ok (supplier_id, supplier_set_is_active false supplier), off) /\
  (forall payload v,
     PurchaseCreate.supplier_id payload = Some supplier_id ->
     exists e, request (create_purchase payload v) off = (Raise e, off)) /\
  (forall purchase_id payload v purchase,
     DB.purchases db !! purchase_id = Some purchase ->
     Purchase.supplier_id purchase = Some supplier_id ->
     PurchaseUpdate.supplier_id payload = None
     \/ PurchaseUpdate.supplier_id payload = Some supplier_id ->
     exists e, request (update_purchase purchase_id payload v) off = (Raise e, off)) /\
  request (activate_supplier supplier_id u) off
  = if from_option Shop.is_active false (DB.shops db !! Supplier.shop_id supplier) then
      (Ok (supplier_id, supplier_set_is_active true supplier),
       set_suppliers (<[supplier_id := supplier_set_is_active true supplier]>
                        (DB.suppliers db)) db)
    else
      (Raise (HTTPException HTTP_400_BAD_REQUEST "Cannot activate supplier in inactive shop"),
       off).
Proof.
  intros Hsupplier Hscope Hint off.
  assert (Hoff : forall shop_id, supplier_ok (Some supplier_id) shop_id off = false).
  { intros shop_id. unfold supplier_ok, off. cbn [DB.suppliers set_suppliers].
    rewrite lookup_insert_eq. cbn. apply andb_false_r. }
  split; [apply archive_supplier_run; assumption|].
  split.
  { intros payload v Hs. apply refused; [apply create_purchase_atomic|].
    intros w db' E. apply create_purchase_guards in E as (_ & _ & _ & H).
    rewrite Hs, Hoff in H. discriminate. }
  split.
  { intros purchase_id payload v purchase Hp Hs Hor.
    apply refused; [apply update_purchase_atomic|].
    intros w db' E. apply update_purchase_guards in E as (purchase' & Hp' & _ & H).
    change (DB.purchases off) with (DB.purchases db) in Hp'.
    rewrite Hp in Hp'. injection Hp' as <-.
    destruct Hor as [Hn|Hn]; rewrite Hn, ?Hs, Hoff in H; discriminate. }
  rewrite (activate_supplier_run supplier_id u off (supplier_set_is_active false supplier));
    [|apply lookup_insert_eq | exact Hscope | exact Hint].
  change (DB.shops off) with (DB.shops db).
  change (Supplier.shop_id (supplier_set_is_active false supplier))
    with (Supplier.shop_id supplier).
  destruct (from_option _ _ _); [|reflexivity].
  f_equal. unfold off, set_suppliers. cbn. rewrite insert_insert_eq. reflexivity.
Qed.

Lemma archived_supplier_is_not_named_witness :
  let db := set_suppliers (<[3 := Supplier.mk 1 "Acme" true]> ∅) example_db in
  let off := snd (request (archive_supplier 3 owner) db) in
  exists e,
    request (create_purchase (PurchaseCreate.mk 1 7 (Some 3) None 10 12 None) owner) off
    = (Raise e, off).
Proof.
  intros db.
  destruct (archived_supplier_is_not_named 3 owner db (Supplier.mk 1 "Acme" true))
    as (Harchive & Hcreate & _);
    [reflexivity | reflexivity | vm_compute; reflexivity |].
  cbv zeta. rewrite Harchive. cbn [snd].
  apply Hcreate. reflexivity.
Defined.

(** ** Low-stock alerts *)

Lemma _get_assigned_shop_Ok u s a s' :
  _get_assigned_shop u s = (Ok a, s') ->
  a = User.shop_id u /\ is_Some (DB.shops (pending s) !! User.shop_id u) /\ s' = s.
Proof.
  unfold _get_assigned_shop, mbind, Tx_bind, query, or_raise.
  destruct (DB.shops (pending s) !! User.shop_id u) as [shop|]; [|discriminate].
  intros [= <- <-]. eauto.
Qed.

#[global] Instance by_quantity_total : Total by_quantity.
Proof. intros a b. unfold by_quantity. lia. Qed.

Lemma Sorted_map {A B} (R : relation A) (R' : relation B) (f : A -> B) l :
  (forall x y, R x y -> R' (f x) (f y)) -> Sorted R l -> Sorted R' (f <$> l).
Proof.
  intros Hf. induction 1 as [|x l Hs IH Hd]; [constructor|].
  cbn. constructor; [exact IH|].
  destruct Hd; cbn; constructor. auto.
Qed.

(** X12.  The low-stock alerts read and change nothing.  They list, in
    ascending order of quantity, exactly the stock rows that hold at most the
    threshold and that the user may see: all shops or the one asked for, for a
    user with access to all shops; the user's own shop otherwise.  A user
    without that access who asks for another shop is refused with status
    403. *)
Theorem low_stock_alerts_lists_visible_rows threshold shop_id u db :
  (forall items db',
     request (low_stock_alerts threshold shop_id u) db = (Ok items, db') ->
     db' = db /\
     Sorted (fun a b => LowStockItemOut.quantity_on_hand a
                        <= LowStockItemOut.quantity_on_hand b) items /\
     forall item,
       In item items <->
       exists k row,
         DB.stocks db !! k = Some row /\
         Stock.quantity_on_hand row <= threshold /\
         visible u shop_id row /\
         item = LowStockItemOut.mk (Stock.shop_id row) (Stock.product_id row)
                  (Stock.quantity_on_hand row) threshold) /\
  (forall k,
     _is_system_owner u = false -> shop_id = Some k -> k <> User.shop_id u ->
     exists detail,
       request (low_stock_alerts threshold shop_id u) db
       = (Raise (HTTPException HTTP_403_FORBIDDEN detail), db)).
Proof.
  split.
  - intros items db' H. apply request_Ok in H as (s' & E & ->).
    unfold low_stock_alerts in E.
    apply bind_Ok in E as (filter_ & s1 & Hscope & E).
    assert (Hfilter : s1 = mkSession db db /\
              forall row,
                match filter_ with Some k => Stock.shop_id row =? k | None => true end = true
                <-> visible u shop_id row).
    { unfold visible. destruct (_is_system_owner u).
      - apply mret_Ok in Hscope as [-> ->]. split; [reflexivity|].
        intros row. destruct shop_id; [apply Z.eqb_eq | tauto].
      - apply bind_Ok in Hscope as (assigned & sa & Ha & Hscope).
        apply _get_assigned_shop_Ok in Ha as (-> & _ & ->).
        apply bind_Ok in Hscope as ([] & sb & Hb & Hscope).
        apply mret_Ok in Hscope as [-> ->].
        assert (sb = mkSession db db) as ->.
        { destruct shop_id; [apply raise_if_Ok in Hb as [_ ->] | apply mret_Ok in Hb as [_ ->]];
            reflexivity. }
        split; [reflexivity | intros row; apply Z.eqb_eq]. }
    destruct Hfilter as [-> Hfilter]. tx_run E.
    split; [reflexivity|]. split.
    + eapply Sorted_map; [|apply (Sorted_merge_sort by_quantity)].
      intros x y Hxy. exact Hxy.
    + intros item. rewrite <- list_elem_of_In, list_elem_of_fmap. split.
      * intros (row & -> & Hin).
        rewrite merge_sort_Permutation, list_elem_of_In, filter_In in Hin.
        destruct Hin as [Hin Hc]. apply andb_true_iff in Hc as [Hq Hv].
        apply list_elem_of_In, list_elem_of_fmap in Hin as ([k row'] & -> & Hin).
        apply elem_of_map_to_list in Hin. cbn [snd] in *.
        exists k, row'. split; [exact Hin|]. split; [lia|].
        split; [apply Hfilter; exact Hv | reflexivity].
      * intros (k & row & Hrow & Hq & Hv & ->). exists row. split; [reflexivity|].
        rewrite merge_sort_Permutation, list_elem_of_In, filter_In. split.
        -- apply list_elem_of_In, list_elem_of_fmap. exists (k, row).
           split; [reflexivity|]. apply elem_of_map_to_list. exact Hrow.
        -- apply andb_true_iff. split; [lia | apply Hfilter; exact Hv].
  - intros k Howner -> Hne. unfold request, low_stock_alerts. rewrite Howner.
    unfold _get_assigned_shop, _enforce_shop_scope. tx_eval. cbn [pending].
    destruct (DB.shops db !! User.shop_id u); tx_eval; [|eauto].
    destruct (Z.eqb_spec k (User.shop_id u)); [contradiction|]. cbn. eauto.
Qed.

Lemma low_stock_alerts_lists_visible_rows_witness :
  let clerk := User.mk 5 2 false EMPLOYEE in
  (exists detail,
     request (low_stock_alerts 10 (Some 1) clerk) example_db
     = (Raise (HTTPException HTTP_403_FORBIDDEN detail), example_db)) /\
  forall item,
    In item [LowStockItemOut.mk 1 7 100 100] <->
    exists k row,
      DB.stocks example_db !! k = Some row /\
      Stock.quantity_on_hand row <= 100 /\
      visible owner None row /\
      item = LowStockItemOut.mk (Stock.shop_id row) (Stock.product_id row)
               (Stock.quantity_on_hand row) 100.
Proof.
  intros clerk. split.
  - apply (proj2 (low_stock_alerts_lists_visible_rows 10 (Some 1) clerk example_db) 1);
      [reflexivity | reflexivity | cbn; lia].
  - apply (proj1 (low_stock_alerts_lists_visible_rows 100 None owner example_db)
             [LowStockItemOut.mk 1 7 100 100] example_db).
    vm_compute. reflexivity.
Defined.

(** ** Lookups by a unique key *)

Lemma select_first_None {A} (cond : A -> bool) (table : gmap Z A) :
  select_first cond table = None ->
  forall k row, table !! k = Some row -> cond row = false.
Proof.
  unfold select_first. intros H k row Hrow.
  destruct (List.find _ (map_to_list table)) as [kv|] eqn:E; [discriminate|].
  apply (find_none _ _ E (k, row)).
  apply list_elem_of_In, elem_of_map_to_list. exact Hrow.
Qed.

Lemma select_first_unique {A} (cond : A -> bool) (table : gmap Z A) k row :
  table !! k = Some row -> cond row = true ->
  (forall j other, table !! j = Some other -> cond other = true -> j = k) ->
  select_first cond table = Some k.
Proof.
  intros Hrow Hc Huniq.
  destruct (select_first cond table) as [j|] eqn:E.
  - apply select_first_Some in E as (other & Hother & Hco).
    f_equal. eapply Huniq; eassumption.
  - apply select_first_None with (k := k) (row := row) in E; [congruence | exact Hrow].
Qed.


Lemma select_product_unique (products : gmap Z Product.t) k row :
  unique_products products -> products !! k = Some row ->
  select_first (fun r => (Product.shop_id r =? Product.shop_id row) &&
                         String.eqb (Product.sku r) (Product.sku row)) products
  = Some k.
Proof.
  intros Huniq Hrow. eapply select_first_unique; [exact Hrow | |].
  - rewrite Z.eqb_refl, String.eqb_refl. reflexivity.
  - intros j other Hother Hc. apply andb_true_iff in Hc as [H1 H2].
    apply Z.eqb_eq in H1. apply String.eqb_eq in H2. eapply Huniq; eassumption.
Qed.

(** ** The unique keys are kept *)

Lemma unique_stocks_update stocks k row row' :
  unique_stocks stocks -> stocks !! k = Some row ->
  Stock.shop_id row' = Stock.shop_id row -> Stock.product_id row' = Stock.product_id row ->
  unique_stocks (<[k := row']> stocks).
Proof.
  intros Huniq Hrow Hs Hp k1 k2 r1 r2 H1 H2 Es Ep.
  destruct (decide (k1 = k)) as [->|N1], (decide (k2 = k)) as [->|N2];
    [reflexivity | | |].
  - rewrite lookup_insert_eq in H1. injection H1 as <-.
    rewrite lookup_insert_ne in H2 by congruence.
    eapply Huniq; [exact Hrow | exact H2 | congruence | congruence].
  - rewrite lookup_insert_eq in H2. injection H2 as <-.
    rewrite lookup_insert_ne in H1 by congruence.
    eapply Huniq; [exact H1 | exact Hrow | congruence | congruence].
  - rewrite lookup_insert_ne in H1, H2 by congruence. eapply Huniq; eassumption.
Qed.

Lemma unique_stocks_new stocks k shop_id product_id row' :
  unique_stocks stocks ->
  select_first (fun r => (Stock.shop_id r =? shop_id) && (Stock.product_id r =? product_id))
    stocks = None ->
  Stock.shop_id row' = shop_id -> Stock.product_id row' = product_id ->
  unique_stocks (<[k := row']> stocks).
Proof.
  intros Huniq Hnone Hs Hp k1 k2 r1 r2 H1 H2 Es Ep.
  assert (Hno : forall j r, stocks !! j = Some r ->
                  Stock.shop_id r = shop_id -> Stock.product_id r = product_id -> False).
  { intros j r Hr E1 E2. pose proof (select_first_None _ _ Hnone j r Hr) as Hc.
    cbv beta in Hc. rewrite E1, E2, !Z.eqb_refl in Hc. discriminate. }
  destruct (decide (k1 = k)) as [->|N1], (decide (k2 = k)) as [->|N2];
    [reflexivity | | |].
  - rewrite lookup_insert_eq in H1. injection H1 as <-.
    rewrite lookup_insert_ne in H2 by congruence.
    exfalso. eapply Hno; [exact H2 | congruence | congruence].
  - rewrite lookup_insert_eq in H2. injection H2 as <-.
    rewrite lookup_insert_ne in H1 by congruence.
    exfalso. eapply Hno; [exact H1 | congruence | congruence].
  - rewrite lookup_insert_ne in H1, H2 by congruence. eapply Huniq; eassumption.
Qed.

Lemma unique_stocks_delete stocks k :
  unique_stocks stocks -> unique_stocks (delete k stocks).
Proof.
  intros Huniq k1 k2 r1 r2 H1 H2.
  apply lookup_delete_Some in H1 as [_ H1]. apply lookup_delete_Some in H2 as [_ H2].
  eapply Huniq; eassumption.
Qed.

Lemma select_first_insert_None {A} (cond : A -> bool) (table : gmap Z A) k row row' :
  table !! k = Some row -> cond row' = cond row ->
  select_first cond table = None -> select_first cond (<[k := row']> table) = None.
Proof.
  intros Hrow Hc Hnone.
  destruct (select_first cond (<[k := row']> table)) as [j|] eqn:E; [|reflexivity].
  apply select_first_Some in E as (other & Hother & Hco).
  destruct (decide (j = k)) as [->|N].
  - rewrite lookup_insert_eq in Hother. injection Hother as <-.
    rewrite Hc, (select_first_None _ _ Hnone k row Hrow) in Hco. discriminate.
  - rewrite lookup_insert_ne in Hother by congruence.
    rewrite (select_first_None _ _ Hnone j other Hother) in Hco. discriminate.
Qed.

Lemma moved_unique payload target_product stocks0 stocks2 b sl :
  unique_stocks stocks0 ->
  moved payload target_product stocks0 stocks2 b sl ->
  unique_stocks stocks2.
Proof.
  intros Huniq (source & row & _ & Hrow & _ & -> & -> & Htarget).
  cbv zeta in Htarget.
  set (row1 := Stock.set_quantity_on_hand _ row) in *.
  assert (H1 : unique_stocks (<[source := row1]> stocks0)).
  { eapply unique_stocks_update; [exact Huniq | exact Hrow | reflexivity | reflexivity]. }
  destruct (select_first _ stocks0) as [target|] eqn:Esel.
  - destruct Htarget as (target_row & Ht & _ & ->).
    eapply unique_stocks_update; [exact H1 | exact Ht | reflexivity | reflexivity].
  - subst stocks2.
    eapply unique_stocks_new; [exact H1 | | reflexivity | reflexivity].
    eapply select_first_insert_None; [exact Hrow | reflexivity | exact Esel].
Qed.

Lemma reversed_unique transfer target_product stocks0 stocks2 :
  unique_stocks stocks0 ->
  reversed transfer target_product stocks0 stocks2 ->
  unique_stocks stocks2.
Proof.
  intros Huniq
    (source & target & source_row & checked_row & target_row
     & _ & _ & Hs & _ & _ & Ht & ->).
  cbv zeta in Ht.
  eapply unique_stocks_update; [|exact Ht| |].
  - eapply unique_stocks_update; [exact Huniq | exact Hs | reflexivity | reflexivity].
  - destruct (gt0 _); reflexivity.
  - destruct (gt0 _); reflexivity.
Qed.

Lemma unique_products_mirrored to_shop_id source_product products products' k :
  unique_products products ->
  mirrored to_shop_id source_product products products' k ->
  unique_products products'.
Proof.
  unfold mirrored. intros Huniq H.
  destruct (select_first _ products) as [j|] eqn:Esel; destruct H as [-> ->];
    [exact Huniq|].
  intros k1 k2 p1 p2 H1 H2 Es Ep.
  assert (Hno : forall j r, products !! j = Some r ->
                  Product.shop_id r = to_shop_id ->
                  Product.sku r = Product.sku source_product -> False).
  { intros j r Hr E1 E2. pose proof (select_first_None _ _ Esel j r Hr) as Hc.
    cbv beta in Hc. rewrite E1, E2, Z.eqb_refl, String.eqb_refl in Hc. discriminate. }
  set (k := fresh_id products) in *.
  destruct (decide (k1 = k)) as [->|N1], (decide (k2 = k)) as [->|N2];
    [reflexivity | | |].
  - rewrite lookup_insert_eq in H1. injection H1 as <-.
    rewrite lookup_insert_ne in H2 by congruence.
    exfalso. eapply Hno; [exact H2 | |]; cbn in *; congruence.
  - rewrite lookup_insert_eq in H2. injection H2 as <-.
    rewrite lookup_insert_ne in H1 by congruence.
    exfalso. eapply Hno; [exact H1 | |]; cbn in *; congruence.
  - rewrite lookup_insert_ne in H1, H2 by congruence. eapply Huniq; eassumption.
Qed.

(** ** Transfers, with the products *)

Lemma mirror_product_spec to_shop_id source_product s k s' :
  mirror_product to_shop_id source_product s = (Ok k, s') ->
  exists products',
    mirrored to_shop_id source_product (DB.products (pending s)) products' k /\
    s' = mkSession (committed s) (DB.set_products products' (pending s)).
Proof.
  unfold mirror_product, mirrored. intros E. tx_run E.
  destruct (select_first _ (DB.products (pending s))) as [k'|]; tx_more.
  - exists (DB.products (pending s)). split; [auto|].
    rewrite DB_set_products_id. destruct s; reflexivity.
  - eexists. split; [split; reflexivity | reflexivity].
Qed.

Lemma transfer_stock_spec payload u db transfer_id transfer db' :
  request (transfer_stock payload u) db = (Ok (transfer_id, transfer), db') ->
  exists source_product target_product products' stocks',
    DB.products db !! TransferStockRequest.product_id payload = Some source_product /\
    mirrored (TransferStockRequest.to_shop_id payload) source_product
      (DB.products db) products' target_product /\
    moved payload target_product (DB.stocks db) stocks'
      (StockTransfer.unit_buying_price transfer)
      (StockTransfer.unit_selling_price transfer) /\
    transfer_id = fresh_id (DB.stock_transfers db) /\
    transfer
    = StockTransfer.mk (TransferStockRequest.product_id payload)
        (TransferStockRequest.from_shop_id payload)
        (TransferStockRequest.to_shop_id payload) (Some (User.id u))
        (TransferStockRequest.quantity payload)
        (StockTransfer.unit_buying_price transfer)
        (StockTransfer.unit_selling_price transfer)
        (TransferStockRequest.note payload) /\
    integrity db' = true /\
    db' = DB.set_stock_transfers (<[transfer_id := transfer]> (DB.stock_transfers db))
            (DB.set_stocks stocks' (DB.set_products products' db)).
Proof.
  intros H. apply request_Ok in H as (s' & E & ->).
  unfold transfer_stock in E. tx_run E.
  match goal with
  | H : mirror_product _ _ _ = _ |- _ =>
      apply mirror_product_spec in H as (products' & Hmirror & ->)
  end.
  match goal with
  | H : move_stock _ _ _ = _ |- _ => apply move_stock_Ok in H as (stocks2 & Hmoved & ->)
  end.
  tx_more. eexists _, _, _, _.
  split; [eassumption|]. split; [exact Hmirror|]. split; [exact Hmoved|].
  split; [reflexivity|]. split; [reflexivity|]. split; [assumption | reflexivity].
Qed.

Lemma _apply_transfer_impact_spec payload s product_id source_buy source_sell s' :
  _apply_transfer_impact payload s = (Ok (product_id, source_buy, source_sell), s') ->
  exists source_product target_product products' stocks2,
    DB.products (pending s) !! TransferStockRequest.product_id payload = Some source_product /\
    mirrored (TransferStockRequest.to_shop_id payload) source_product
      (DB.products (pending s)) products' target_product /\
    moved payload target_product (DB.stocks (pending s)) stocks2 source_buy source_sell /\
    s' = mkSession (committed s)
           (DB.set_stocks stocks2 (DB.set_products products' (pending s))).
Proof.
  intros E. unfold _apply_transfer_impact in E. tx_run E.
  match goal with
  | H : mirror_product _ _ _ = _ |- _ =>
      apply mirror_product_spec in H as (products' & Hmirror & ->)
  end.
  match goal with
  | H : move_stock _ _ _ = _ |- _ => apply move_stock_Ok in H as (stocks2 & Hmoved & ->)
  end.
  tx_more. eexists _, _, _, _.
  split; [eassumption|]. split; [exact Hmirror|]. split; [exact Hmoved | reflexivity].
Qed.

Lemma update_transfer_products transfer_id payload u db v db' :
  request (update_transfer transfer_id payload u) db = (Ok v, db') ->
  DB.products db' = DB.products db \/
  exists to_shop_id source_product target_product,
    mirrored to_shop_id source_product (DB.products db) (DB.products db') target_product.
Proof.
  intros H. apply request_Ok in H as (s' & E & ->).
  unfold update_transfer in E. tx_run E.
  match goal with
  | H : (if ?c then _ else _) _ = _ |- _ => destruct c
  end.
  - tx_more. left. reflexivity.
  - match goal with
    | H : rollback_on_http _ _ = _ |- _ => apply rollback_on_http_Ok in H; tx_run H
    end.
    match goal with
    | H : _reverse_transfer_impact _ _ = _ |- _ =>
        apply _reverse_transfer_impact_Ok in H as (sp & rp & stocks1 & _ & _ & Hrev & ->)
    end.
    match goal with
    | H : _apply_transfer_impact _ _ = _ |- _ =>
        apply _apply_transfer_impact_spec in H
          as (sp' & tp & products' & stocks2 & _ & Hmirror & _ & ->)
    end.
    tx_more. right. eexists _, _, _. exact Hmirror.
Qed.

(** The row that [upsert_stock] writes is a row of the shop and the product
    of the request. *)
Lemma upsert_stock_row payload u db key row' db' :
  request (upsert_stock payload u) db = (Ok (key, row'), db') ->
  Stock.shop_id row' = StockUpsertRequest.shop_id payload /\
  Stock.product_id row' = StockUpsertRequest.product_id payload.
Proof.
  intros H. apply request_Ok in H as (s' & E & ->).
  unfold upsert_stock in E. tx_run E.
  destruct (select_first _ (DB.stocks db)) as [k|] eqn:Esel; tx_more; [|auto].
  apply select_stock_row in Esel as (row & Hrow & Hs & Hp). same_row. auto.
Qed.

Lemma serve_unique_stocks r db :
  unique_stocks (DB.stocks db) -> unique_stocks (DB.stocks (snd (serve r db))).
Proof.
  intros Huniq. unfold serve.
  destruct (validated r); [|exact Huniq].
  destruct r; cbn [route outcome snd];
    match goal with
    | |- context [request ?m db] => destruct (request m db) as [[v|e] db'] eqn:E; cbn [snd]
    end.
  - destruct v as [k purchase].
    apply create_purchase_Ok in E
      as (stock & row & sell & row' & Hsel & Happ & _ & _ & _ & _ & -> & _).
    apply apply_purchase_effect_Ok in Happ as (_ & Hs & Hp).
    destruct (select_first _ (DB.stocks db)) eqn:Esel.
    + destruct Hsel as (-> & Hrow & _).
      eapply unique_stocks_update; eassumption.
    + destruct Hsel as (-> & _ & ->).
      eapply unique_stocks_new; [exact Huniq | exact Esel | exact Hs | exact Hp].
  - apply request_atomic in E as ->; [exact Huniq | apply create_purchase_atomic].
  - destruct v as [k purchase'].
    apply update_purchase_Ok in E
      as (purchase & stock & row & row1 & row2 & _ & _ & Hrow & Hrem & Happ & _ & -> & _).
    apply remove_purchase_effect_Ok in Hrem as (_ & _ & Hs1 & Hp1).
    apply apply_purchase_effect_Ok in Happ as (_ & Hs2 & Hp2).
    eapply unique_stocks_update; [exact Huniq | exact Hrow | congruence | congruence].
  - apply request_atomic in E as ->; [exact Huniq | apply update_purchase_atomic].
  - destruct v as [k purchase].
    apply delete_purchase_Ok in E as (stock & row & row1 & _ & _ & Hrow & Hrem & -> & _).
    apply remove_purchase_effect_Ok in Hrem as (_ & _ & Hs1 & Hp1).
    eapply unique_stocks_update; eassumption.
  - apply request_atomic in E as ->; [exact Huniq | apply delete_purchase_atomic].
  - destruct v as [k row'].
    pose proof (upsert_stock_row _ _ _ _ _ _ E) as [Hs Hp].
    apply upsert_stock_Ok in E as (_ & _ & _ & Hsel & -> & _).
    destruct (select_first _ (DB.stocks db)) as [j|] eqn:Esel.
    + destruct Hsel as [-> _].
      apply select_stock_row in Esel as (row & Hrow & Hs' & Hp').
      eapply unique_stocks_update; [exact Huniq | exact Hrow | congruence | congruence].
    + subst k. eapply unique_stocks_new; eassumption.
  - apply request_atomic in E as ->; [exact Huniq | apply upsert_stock_atomic].
  - destruct v as [k row].
    apply delete_stock_Ok in E as (_ & _ & -> & _). apply unique_stocks_delete, Huniq.
  - apply request_atomic in E as ->; [exact Huniq | apply delete_stock_atomic].
  - destruct v as [k row'].
    apply adjust_stock_Ok in E as (row & Hrow & _ & -> & -> & _).
    eapply unique_stocks_update; [exact Huniq | exact Hrow | reflexivity | reflexivity].
  - apply request_atomic in E as ->; [exact Huniq | apply adjust_stock_atomic].
  - destruct v as [k sale].
    apply create_sale_Ok in E
      as (stock & row & _ & Hrow & _ & _ & _ & _ & _ & _ & _ & _ & ->).
    db_simpl. eapply unique_stocks_update; [exact Huniq | exact Hrow | reflexivity | reflexivity].
  - apply request_atomic in E as ->; [exact Huniq | apply create_sale_atomic].
  - apply create_sale_return_Ok in E as (sale & _ & _ & _ & _ & _ & _ & _ & _ & Est).
    destruct (SaleReturnCreateRequest.restock payload); [|rewrite Est; exact Huniq].
    destruct (select_first _ (DB.stocks db)) eqn:Esel.
    + destruct Est as (row & Hrow & ->).
      eapply unique_stocks_update; [exact Huniq | exact Hrow | reflexivity | reflexivity].
    + rewrite Est. eapply unique_stocks_new; [exact Huniq | exact Esel | reflexivity | reflexivity].
  - apply request_atomic in E as ->; [exact Huniq | apply create_sale_return_atomic].
  - destruct v as [k transfer].
    apply transfer_stock_Ok in E as (_ & _ & _ & _ & _ & _ & tp & Hmoved).
    eapply moved_unique; eassumption.
  - apply request_atomic in E as ->; [exact Huniq | apply transfer_stock_atomic].
  - destruct v as [k transfer'].
    apply update_transfer_Ok in E as (transfer & _ & [[-> _] | E]); [exact Huniq|].
    cbv zeta in E. destruct E as (_ & _ & _ & _ & stocks1 & rp & tp & Hrev & Hmov).
    eapply moved_unique; [|exact Hmov]. eapply reversed_unique; eassumption.
  - apply request_atomic in E as ->; [exact Huniq | apply update_transfer_atomic].
  - destruct v as [k transfer].
    apply delete_transfer_Ok in E as (_ & _ & _ & sp & rp & _ & _ & Hrev).
    eapply reversed_unique; eassumption.
  - apply request_atomic in E as ->; [exact Huniq | apply delete_transfer_atomic].
Qed.

Lemma serve_unique_products r db :
  unique_products (DB.products db) -> unique_products (DB.products (snd (serve r db))).
Proof.
  intros Huniq. unfold serve.
  destruct (validated r); [|exact Huniq].
  assert (Hkeep : forall A (m : Tx A),
             keeps DB.products m ->
             unique_products (DB.products (snd (outcome (request m db))))).
  { intros A m Hm. cbn [outcome snd]. rewrite (request_keeps DB.products m db Hm).
    exact Huniq. }
  destruct r; cbn [route].
  - apply Hkeep. unfold create_purchase. solve_keeps.
  - apply Hkeep. unfold update_purchase. solve_keeps.
  - apply Hkeep. unfold delete_purchase. solve_keeps.
  - apply Hkeep. unfold upsert_stock. solve_keeps.
  - apply Hkeep. unfold delete_stock. solve_keeps.
  - apply Hkeep. unfold adjust_stock. solve_keeps.
  - apply Hkeep. unfold create_sale. solve_keeps.
  - apply Hkeep. unfold create_sale_return. solve_keeps.
  - cbn [outcome snd].
    match goal with
    | |- context [request ?m db] =>
        destruct (request m db) as [[[k transfer]|e] db'] eqn:E; cbn [snd]
    end.
    + apply transfer_stock_spec in E
        as (sp & tp & products' & stocks' & _ & Hmirror & _ & _ & _ & _ & ->).
      db_simpl. eapply unique_products_mirrored; eassumption.
    + apply request_atomic in E as ->; [exact Huniq | apply transfer_stock_atomic].
  - cbn [outcome snd].
    match goal with
    | |- context [request ?m db] => destruct (request m db) as [[v|e] db'] eqn:E; cbn [snd]
    end.
    + apply update_transfer_products in E as [-> | (a & b & c & Hmirror)]; [exact Huniq|].
      eapply unique_products_mirrored; eassumption.
    + apply request_atomic in E as ->; [exact Huniq | apply update_transfer_atomic].
  - apply Hkeep. unfold delete_transfer. solve_keeps.
Qed.

(** X13.  The unique keys of the tables hold without the help of the
    database: whatever the requests, no second stock row appears for a shop and
    a product that have one, and no second product for a shop and an SKU that
    have one. *)
Theorem unique_keys_are_kept (rs : list Request) (db : DB.t) :
  unique_stocks (DB.stocks db) -> unique_products (DB.products db) ->
  unique_stocks (DB.stocks (serve_all rs db)) /\
  unique_products (DB.products (serve_all rs db)).
Proof.
  revert db. induction rs as [|r rs IH]; intros db Hs Hp; [auto|].
  cbn. apply IH; [apply serve_unique_stocks | apply serve_unique_products]; assumption.
Qed.

Lemma example_db_unique :
  unique_stocks (DB.stocks example_db) /\ unique_products (DB.products example_db).
Proof.
  split; intros k1 k2 r1 r2 H1 H2 _ _; cbn in H1, H2;
    apply lookup_insert_Some in H1 as [[<- _]|[_ H1]];
    apply lookup_insert_Some in H2 as [[<- _]|[_ H2]];
    try reflexivity; rewrite lookup_empty in *; discriminate.
Qed.

Lemma unique_keys_are_kept_witness :
  let rs :=
    [ POST_transfers (TransferStockRequest.mk 7 1 2 10 None) owner;
      POST_purchases (PurchaseCreate.mk 2 8 None None 5 12 None) owner;
      PUT_stocks (StockUpsertRequest.mk 2 8 3 11 16) owner ] in
  unique_stocks (DB.stocks (serve_all rs example_db)) /\
  unique_products (DB.products (serve_all rs example_db)).
Proof.
  intros rs. apply (unique_keys_are_kept rs example_db); apply example_db_unique.
Defined.

(** ** Undoing a transfer *)




Lemma mirrored_product to_shop_id source_product products products' k :
  mirrored to_shop_id source_product products products' k ->
  exists mirror,
    products' !! k = Some mirror /\
    Product.shop_id mirror = to_shop_id /\
    Product.sku mirror = Product.sku source_product /\
    select_first
      (fun row => (Product.shop_id row =? to_shop_id) &&
                  String.eqb (Product.sku row) (Product.sku source_product))
      products' = Some k /\
    forall j row, products !! j = Some row -> products' !! j = Some row.
Proof.
  unfold mirrored. intros H.
  destruct (select_first _ products) as [j|] eqn:Esel; destruct H as [-> ->].
  - pose proof Esel as Hs. apply select_first_Some in Hs as (row & Hrow & Hc).
    apply andb_true_iff in Hc as [H1 H2].
    apply Z.eqb_eq in H1. apply String.eqb_eq in H2.
    exists row. repeat split; auto.
  - eexists. split; [apply lookup_insert_eq|]. split; [reflexivity|].
    split; [reflexivity|]. split.
    + eapply select_first_unique; [apply lookup_insert_eq | |].
      * cbn. rewrite Z.eqb_refl, String.eqb_refl. reflexivity.
      * intros j other Hother Hc.
        destruct (decide (j = fresh_id products)) as [->|N]; [reflexivity|].
        rewrite lookup_insert_ne in Hother by congruence.
        rewrite (select_first_None _ _ Esel j other Hother) in Hc. discriminate.
    + intros j row Hrow. rewrite lookup_insert_ne; [exact Hrow|].
      intros <-. rewrite fresh_id_fresh in Hrow. discriminate.
Qed.

Lemma moved_target payload target_product stocks0 stocks2 b sl :
  moved payload target_product stocks0 stocks2 b sl ->
  exists target target_row',
    stocks2 !! target = Some target_row' /\
    Stock.shop_id target_row' = TransferStockRequest.to_shop_id payload /\
    Stock.product_id target_row' = target_product.
Proof.
  intros (source & row & Hsel & Hrow & Hle & -> & -> & Htarget).
  cbv zeta in Htarget.
  match type of Htarget with
  | match ?x with _ => _ end => destruct x as [target|] eqn:Etarget
  end.
  - destruct Htarget as (target_row & Ht & _ & ->).
    apply select_stock_row in Etarget as (trow & Htrow & Htshop & Htprod).
    destruct (decide (source = target)) as [->|Hne].
    + rewrite lookup_insert_eq in Ht. injection Ht as <-.
      rewrite Hrow in Htrow. injection Htrow as <-.
      eexists _, _. split; [apply lookup_insert_eq|]. auto.
    + rewrite lookup_insert_ne in Ht by exact Hne.
      rewrite Htrow in Ht. injection Ht as <-.
      eexists _, _. split; [apply lookup_insert_eq|]. auto.
  - subst stocks2. eexists _, _. split; [apply lookup_insert_eq|]. auto.
Qed.

(** X14.  A transfer works by SKU: the destination shop ends up with a
    product that carries the SKU of the product transferred, the one it had
    or, when it had none, a new active product with the SKU, name, unit and
    description of the source product, and nothing else is changed in the
    products; the stock row that receives the units is a row of the
    destination shop for that product. *)
Theorem transfer_mirrors_the_product payload u db transfer_id transfer db' :
  request (transfer_stock payload u) db = (Ok (transfer_id, transfer), db') ->
  exists source_product target_product mirror target target_row',
    DB.products db !! TransferStockRequest.product_id payload = Some source_product /\
    mirrored (TransferStockRequest.to_shop_id payload) source_product
      (DB.products db) (DB.products db') target_product /\
    DB.products db' !! target_product = Some mirror /\
    Product.shop_id mirror = TransferStockRequest.to_shop_id payload /\
    Product.sku mirror = Product.sku source_product /\
    (forall j row, DB.products db !! j = Some row -> DB.products db' !! j = Some row) /\
    DB.stocks db' !! target = Some target_row' /\
    Stock.shop_id target_row' = TransferStockRequest.to_shop_id payload /\
    Stock.product_id target_row' = target_product.
Proof.
  intros H.
  apply transfer_stock_spec in H
    as (sp & tp & products' & stocks' & Hsp & Hmirror & Hmoved & _ & _ & _ & ->).
  db_simpl.
  destruct (mirrored_product _ _ _ _ _ Hmirror) as (mirror & Hm & Hshop & Hsku & _ & Hkeep).
  destruct (moved_target _ _ _ _ _ _ Hmoved) as (target & target_row' & Ht & Hts & Htp).
  exists sp, tp, mirror, target, target_row'. repeat split; assumption.
Qed.

Lemma transfer_mirrors_the_product_witness :
  let db' := snd (request (transfer_stock (TransferStockRequest.mk 7 1 2 10 None) owner)
                    example_db) in
  exists target_product mirror target target_row',
    DB.products db' !! target_product = Some mirror /\
    Product.shop_id mirror = 2 /\
    Product.sku mirror = "SKU-7" /\
    DB.stocks db' !! target = Some target_row' /\
    Stock.shop_id target_row' = 2 /\
    Stock.product_id target_row' = target_product.
Proof.
  intros db'.
  edestruct (transfer_mirrors_the_product (TransferStockRequest.mk 7 1 2 10 None) owner
               example_db)
    as (sp & tp & mirror & target & target_row' & Hsp & _ & Hm & Hshop & Hsku & _
        & Ht & Hts & Htp);
    [vm_compute; reflexivity|].
  assert (sp = Product.mk 1 "SKU-7" "Widget" "piece" None true) as ->
    by (vm_compute in Hsp; congruence).
  exists tp, mirror, target, target_row'. repeat split; assumption.
Defined.





(** ** Undoing a purchase *)

Lemma create_purchase_spec payload u db purchase_id purchase db' :
  request (create_purchase payload u) db = (Ok (purchase_id, purchase), db') ->
  let buy := PurchaseCreate.unit_buying_price payload in
  exists stock row sell row',
    match select_first
            (fun row => (Stock.shop_id row =? PurchaseCreate.shop_id payload) &&
                        (Stock.product_id row =? PurchaseCreate.product_id payload))
            (DB.stocks db) with
    | Some k =>
        stock = k /\ DB.stocks db !! k = Some row /\
        sell = default (Stock.selling_price row) (PurchaseCreate.unit_selling_price payload)
    | None =>
        stock = fresh_id (DB.stocks db) /\
        sell = default buy (PurchaseCreate.unit_selling_price payload) /\
        row = Stock.mk (PurchaseCreate.shop_id payload) (PurchaseCreate.product_id payload)
                0 (_quantize_price buy) (_quantize_price sell)
    end /\
    _apply_purchase_effect row (PurchaseCreate.quantity payload) buy sell = Ok row' /\
    purchase
    = Purchase.mk (PurchaseCreate.shop_id payload) (PurchaseCreate.product_id payload)
        (PurchaseCreate.supplier_id payload)
        (strip_or (PurchaseCreate.invoice_number payload) None) (Some (User.id u))
        (Purchase.unit purchase) (PurchaseCreate.quantity payload)
        (_quantize_price buy) (_quantize_price sell)
        (_quantize_price (buy * Decimal.of_int (PurchaseCreate.quantity payload))) /\
    purchase_id = fresh_id (DB.purchases db) /\
    db' = DB.set_purchases (<[purchase_id := purchase]> (DB.purchases db))
            (DB.set_stocks (<[stock := row']> (DB.stocks db)) db).
Proof.
  intros H buy. apply request_Ok in H as (s' & E & ->).
  unfold create_purchase in E. tx_run E.
  match goal with H : integrity _ = true |- _ => clear H end.
  destruct (select_first _ (DB.stocks db)) as [k|] eqn:Esel;
    destruct (PurchaseCreate.unit_selling_price payload) as [price|] eqn:Eprice;
    tx_more; eexists _, _, _, _.
  - split; [split; [reflexivity|split; [eassumption|reflexivity]]|].
    split; [eassumption|]. repeat split.
  - split; [split; [reflexivity|split; [eassumption|reflexivity]]|].
    split; [eassumption|]. repeat split.
  - split; [split; [reflexivity|split; reflexivity]|].
    split; [eassumption|]. split; [reflexivity|]. split; [reflexivity|].
    rewrite insert_insert_eq. reflexivity.
  - split; [split; [reflexivity|split; reflexivity]|].
    split; [eassumption|]. split; [reflexivity|]. split; [reflexivity|].
    rewrite insert_insert_eq. reflexivity.
Qed.




(** ** The reach of a user *)

Lemma within_refl shops stocks : within shops stocks stocks.
Proof. intros k. left. reflexivity. Qed.

Lemma within_trans shops a b c : within shops a b -> within shops b c -> within shops a c.
Proof.
  intros H1 H2 k. destruct (H1 k) as [E1|[A1 B1]], (H2 k) as [E2|[A2 B2]].
  - left. congruence.
  - right. split; [intros row Hrow; apply A2; congruence | exact B2].
  - right. split; [exact A1 | intros row Hrow; apply B1; congruence].
  - right. split; assumption.
Qed.

Lemma within_mono shops shops' a b :
  (forall x, In x shops -> In x shops') -> within shops a b -> within shops' a b.
Proof.
  intros Hsub H k. destruct (H k) as [E|[A B]]; [left; exact E|].
  right. split; intros row Hrow; apply Hsub; auto.
Qed.

Lemma within_insert shops stocks k row row' :
  stocks !! k = Some row -> Stock.shop_id row' = Stock.shop_id row ->
  In (Stock.shop_id row) shops -> within shops stocks (<[k := row']> stocks).
Proof.
  intros Hrow Hs Hin j. destruct (decide (j = k)) as [->|Hne].
  - right. split.
    + intros r Hr. congruence.
    + intros r Hr. rewrite lookup_insert_eq in Hr. congruence.
  - left. apply lookup_insert_ne. congruence.
Qed.

Lemma within_insert_new shops stocks k row' :
  stocks !! k = None -> In (Stock.shop_id row') shops ->
  within shops stocks (<[k := row']> stocks).
Proof.
  intros Hnone Hin j. destruct (decide (j = k)) as [->|Hne].
  - right. split.
    + intros r Hr. congruence.
    + intros r Hr. rewrite lookup_insert_eq in Hr. congruence.
  - left. apply lookup_insert_ne. congruence.
Qed.

Lemma within_delete shops stocks k row :
  stocks !! k = Some row -> In (Stock.shop_id row) shops ->
  within shops stocks (delete k stocks).
Proof.
  intros Hrow Hin j. destruct (decide (j = k)) as [->|Hne].
  - right. split.
    + intros r Hr. congruence.
    + intros r Hr. rewrite lookup_delete_eq in Hr. discriminate.
  - left. apply lookup_delete_ne. congruence.
Qed.

Lemma moved_within payload target_product stocks0 stocks2 b sl :
  moved payload target_product stocks0 stocks2 b sl ->
  within [TransferStockRequest.from_shop_id payload; TransferStockRequest.to_shop_id payload]
    stocks0 stocks2.
Proof.
  intros (source & row & Hsel & Hrow & _ & -> & -> & Htarget).
  cbv zeta in Htarget.
  apply select_stock_row in Hsel as (row0 & Hrow0 & Hshop & _).
  rewrite Hrow in Hrow0. injection Hrow0 as <-.
  eapply within_trans.
  { eapply within_insert with (row' := Stock.set_quantity_on_hand _ row);
      [exact Hrow | reflexivity | rewrite Hshop; left; reflexivity]. }
  match type of Htarget with
  | match ?x with _ => _ end => destruct x as [target|] eqn:Etarget
  end.
  - destruct Htarget as (target_row & Ht & _ & ->).
    eapply within_insert; [exact Ht | reflexivity|].
    destruct (decide (target = source)) as [->|Hne].
    + rewrite lookup_insert_eq in Ht. injection Ht as <-. cbn. rewrite Hshop. left. reflexivity.
    + rewrite lookup_insert_ne in Ht by congruence.
      apply select_stock_row in Etarget as (trow & Htrow & Htshop & _).
      rewrite Htrow in Ht. injection Ht as <-. rewrite Htshop. right. left. reflexivity.
  - subst stocks2. apply within_insert_new; [apply fresh_id_fresh|].
    cbn. right. left. reflexivity.
Qed.

Lemma reversed_within transfer target_product stocks0 stocks2 :
  reversed transfer target_product stocks0 stocks2 ->
  within [StockTransfer.from_shop_id transfer; StockTransfer.to_shop_id transfer]
    stocks0 stocks2.
Proof.
  intros (source & target & source_row & checked_row & target_row
          & Hsel1 & Hsel2 & Hs & Hc & _ & Ht & ->).
  cbv zeta in Ht.
  apply select_stock_row in Hsel1 as (r1 & Hr1 & Hshop1 & _).
  rewrite Hs in Hr1. injection Hr1 as <-.
  apply select_stock_row in Hsel2 as (r2 & Hr2 & Hshop2 & _).
  rewrite Hc in Hr2. injection Hr2 as <-.
  eapply within_trans.
  { eapply within_insert with (row' := Stock.set_quantity_on_hand _ source_row);
      [exact Hs | reflexivity | rewrite Hshop1; left; reflexivity]. }
  eapply within_insert; [exact Ht | destruct (gt0 _); reflexivity|].
  destruct (decide (target = source)) as [->|Hne].
  - rewrite lookup_insert_eq in Ht. injection Ht as <-. cbn. rewrite Hshop1. left. reflexivity.
  - rewrite lookup_insert_ne in Ht by congruence.
    rewrite Hc in Ht. injection Ht as <-. rewrite Hshop2. right. left. reflexivity.
Qed.

Lemma in_scope_own u shop_id db :
  _is_system_owner u = false -> in_scope u shop_id db = true -> shop_id = User.shop_id u.
Proof.
  unfold in_scope. intros -> H. cbn in H.
  apply andb_true_iff in H as [_ H]. apply Z.eqb_eq in H. exact H.
Qed.

Lemma delete_purchase_guards purchase_id u db v db' :
  request (delete_purchase purchase_id u) db = (Ok v, db') ->
  exists purchase,
    DB.purchases db !! purchase_id = Some purchase /\
    in_scope u (Purchase.shop_id purchase) db = true.
Proof.
  intros H. apply request_Ok in H as (s' & E & ->).
  unfold delete_purchase in E. do 3 tx_bind2 E. eauto.
Qed.

Lemma delete_stock_guards stock_id u db v db' :
  request (delete_stock stock_id u) db = (Ok v, db') ->
  exists row,
    DB.stocks db !! stock_id = Some row /\ in_scope u (Stock.shop_id row) db = true.
Proof.
  intros H. apply request_Ok in H as (s' & E & ->).
  unfold delete_stock in E. do 3 tx_bind2 E. eauto.
Qed.

Lemma adjust_stock_guards stock_id payload u db v db' :
  request (adjust_stock stock_id payload u) db = (Ok v, db') ->
  exists row,
    DB.stocks db !! stock_id = Some row /\ in_scope u (Stock.shop_id row) db = true.
Proof.
  intros H. apply request_Ok in H as (s' & E & ->).
  unfold adjust_stock in E. do 3 tx_bind2 E. eauto.
Qed.

Lemma update_transfer_guards transfer_id payload u db v db' :
  request (update_transfer transfer_id payload u) db = (Ok v, db') ->
  exists transfer,
    DB.stock_transfers db !! transfer_id = Some transfer /\
    in_scope u (default (StockTransfer.from_shop_id transfer)
                  (TransferStockUpdate.from_shop_id payload)) db = true.
Proof.
  intros H. apply request_Ok in H as (s' & E & ->).
  unfold update_transfer in E. do 3 tx_bind2 E. eauto.
Qed.

Lemma delete_transfer_guards transfer_id u db v db' :
  request (delete_transfer transfer_id u) db = (Ok v, db') ->
  exists transfer,
    DB.stock_transfers db !! transfer_id = Some transfer /\
    in_scope u (StockTransfer.from_shop_id transfer) db = true.
Proof.
  intros H. apply request_Ok in H as (s' & E & ->).
  unfold delete_transfer in E. do 3 tx_bind2 E. eauto.
Qed.

(** X17.  A user without access to all shops reaches only the stock of the
    user's own shop.  Whatever the request, the stock rows that differ
    afterwards (changed, created or deleted) are rows of that shop, with one
    exception, the transfers: a transfer out of the shop also changes the row
    of the destination shop, and an edit or a deletion of a transfer, the rows
    of the shops of the transfer
    as it was recorded. *)
Theorem a_user_reaches_only_own_shops (r : Request) (db : DB.t) :
  _is_system_owner (user_of r) = false ->
  within (reach r db) (DB.stocks db) (DB.stocks (snd (serve r db))).
Proof.
  intros Hno. unfold serve.
  destruct (validated r); [|apply within_refl].
  destruct r; cbn [route outcome snd user_of] in *; unfold reach; cbn [user_of];
    match goal with
    | |- context [request ?m db] => destruct (request m db) as [[v|e] db'] eqn:E; cbn [snd]
    end.
  - pose proof (create_purchase_guards _ _ _ _ _ E) as (Hscope & _).
    apply (in_scope_own _ _ _ Hno) in Hscope.
    destruct v as [k purchase].
    apply create_purchase_Ok in E
      as (stock & row & sell & row' & Hsel & Happ & _ & _ & _ & _ & -> & _).
    apply apply_purchase_effect_Ok in Happ as (_ & Hs & _).
    destruct (select_first _ (DB.stocks db)) eqn:Esel.
    + destruct Hsel as (-> & Hrow & _).
      apply select_stock_row in Esel as (r0 & Hr0 & Hshop & _).
      rewrite Hrow in Hr0. injection Hr0 as <-.
      eapply within_insert; [exact Hrow | exact Hs | left; congruence].
    + destruct Hsel as (-> & _ & ->).
      apply within_insert_new; [apply fresh_id_fresh | left; rewrite Hs; cbn; congruence].
  - apply request_atomic in E as ->; [apply within_refl | apply create_purchase_atomic].
  - pose proof (update_purchase_guards _ _ _ _ _ _ E) as (purchase0 & Hp0 & Hscope & _).
    apply (in_scope_own _ _ _ Hno) in Hscope.
    destruct v as [k purchase'].
    apply update_purchase_Ok in E
      as (purchase & stock & row & row1 & row2 & Hpu & Hsel & Hrow & Hrem & Happ & _ & -> & _).
    rewrite Hp0 in Hpu. injection Hpu as <-.
    apply remove_purchase_effect_Ok in Hrem as (_ & _ & Hs1 & _).
    apply apply_purchase_effect_Ok in Happ as (_ & Hs2 & _).
    apply select_stock_row in Hsel as (r0 & Hr0 & Hshop & _).
    rewrite Hrow in Hr0. injection Hr0 as <-.
    eapply within_insert; [exact Hrow | congruence | left; congruence].
  - apply request_atomic in E as ->; [apply within_refl | apply update_purchase_atomic].
  - pose proof (delete_purchase_guards _ _ _ _ _ E) as (purchase0 & Hp0 & Hscope).
    apply (in_scope_own _ _ _ Hno) in Hscope.
    destruct v as [k purchase].
    apply delete_purchase_Ok in E as (stock & row & row1 & Hpu & Hsel & Hrow & Hrem & -> & _).
    rewrite Hp0 in Hpu. injection Hpu as <-.
    apply remove_purchase_effect_Ok in Hrem as (_ & _ & Hs1 & _).
    apply select_stock_row in Hsel as (r0 & Hr0 & Hshop & _).
    rewrite Hrow in Hr0. injection Hr0 as <-.
    eapply within_insert; [exact Hrow | congruence | left; congruence].
  - apply request_atomic in E as ->; [apply within_refl | apply delete_purchase_atomic].
  - pose proof (upsert_stock_guards _ _ _ _ _ E) as (Hscope & _).
    apply (in_scope_own _ _ _ Hno) in Hscope.
    destruct v as [k row'].
    pose proof (upsert_stock_row _ _ _ _ _ _ E) as [Hs _].
    apply upsert_stock_Ok in E as (_ & _ & _ & Hsel & -> & _).
    destruct (select_first _ (DB.stocks db)) as [j|] eqn:Esel.
    + destruct Hsel as [-> _].
      apply select_stock_row in Esel as (row & Hrow & Hshop & _).
      eapply within_insert; [exact Hrow | congruence | left; congruence].
    + subst k. apply within_insert_new; [apply fresh_id_fresh | left; congruence].
  - apply request_atomic in E as ->; [apply within_refl | apply upsert_stock_atomic].
  - pose proof (delete_stock_guards _ _ _ _ _ E) as (row0 & Hrow0 & Hscope).
    apply (in_scope_own _ _ _ Hno) in Hscope.
    destruct v as [k row].
    apply delete_stock_Ok in E as (_ & _ & -> & _).
    eapply within_delete; [exact Hrow0 | left; congruence].
  - apply request_atomic in E as ->; [apply within_refl | apply delete_stock_atomic].
  - pose proof (adjust_stock_guards _ _ _ _ _ _ E) as (row0 & Hrow0 & Hscope).
    apply (in_scope_own _ _ _ Hno) in Hscope.
    destruct v as [k row'].
    apply adjust_stock_Ok in E as (row & Hrow & _ & -> & -> & _).
    rewrite Hrow0 in Hrow. injection Hrow as <-.
    eapply within_insert; [exact Hrow0 | reflexivity | left; congruence].
  - apply request_atomic in E as ->; [apply within_refl | apply adjust_stock_atomic].
  - pose proof (create_sale_guards _ _ _ _ _ E) as (Hscope & _).
    apply (in_scope_own _ _ _ Hno) in Hscope.
    destruct v as [k sale].
    apply create_sale_Ok in E
      as (stock & row & Hsel & Hrow & _ & _ & _ & _ & _ & _ & _ & _ & ->).
    db_simpl.
    apply select_stock_row in Hsel as (r0 & Hr0 & Hshop & _).
    rewrite Hrow in Hr0. injection Hr0 as <-.
    eapply within_insert; [exact Hrow | reflexivity | left; congruence].
  - apply request_atomic in E as ->; [apply within_refl | apply create_sale_atomic].
  - pose proof (create_sale_return_guards _ _ _ _ _ _ E) as (sale0 & Hs0 & Hscope & _).
    apply (in_scope_own _ _ _ Hno) in Hscope.
    apply create_sale_return_Ok in E as (sale & Hsale & _ & _ & _ & _ & _ & _ & _ & Est).
    rewrite Hs0 in Hsale. injection Hsale as <-.
    destruct (SaleReturnCreateRequest.restock payload);
      [|rewrite Est; apply within_refl].
    destruct (select_first _ (DB.stocks db)) eqn:Esel.
    + destruct Est as (row & Hrow & ->).
      apply select_stock_row in Esel as (r0 & Hr0 & Hshop & _).
      rewrite Hrow in Hr0. injection Hr0 as <-.
      eapply within_insert; [exact Hrow | reflexivity | left; congruence].
    + rewrite Est. apply within_insert_new; [apply fresh_id_fresh | left; cbn; congruence].
  - apply request_atomic in E as ->; [apply within_refl | apply create_sale_return_atomic].
  - pose proof (transfer_stock_guards _ _ _ _ _ E) as (_ & Hscope & _).
    apply (in_scope_own _ _ _ Hno) in Hscope.
    destruct v as [k transfer].
    apply transfer_stock_Ok in E as (_ & _ & _ & _ & _ & _ & tp & Hmoved).
    apply moved_within in Hmoved. rewrite Hscope in Hmoved. exact Hmoved.
  - apply request_atomic in E as ->; [apply within_refl | apply transfer_stock_atomic].
  - pose proof (update_transfer_guards _ _ _ _ _ _ E) as (transfer0 & Ht0 & Hscope).
    apply (in_scope_own _ _ _ Hno) in Hscope.
    destruct v as [k transfer'].
    apply update_transfer_Ok in E as (transfer & Htr & [[-> _] | E]); [apply within_refl|].
    rewrite Ht0 in Htr. injection Htr as <-. rewrite Ht0.
    cbv zeta in E. destruct E as (_ & _ & _ & _ & stocks1 & rp & tp & Hrev & Hmov).
    apply reversed_within in Hrev. apply moved_within in Hmov.
    cbn [TransferStockRequest.from_shop_id TransferStockRequest.to_shop_id] in Hmov.
    rewrite Hscope in Hmov.
    eapply within_trans; (eapply within_mono; [|eassumption]).
    + intros x [<- | [<- | []]]; cbn; rewrite in_app_iff; cbn; auto.
    + intros x [<- | [<- | []]]; [left; reflexivity|].
      right. rewrite in_app_iff.
      destruct (TransferStockUpdate.to_shop_id payload); cbn; auto.
  - apply request_atomic in E as ->; [apply within_refl | apply update_transfer_atomic].
  - pose proof (delete_transfer_guards _ _ _ _ _ E) as (transfer0 & Ht0 & Hscope).
    apply (in_scope_own _ _ _ Hno) in Hscope.
    destruct v as [k transfer].
    apply delete_transfer_Ok in E as (Htr & _ & _ & sp & rp & _ & _ & Hrev).
    rewrite Ht0 in Htr. injection Htr as <-. rewrite Ht0.
    apply reversed_within in Hrev.
    eapply within_mono; [|exact Hrev].
    intros x Hx. right. exact Hx.
  - apply request_atomic in E as ->; [apply within_refl | apply delete_transfer_atomic].
Qed.

Lemma a_user_reaches_only_own_shops_witness :
  let manager := User.mk 9 2 false BUSINESS_OWNER in
  let db1 :=
    snd (request (transfer_stock (TransferStockRequest.mk 7 1 2 10 None) owner) example_db) in
  let r := POST_sales (SaleCreateRequest.mk 2 8 4 None) manager in
  fst (serve r db1) = None /\
  within [2] (DB.stocks db1) (DB.stocks (snd (serve r db1))).
Proof.
  intros manager db1 r. split; [vm_compute; reflexivity|].
  apply (a_user_reaches_only_own_shops r db1). reflexivity.
Defined.

(** ** Stock and ledgers move together *)

Lemma total_insert_new {A} (f : A -> Z) (table : gmap Z A) k row :
  table !! k = None -> total f (<[k := row]> table) = f row + total f table.
Proof.
  intros Hk. unfold total.
  rewrite (map_fold_insert_L (fun _ row acc => f row + acc) 0 k row table);
    [reflexivity | intros; lia | exact Hk].
Qed.

Lemma total_delete {A} (f : A -> Z) (table : gmap Z A) k row :
  table !! k = Some row -> total f (delete k table) = total f table - f row.
Proof.
  intros Hk. unfold total.
  rewrite (map_fold_delete_L (fun _ row acc => f row + acc) 0 k row table);
    [lia | intros; lia | exact Hk].
Qed.

Lemma total_insert {A} (f : A -> Z) (table : gmap Z A) k row row' :
  table !! k = Some row -> total f (<[k := row']> table) = total f table - f row + f row'.
Proof.
  intros Hk. rewrite <- (insert_delete_eq table k row').
  rewrite total_insert_new by apply lookup_delete_eq.
  rewrite (total_delete f table k row Hk). lia.
Qed.

Lemma units_same {A B} (shop product quantity : A -> Z) (shop' product' quantity' : B -> Z)
    s p row row' :
  shop' row' = shop row -> product' row' = product row ->
  units shop' product' quantity' s p row'
  = if (shop row =? s) && (product row =? p) then quantity' row' else 0.
Proof. intros E1 E2. unfold units. rewrite E1, E2. reflexivity. Qed.

Lemma sum_snoc {A} (f : A -> Z) (l : list A) x :
  foldr Z.add 0 (f <$> (l ++ [x])%list) = foldr Z.add 0 (f <$> l) + f x.
Proof. induction l as [|y l IH]; cbn in *; lia. Qed.

(** A table that a route does not write is the same after the request. *)
Ltac kept f E :=
  match type of E with
  | request ?m ?db = (_, ?db') =>
      let H := fresh "Hkeep" in
      assert (H : f db' = f db);
      [ transitivity (f (snd (request m db))); [rewrite E; reflexivity|];
        apply request_keeps;
        unfold create_purchase, update_purchase, delete_purchase, adjust_stock,
          create_sale, create_sale_return;
        solve_keeps
      | ]
  end.

Ltac books_done :=
  unfold units; cbn [Stock.shop_id Stock.product_id Stock.quantity_on_hand
                     Stock.set_quantity_on_hand
                     Purchase.shop_id Purchase.product_id Purchase.quantity
                     Sale.shop_id Sale.product_id Sale.quantity
                     SaleReturn.shop_id SaleReturn.product_id SaleReturn.quantity
                     SaleReturn.restocked
                     StockAdjustment.shop_id StockAdjustment.product_id
                     StockAdjustment.quantity_delta] in *;
  repeat match goal with
         | H : Stock.shop_id _ = _ |- _ => rewrite H in *; clear H
         | H : Stock.product_id _ = _ |- _ => rewrite H in *; clear H
         | H : Purchase.shop_id _ = _ |- _ => rewrite H in *; clear H
         | H : Purchase.product_id _ = _ |- _ => rewrite H in *; clear H
         | H : Sale.shop_id _ = _ |- _ => rewrite H in *; clear H
         | H : Sale.product_id _ = _ |- _ => rewrite H in *; clear H
         end;
  repeat match goal with
         | |- context [(?a =? ?b) && (?c =? ?d)] =>
             destruct ((a =? b) && (c =? d))
         end;
  lia.

Lemma create_purchase_books payload u db v db' s p :
  request (create_purchase payload u) db = (Ok v, db') ->
  on_hand s p db' - on_hand s p db = booked s p db' - booked s p db.
Proof.
  destruct v as [k purchase]. intros E.
  apply create_purchase_spec in E
    as (stock & row & sell & row' & Hsel & Happ & -> & -> & ->).
  apply apply_purchase_effect_Ok in Happ as (Hq & Hs & Hp).
  unfold on_hand, booked. db_simpl.
  rewrite (total_insert_new _ (DB.purchases db)) by apply fresh_id_fresh.
  destruct (select_first _ (DB.stocks db)) eqn:Esel.
  - destruct Hsel as (-> & Hrow & _).
    apply select_stock_row in Esel as (row0 & Hrow0 & Hs0 & Hp0).
    assert (row0 = row) as -> by congruence.
    rewrite (total_insert _ _ _ _ _ Hrow). books_done.
  - destruct Hsel as (-> & _ & ->).
    rewrite total_insert_new by apply fresh_id_fresh. books_done.
Qed.

Lemma update_purchase_books purchase_id payload u db v db' s p :
  request (update_purchase purchase_id payload u) db = (Ok v, db') ->
  on_hand s p db' - on_hand s p db = booked s p db' - booked s p db.
Proof.
  destruct v as [k purchase']. intros E.
  kept DB.sales E. kept DB.sale_returns E. kept DB.stock_adjustments E.
  pose proof (update_purchase_record _ _ _ _ _ _ _ E)
    as (purchase0 & _ & Hp0 & Hshop & Hproduct & _).
  apply update_purchase_Ok in E
    as (purchase & stock & row & row1 & row2 & Hpu & Hsel & Hrow & Hrem & Happ & Hq
        & Hst & Hpu' & _).
  assert (purchase0 = purchase) as -> by congruence.
  apply select_stock_row in Hsel as (row0 & Hrow0 & Hs0 & Hp0').
  assert (row0 = row) as -> by congruence.
  apply remove_purchase_effect_Ok in Hrem as (_ & Hq1 & Hs1 & Hp1).
  apply apply_purchase_effect_Ok in Happ as (Hq2 & Hs2 & Hp2).
  unfold on_hand, booked. rewrite Hst, Hpu', Hkeep, Hkeep0, Hkeep1.
  rewrite (total_insert _ _ _ _ _ Hrow), (total_insert _ _ _ _ _ Hpu).
  rewrite Hs1 in Hs2. rewrite Hp1 in Hp2. books_done.
Qed.

Lemma delete_purchase_books purchase_id u db v db' s p :
  request (delete_purchase purchase_id u) db = (Ok v, db') ->
  on_hand s p db' - on_hand s p db = booked s p db' - booked s p db.
Proof.
  destruct v as [k purchase']. intros E.
  kept DB.sales E. kept DB.sale_returns E. kept DB.stock_adjustments E.
  apply delete_purchase_Ok in E
    as (stock & row & row1 & Hpu & Hsel & Hrow & Hrem & Hst & Hpu' & _).
  apply select_stock_row in Hsel as (row0 & Hrow0 & Hs0 & Hp0).
  assert (row0 = row) as -> by congruence.
  apply remove_purchase_effect_Ok in Hrem as (_ & Hq1 & Hs1 & Hp1).
  unfold on_hand, booked. rewrite Hst, Hpu', Hkeep, Hkeep0, Hkeep1.
  rewrite (total_insert _ _ _ _ _ Hrow), (total_delete _ _ _ _ Hpu).
  books_done.
Qed.

Lemma adjust_stock_record stock_id payload u db key row' db' :
  request (adjust_stock stock_id payload u) db = (Ok (key, row'), db') ->
  exists row,
    DB.stocks db !! stock_id = Some row /\
    DB.stocks db' = <[stock_id := row']> (DB.stocks db) /\
    Stock.shop_id row' = Stock.shop_id row /\
    Stock.product_id row' = Stock.product_id row /\
    Stock.quantity_on_hand row'
    = Stock.quantity_on_hand row + StockAdjustRequest.quantity_delta payload /\
    DB.stock_adjustments db'
    = (DB.stock_adjustments db
       ++ [StockAdjustment.mk stock_id (Stock.shop_id row) (Stock.product_id row)
             (Some (User.id u)) (Stock.quantity_on_hand row)
             (Stock.quantity_on_hand row') (StockAdjustRequest.quantity_delta payload)])%list.
Proof.
  intros H. apply request_Ok in H as (s' & E & ->).
  unfold adjust_stock in E. tx_run E.
  match goal with H : integrity _ = true |- _ => clear H end.
  db_simpl. eexists. split; [eassumption|]. split; [reflexivity|].
  destruct (StockAdjustRequest.buying_price payload),
    (StockAdjustRequest.selling_price payload); repeat split.
Qed.

Lemma adjust_stock_books stock_id payload u db v db' s p :
  request (adjust_stock stock_id payload u) db = (Ok v, db') ->
  on_hand s p db' - on_hand s p db = booked s p db' - booked s p db.
Proof.
  destruct v as [k row']. intros E.
  kept DB.sales E. kept DB.sale_returns E. kept DB.purchases E.
  apply adjust_stock_record in E as (row & Hrow & Hst & Hs & Hp & Hq & Hadj).
  unfold on_hand, booked. rewrite Hkeep, Hkeep0, Hkeep1, Hadj, Hst.
  rewrite sum_snoc.
  rewrite (total_insert _ _ _ _ _ Hrow).
  books_done.
Qed.

Lemma create_sale_record payload u db sale_id sale db' :
  request (create_sale payload u) db = (Ok (sale_id, sale), db') ->
  Sale.shop_id sale = SaleCreateRequest.shop_id payload /\
  Sale.product_id sale = SaleCreateRequest.product_id payload /\
  Sale.sold_by_user_id sale = Some (User.id u).
Proof.
  intros H. apply request_Ok in H as (s' & E & ->).
  unfold create_sale in E. tx_run E. repeat split.
Qed.

Lemma create_sale_books payload u db v db' s p :
  request (create_sale payload u) db = (Ok v, db') ->
  on_hand s p db' - on_hand s p db = booked s p db' - booked s p db.
Proof.
  destruct v as [k sale]. intros E.
  pose proof (create_sale_record _ _ _ _ _ _ E) as (Hshop & Hproduct & _).
  apply create_sale_Ok in E
    as (stock & row & Hsel & Hrow & _ & -> & Hq & _ & _ & _ & _ & _ & ->).
  apply select_stock_row in Hsel as (row0 & Hrow0 & Hs0 & Hp0).
  assert (row0 = row) as -> by congruence.
  unfold on_hand, booked. db_simpl.
  rewrite (total_insert _ _ _ _ _ Hrow).
  rewrite (total_insert_new _ (DB.sales db)) by apply fresh_id_fresh.
  books_done.
Qed.

(** The return that [create_sale_return] records. *)
Lemma create_sale_return_record sale_id payload u db ret db' :
  request (create_sale_return sale_id payload u) db = (Ok ret, db') ->
  exists sale,
    DB.sales db !! sale_id = Some sale /\
    let quantity := Decimal.of_int (SaleReturnCreateRequest.quantity payload) in
    ret = SaleReturn.mk sale_id (Sale.shop_id sale) (Sale.product_id sale)
            (Some (User.id u)) (SaleReturnCreateRequest.quantity payload)
            (Sale.unit_buying_price sale) (Sale.unit_selling_price sale)
            (Sale.unit_selling_price sale * quantity)%Q
            (Sale.unit_buying_price sale * quantity)%Q
            (Sale.unit_selling_price sale * quantity
             - Sale.unit_buying_price sale * quantity)%Q
            (SaleReturnCreateRequest.restock payload).
Proof.
  intros H. apply request_Ok in H as (s' & E & ->).
  unfold create_sale_return in E. tx_run E.
  eexists. split; [eassumption|]. reflexivity.
Qed.

Lemma create_sale_return_books sale_id payload u db v db' s p :
  request (create_sale_return sale_id payload u) db = (Ok v, db') ->
  on_hand s p db' - on_hand s p db = booked s p db' - booked s p db.
Proof.
  intros E.
  kept DB.stock_adjustments E.
  pose proof (create_sale_return_record _ _ _ _ _ _ E) as (sale0 & Hsale0 & Hret).
  apply create_sale_return_Ok in E
    as (sale & Hsale & _ & _ & _ & Hsales & Hrets & Hpu & _ & Hst).
  assert (sale0 = sale) as -> by congruence. cbv zeta in Hret. subst v.
  unfold on_hand, booked. rewrite Hkeep, Hsales, Hrets, Hpu, sum_snoc.
  destruct (SaleReturnCreateRequest.restock payload).
  - destruct (select_first _ (DB.stocks db)) eqn:Esel.
    + destruct Hst as (row & Hrow & ->).
      apply select_stock_row in Esel as (row0 & Hrow0 & Hs0 & Hp0).
      assert (row0 = row) as -> by congruence.
      rewrite (total_insert _ _ _ _ _ Hrow). books_done.
    + rewrite Hst, total_insert_new by apply fresh_id_fresh. books_done.
  - rewrite Hst. books_done.
Qed.

Lemma serve_books r db s p :
  bookkeeping r = true ->
  on_hand s p (snd (serve r db)) - on_hand s p db
  = booked s p (snd (serve r db)) - booked s p db.
Proof.
  intros Hr. unfold serve. destruct (validated r); [|cbn [snd]; lia].
  destruct r; try discriminate Hr; cbn [route outcome snd];
    match goal with
    | |- context [request ?m db] => destruct (request m db) as [[v|e] db'] eqn:E; cbn [snd]
    end.
  - eapply create_purchase_books, E.
  - apply request_atomic in E as ->; [lia | apply create_purchase_atomic].
  - eapply update_purchase_books, E.
  - apply request_atomic in E as ->; [lia | apply update_purchase_atomic].
  - eapply delete_purchase_books, E.
  - apply request_atomic in E as ->; [lia | apply delete_purchase_atomic].
  - eapply adjust_stock_books, E.
  - apply request_atomic in E as ->; [lia | apply adjust_stock_atomic].
  - eapply create_sale_books, E.
  - apply request_atomic in E as ->; [lia | apply create_sale_atomic].
  - eapply create_sale_return_books, E.
  - apply request_atomic in E as ->; [lia | apply create_sale_return_atomic].
Qed.

(** X18.  Stock and ledgers move together.  Over any sequence of purchases
    (recorded, edited, deleted), sales, returns and adjustments, refused or
    not, the units of a product that the stock of a shop holds change by
    exactly what the ledgers account for: the units purchased, less the units
    sold, plus the units returned to stock, plus the adjustments.  So a stock
    that agrees with its ledgers goes on agreeing with them, until a stock row
    is written or deleted directly or a transfer moves it. *)
Theorem stock_moves_with_the_books (rs : list Request) (db : DB.t) (shop_id product_id : Z) :
  forallb bookkeeping rs = true ->
  on_hand shop_id product_id (serve_all rs db) - on_hand shop_id product_id db
  = booked shop_id product_id (serve_all rs db) - booked shop_id product_id db.
Proof.
  revert db. unfold serve_all.
  induction rs as [|r rs IH]; intros db Hrs; cbn [foldl]; [lia|].
  cbn [forallb] in Hrs. apply andb_true_iff in Hrs as [Hr Hrs].
  pose proof (IH (snd (serve r db)) Hrs) as H1.
  pose proof (serve_books r db shop_id product_id Hr) as H2.
  lia.
Qed.

Lemma stock_moves_with_the_books_witness :
  let rs :=
    [ POST_purchases (PurchaseCreate.mk 1 7 None None 20 12 None) owner;
      POST_sales (SaleCreateRequest.mk 1 7 30 None) owner;
      POST_sales_returns 1 (SaleReturnCreateRequest.mk 5 true) owner;
      POST_sales_returns 1 (SaleReturnCreateRequest.mk 2 false) owner;
      POST_stocks_adjust 1 (StockAdjustRequest.mk (-3) None None) owner;
      PATCH_purchases 1 (PurchaseUpdate.mk None None (Some 25) None None) owner;
      POST_sales (SaleCreateRequest.mk 1 7 500 None) owner ] in
  on_hand 1 7 (serve_all rs example_db) = 97 /\
  booked 1 7 (serve_all rs example_db) = -3 /\
  on_hand 1 7 (serve_all rs example_db) - on_hand 1 7 example_db
  = booked 1 7 (serve_all rs example_db) - booked 1 7 example_db.
Proof.
  intros rs. split; [vm_compute; reflexivity|]. split; [vm_compute; reflexivity|].
  apply (stock_moves_with_the_books rs example_db 1 7). reflexivity.
Defined.

(** ** Refunds *)

Lemma priced_from_sale_grows db db' ret :
  ledger_grows db db' -> priced_from_sale db ret -> priced_from_sale db' ret.
Proof.
  intros [Hsales _] (sale & Hsale & H). exists sale. split; [apply Hsales, Hsale | exact H].
Qed.

Lemma serve_returns_priced r db : returns_priced db -> returns_priced (snd (serve r db)).
Proof.
  intros Hdb. unfold returns_priced.
  pose proof (serve_ledger_grows r db) as Hgrow.
  assert (Hold : Forall (priced_from_sale (snd (serve r db))) (DB.sale_returns db)).
  { eapply Forall_impl; [exact Hdb|]. intros ret. apply priced_from_sale_grows, Hgrow. }
  pose proof (serve_keeps_sales r db) as Hkeep.
  unfold sales_ledger in Hkeep.
  destruct r; cbn beta iota in Hkeep;
    try (match goal with
         | |- Forall _ (DB.sale_returns ?d) =>
             replace (DB.sale_returns d) with (DB.sale_returns db)
               by (symmetry; exact (f_equal snd Hkeep))
         end; exact Hold);
    clear Hkeep;
    unfold serve in *; (destruct (validated _); [|exact Hold]);
    cbn [route outcome snd] in *;
    match goal with
    | |- context [request ?m db] => destruct (request m db) as [[v|e] db'] eqn:E; cbn [snd] in *
    end.
  - destruct v as [sale_id sale].
    apply create_sale_Ok in E
      as (stock & row & _ & _ & _ & _ & _ & _ & _ & _ & _ & _ & ->).
    exact Hold.
  - apply request_atomic in E as ->; [exact Hold | apply create_sale_atomic].
  - pose proof (create_sale_return_record _ _ _ _ _ _ E) as (sale & Hsale & Hret).
    apply create_sale_return_Ok in E as (_ & _ & _ & _ & _ & Hsales & -> & _).
    apply Forall_app. split; [exact Hold|].
    apply Forall_singleton. exists sale. cbv zeta in Hret. subst v.
    cbn [SaleReturn.sale_id SaleReturn.shop_id SaleReturn.product_id SaleReturn.quantity
         SaleReturn.refund_amount SaleReturn.cost_reversed SaleReturn.profit_reversed].
    rewrite Hsales. unfold Decimal.of_int. repeat split; try reflexivity. exact Hsale.
  - apply request_atomic in E as ->; [exact Hold | apply create_sale_return_atomic].
Qed.

Lemma serve_all_returns_priced rs :
  forall db, returns_priced db -> returns_priced (serve_all rs db).
Proof.
  unfold serve_all. induction rs as [|r rs IH]; intros db H; [exact H|].
  cbn [foldl]. apply IH, serve_returns_priced, H.
Qed.

Lemma reversed_total_priced db k sale returns :
  Forall (priced_from_sale db) returns ->
  DB.sales db !! k = Some sale ->
  (reversed_total SaleReturn.refund_amount k returns
   == Sale.unit_selling_price sale * inject_Z (returned_quantity k returns))%Q /\
  (reversed_total SaleReturn.cost_reversed k returns
   == Sale.unit_buying_price sale * inject_Z (returned_quantity k returns))%Q /\
  (reversed_total SaleReturn.profit_reversed k returns
   == reversed_total SaleReturn.refund_amount k returns
      - reversed_total SaleReturn.cost_reversed k returns)%Q.
Proof.
  intros Hall Hsale. unfold reversed_total, returned_quantity.
  induction Hall as [|ret returns Hret _ IH]; cbn [List.filter].
  { cbn [fmap list_fmap foldr]. change (inject_Z 0) with 0%Q. repeat split; ring. }
  destruct IH as (IH1 & IH2 & IH3).
  destruct (Z.eqb_spec (SaleReturn.sale_id ret) k) as [Hk|Hk]; [|auto].
  destruct Hret as (sale' & Hsale' & _ & _ & H1 & H2 & H3).
  rewrite Hk, Hsale in Hsale'. injection Hsale' as <-.
  cbn [fmap list_fmap foldr].
  change (list_fmap ?A ?B ?f ?l) with (f <$> l) in *.
  split; [|split].
  - rewrite inject_Z_plus, IH1, H1. ring.
  - rewrite inject_Z_plus, IH2, H2. ring.
  - rewrite IH3, H3. ring.
Qed.

(** X19.  The money of the returns follows the sale.  Whatever the requests,
    every return on record is a return of a recorded sale, for its shop and
    product, refunded at the unit selling price of the sale and reversing its
    unit buying price; so the refunds of a sale add up to its unit selling
    price times the units returned, the reversed cost to its unit buying price
    times the units returned, and the reversed profit to the difference of
    the two. *)
Theorem refunds_follow_the_sale (rs : list Request) (db : DB.t) :
  returns_priced db ->
  returns_priced (serve_all rs db) /\
  forall k sale,
    DB.sales (serve_all rs db) !! k = Some sale ->
    let returns := DB.sale_returns (serve_all rs db) in
    (reversed_total SaleReturn.refund_amount k returns
     == Sale.unit_selling_price sale * inject_Z (returned_quantity k returns))%Q /\
    (reversed_total SaleReturn.cost_reversed k returns
     == Sale.unit_buying_price sale * inject_Z (returned_quantity k returns))%Q /\
    (reversed_total SaleReturn.profit_reversed k returns
     == reversed_total SaleReturn.refund_amount k returns
        - reversed_total SaleReturn.cost_reversed k returns)%Q.
Proof.
  intros Hdb. pose proof (serve_all_returns_priced rs db Hdb) as H.
  split; [exact H|]. intros k sale Hsale returns.
  eapply reversed_total_priced; [exact H | exact Hsale].
Qed.

Lemma refunds_follow_the_sale_witness :
  let rs :=
    [ POST_sales (SaleCreateRequest.mk 1 7 30 (Some 16%Q)) owner;
      POST_sales_returns 1 (SaleReturnCreateRequest.mk 5 true) owner;
      POST_stocks_adjust 1 (StockAdjustRequest.mk 0 (Some 11%Q) (Some 17%Q)) owner;
      POST_sales_returns 1 (SaleReturnCreateRequest.mk 2 false) owner ] in
  returned_quantity 1 (DB.sale_returns (serve_all rs example_db)) = 7 /\
  (reversed_total SaleReturn.refund_amount 1 (DB.sale_returns (serve_all rs example_db))
   == 16 * 7)%Q /\
  (reversed_total SaleReturn.profit_reversed 1 (DB.sale_returns (serve_all rs example_db))
   == (16 - 10) * 7)%Q.
Proof.
  intros rs.
  assert (Hsale : exists sale,
            DB.sales (serve_all rs example_db) !! 1 = Some sale /\
            Sale.unit_selling_price sale = 16%Q /\ Sale.unit_buying_price sale = 10%Q).
  { eexists. split; [vm_compute; reflexivity|]. split; reflexivity. }
  destruct Hsale as (sale & Hsale & Hsell & Hbuy).
  assert (Hq : returned_quantity 1 (DB.sale_returns (serve_all rs example_db)) = 7)
    by (vm_compute; reflexivity).
  destruct (refunds_follow_the_sale rs example_db) as [_ H]; [constructor|].
  destruct (H 1 sale Hsale) as (H1 & H2 & H3).
  split; [exact Hq|].
  rewrite H3, H1, H2, Hq, Hsell, Hbuy. split; [reflexivity | ring].
Defined.

(** ** The PDF export *)

Section SimplePdf.
Local Open Scope list_scope.

Lemma is_ascii_app a b : is_ascii a -> is_ascii b -> is_ascii (a ++ b).
Proof. intros Ha Hb. apply Forall_app. split; assumption. Qed.

Lemma pretty_N_char_ascii x : (N_of_ascii (pretty_N_char x) < 128)%N.
Proof. unfold pretty_N_char. repeat case_match; vm_compute; reflexivity. Qed.

Lemma pretty_N_go_ascii x :
  forall s, is_ascii (lit s) -> is_ascii (lit (pretty_N_go x s)).
Proof.
  induction (N.lt_wf_0 x) as [x _ IH]. intros s Hs.
  destruct (decide (x = 0%N)) as [->|Hx]; [rewrite pretty_N_go_0; exact Hs|].
  rewrite pretty_N_go_step by lia. apply IH.
  - apply N.div_lt; lia.
  - apply Forall_cons. split; [apply pretty_N_char_ascii | exact Hs].
Qed.

Lemma pretty_N_ascii (x : N) : is_ascii (lit (pretty x)).
Proof.
  unfold pretty, pretty_N. destruct (decide (x = 0%N)).
  - repeat constructor.
  - apply pretty_N_go_ascii. constructor.
Qed.

Lemma lit_app a b : lit (a +:+ b) = lit a ++ lit b.
Proof.
  unfold lit. induction a as [|c a IH]; [reflexivity|].
  change (String c a +:+ b) with (String c (a +:+ b)).
  cbn [list_ascii_of_string]. rewrite !fmap_cons, IH. reflexivity.
Qed.

Lemma str_of_int_ascii n : is_ascii (str_of_int n).
Proof.
  unfold str_of_int, pretty, pretty_Z. destruct n as [|p|p].
  - repeat constructor.
  - apply pretty_N_ascii.
  - rewrite lit_app. apply is_ascii_app; [repeat constructor | apply pretty_N_ascii].
Qed.

Lemma format_010d_ascii n : is_ascii (format_010d n).
Proof.
  unfold format_010d. repeat apply is_ascii_app.
  - destruct (n <? 0); repeat constructor.
  - apply Forall_replicate. reflexivity.
  - apply str_of_int_ascii.
Qed.

Lemma encode_ascii_app a b a' b' :
  encode_ascii a = Some a' -> encode_ascii b = Some b' ->
  encode_ascii (a ++ b) = Some (a' ++ b').
Proof.
  unfold encode_ascii. intros Ha Hb.
  apply mapM_Some in Ha, Hb. apply mapM_Some. apply Forall2_app; assumption.
Qed.

Lemma encode_ascii_Some text :
  is_ascii text -> exists b, encode_ascii text = Some b /\ length b = length text.
Proof.
  intros Ha.
  assert (Hsome : is_Some (encode_ascii text)).
  { apply mapM_is_Some. eapply Forall_impl; [exact Ha|].
    intros c Hc. cbn in *. rewrite (proj2 (N.ltb_lt c 128) Hc).
    destruct (Byte.of_N c) eqn:E; [eauto|].
    apply Byte.of_N_None_iff in E. lia. }
  destruct Hsome as [b Hb]. exists b. split; [exact Hb|].
  symmetry. eapply length_mapM, Hb.
Qed.

Lemma object_text_ascii i : is_ascii (object_text i).
Proof.
  unfold object_text. apply is_ascii_app; [apply str_of_int_ascii | repeat constructor].
Qed.

Lemma write_xref_spec positions :
  forall out, exists entries,
    write_xref positions out = Some (out ++ entries) /\
    encode_ascii (pos ← positions; format_010d pos ++ lit " 00000 n " ++ [LF])
    = Some entries.
Proof.
  induction positions as [|pos positions IH]; intros out; cbn [write_xref].
  { exists []. rewrite app_nil_r. split; reflexivity. }
  destruct (encode_ascii_Some (format_010d pos ++ lit " 00000 n " ++ [LF]))
    as (entry & Hentry & _).
  { apply is_ascii_app; [apply format_010d_ascii | repeat constructor]. }
  rewrite Hentry. cbn [mbind option_bind].
  destruct (IH (out ++ entry)) as (entries & Hw & He).
  exists (entry ++ entries). rewrite Hw, <- app_assoc. split; [reflexivity|].
  change (pos0 ← pos :: positions; format_010d pos0 ++ lit " 00000 n " ++ [LF])
    with ((format_010d pos ++ lit " 00000 n " ++ [LF])
          ++ (pos0 ← positions; format_010d pos0 ++ lit " 00000 n " ++ [LF])).
  apply encode_ascii_app; assumption.
Qed.

Lemma write_objects_spec objects :
  forall i out positions, exists rest new,
    write_objects i objects out positions = Some (out ++ rest, positions ++ new) /\
    length new = length objects /\
    forall j pos obj,
      new !! j = Some pos -> objects !! j = Some obj ->
      exists header,
        encode_ascii (object_text (i + Z.of_nat j)) = Some header /\
        at_offset pos (header ++ obj ++ Byte.x0a :: blit "endobj" ++ [Byte.x0a])
          (out ++ rest).
Proof.
  induction objects as [|obj objects IH]; intros i out positions; cbn [write_objects].
  { exists [], []. rewrite !app_nil_r. split; [reflexivity|]. split; [reflexivity|].
    intros j pos obj H. rewrite lookup_nil in H. discriminate. }
  destruct (encode_ascii_Some (object_text i) (object_text_ascii i)) as (header & Hh & _).
  fold (object_text i). rewrite Hh. cbn [mbind option_bind].
  set (piece := header ++ obj ++ Byte.x0a :: blit "endobj" ++ [Byte.x0a]).
  replace (((out ++ header) ++ obj) ++ Byte.x0a :: blit "endobj" ++ [Byte.x0a])
    with (out ++ piece) by (unfold piece; rewrite <- !app_assoc; reflexivity).
  destruct (IH (i + 1) (out ++ piece) (positions ++ [Z.of_nat (length out)]))
    as (rest & new & Hw & Hlen & Hat).
  exists (piece ++ rest), (Z.of_nat (length out) :: new).
  rewrite Hw, <- !app_assoc. split; [reflexivity|].
  split; [cbn [length]; rewrite Hlen; reflexivity|].
  intros [|j] pos obj' Hpos Hobj; cbn in Hpos, Hobj.
  - injection Hpos as <-. injection Hobj as <-.
    exists header. rewrite Z.add_0_r. split; [exact Hh|].
    exists out, rest. split; reflexivity.
  - destruct (Hat j pos obj' Hpos Hobj) as (header' & Hh' & Hat').
    exists header'. split.
    + rewrite <- Hh'. f_equal. f_equal. lia.
    + rewrite <- app_assoc in Hat'. exact Hat'.
Qed.

Lemma at_offset_app pos piece out more :
  at_offset pos piece out -> at_offset pos piece (out ++ more).
Proof.
  intros (before & after & -> & Hpos). exists before, (after ++ more).
  rewrite <- !app_assoc. split; [reflexivity | exact Hpos].
Qed.

Lemma at_offset_prefix pos piece more out :
  at_offset pos (piece ++ more) out -> at_offset pos piece out.
Proof.
  intros (before & after & -> & Hpos). exists before, (more ++ after).
  rewrite <- !app_assoc. split; [reflexivity | exact Hpos].
Qed.

(** X20.  The PDF that [_simple_pdf] writes is cross-referenced correctly,
    whatever the lines.  No encoding step raises.  The file starts with the
    header, and ends with a cross-reference table and a trailer whose
    [startxref] is the offset at which the table starts; the table lists five
    objects, and entry [i] is the offset at which the line [i 0 obj] of
    object [i] stands.  Object 4 is the page text, encoded, between [stream]
    and [endstream], and its [/Length] is the number of bytes of that
    stream. *)
Theorem simple_pdf_is_cross_referenced (lines : list str) :
  let stream := encode_latin_1_replace (page_text lines) in
  exists out body tail positions,
    _simple_pdf lines = Some out /\
    out = body ++ tail /\
    at_offset 0 (blit "%PDF-1.4" ++ [Byte.x0a]) out /\
    encode_ascii (xref_text positions (Z.of_nat (length body))) = Some tail /\
    length positions = 5%nat /\
    (forall i pos,
       positions !! i = Some pos ->
       exists header,
         encode_ascii (object_text (Z.of_nat i + 1)) = Some header /\
         at_offset pos header out) /\
    exists pos dict,
      positions !! 3%nat = Some pos /\
      encode_ascii
        (object_text 4 ++ lit "<< /Length " ++ str_of_int (Z.of_nat (length stream))
         ++ lit " >>" ++ [LF] ++ lit "stream" ++ [LF]) = Some dict /\
      at_offset pos
        (dict ++ stream ++ Byte.x0a :: blit "endstream" ++ Byte.x0a :: blit "endobj"
         ++ [Byte.x0a]) out.
Proof.
  intros stream. unfold _simple_pdf. fold (page_text lines). fold stream.
  destruct (encode_ascii_Some
              (lit "<< /Length " ++ str_of_int (Z.of_nat (length stream)) ++ lit " >>"
               ++ [LF] ++ lit "stream" ++ [LF])) as (length_line & Hll & _).
  { apply is_ascii_app; [repeat constructor|].
    apply is_ascii_app; [apply str_of_int_ascii | repeat constructor]. }
  rewrite Hll. cbn [mbind option_bind].
  match goal with
  | |- context [write_objects 1 ?objs ?o ?p] =>
      destruct (write_objects_spec objs 1 o p) as (rest & new & Hw & Hlen & Hat);
      set (objects := objs) in *; set (header := o) in *
  end.
  rewrite Hw. cbn [mbind option_bind length objects].
  assert (Hhead : encode_ascii (lit "xref" ++ [LF] ++ lit "0 6" ++ [LF])
                  = Some (blit "xref" ++ Byte.x0a :: blit "0 6" ++ [Byte.x0a]))
    by reflexivity.
  assert (Hzero : encode_ascii (lit "0000000000 65535 f " ++ [LF])
                  = Some (blit "0000000000 65535 f " ++ [Byte.x0a]))
    by reflexivity.
  set (head := blit "xref" ++ Byte.x0a :: blit "0 6" ++ [Byte.x0a]) in *.
  set (zero := blit "0000000000 65535 f " ++ [Byte.x0a]) in *.
  change (encode_ascii
            (lit "xref" ++ [LF] ++ lit "0 " ++ str_of_int (Z.of_nat 5 + 1) ++ [LF]))
    with (Some head).
  cbn [mbind option_bind]. change (list.tail ([0] ++ new)) with new.
  destruct (write_xref_spec new (((header ++ rest) ++ head) ++ zero))
    as (entries & Hx & Hentries).
  rewrite Hx. cbn [mbind option_bind]. clear Hx Hw.
  set (trailer_text :=
         lit "trailer" ++ [LF] ++ lit "<< /Size 6 /Root 1 0 R >>" ++ [LF]
         ++ lit "startxref" ++ [LF] ++ str_of_int (Z.of_nat (length (header ++ rest)))
         ++ [LF] ++ lit "%%EOF" ++ [LF]).
  destruct (encode_ascii_Some trailer_text) as (trailer & Htrailer & _).
  { unfold trailer_text. do 6 (apply is_ascii_app; [repeat constructor|]).
    apply is_ascii_app; [apply str_of_int_ascii | repeat constructor]. }
  change (encode_ascii
            (lit "trailer" ++ [LF] ++ lit "<< /Size " ++ str_of_int (Z.of_nat 5 + 1)
             ++ lit " /Root 1 0 R >>" ++ [LF] ++ lit "startxref" ++ [LF]
             ++ str_of_int (Z.of_nat (length (header ++ rest))) ++ [LF]
             ++ lit "%%EOF" ++ [LF]))
    with (encode_ascii trailer_text).
  rewrite Htrailer. cbn [mbind option_bind].
  exists (((((header ++ rest) ++ head) ++ zero) ++ entries) ++ trailer),
    (header ++ rest), (head ++ zero ++ entries ++ trailer), new.
  split; [reflexivity|]. split; [rewrite <- !app_assoc; reflexivity|].
  split.
  { exists [], (rest ++ head ++ zero ++ entries ++ trailer).
    rewrite <- !app_assoc. split; reflexivity. }
  split.
  { change (xref_text new (Z.of_nat (length (header ++ rest))))
      with ((lit "xref" ++ [LF] ++ lit "0 6" ++ [LF])
            ++ (lit "0000000000 65535 f " ++ [LF])
            ++ (pos ← new; format_010d pos ++ lit " 00000 n " ++ [LF])
            ++ trailer_text).
    apply encode_ascii_app; [exact Hhead|].
    apply encode_ascii_app; [exact Hzero|].
    apply encode_ascii_app; [exact Hentries | exact Htrailer]. }
  split; [exact Hlen|].
  assert (Hobj : forall j pos, new !! j = Some pos -> is_Some (objects !! j)).
  { intros j pos Hj. apply lookup_lt_is_Some_2. rewrite <- Hlen.
    eapply lookup_lt_Some, Hj. }
  assert (Hin : forall pos piece,
            at_offset pos piece (header ++ rest) ->
            at_offset pos piece
              (((((header ++ rest) ++ head) ++ zero) ++ entries) ++ trailer)).
  { intros pos piece H. do 4 apply at_offset_app. exact H. }
  split.
  - intros i pos Hpos. destruct (Hobj i pos Hpos) as [obj Hi].
    destruct (Hat i pos obj Hpos Hi) as (h & Hh & Hoff).
    exists h. rewrite Z.add_comm. split; [exact Hh|].
    eapply Hin, at_offset_prefix, Hoff.
  - destruct (lookup_lt_is_Some_2 new 3) as [pos Hpos]; [rewrite Hlen; cbn; lia|].
    destruct (Hat 3%nat pos _ Hpos eq_refl) as (h & Hh & Hoff).
    exists pos, (h ++ length_line). split; [exact Hpos|]. split.
    + apply encode_ascii_app; [exact Hh | exact Hll].
    + apply Hin.
      replace ((h ++ length_line) ++ stream ++ Byte.x0a :: blit "endstream"
               ++ Byte.x0a :: blit "endobj" ++ [Byte.x0a])
        with (h ++ (length_line ++ stream ++ Byte.x0a :: blit "endstream")
              ++ Byte.x0a :: blit "endobj" ++ [Byte.x0a]);
        [exact Hoff|].
      rewrite <- !app_assoc. reflexivity.
Qed.

Lemma esc_cons c line :
  esc (c :: line)
  = (if (c =? 92)%N || ((c =? 40)%N || (c =? 41)%N) then [92%N; c] else [c]) ++ esc line.
Proof.
  unfold esc, replace. cbn [mbind list_bind].
  change (N_of_ascii "\") with 92%N. change (N_of_ascii "(") with 40%N.
  change (N_of_ascii ")") with 41%N.
  destruct (N.eqb_spec c 92) as [->|H92]; [reflexivity|].
  destruct (N.eqb_spec c 40) as [->|H40]; [reflexivity|].
  destruct (N.eqb_spec c 41) as [->|H41]; [reflexivity|].
  cbn [app mbind list_bind].
  rewrite (proj2 (N.eqb_neq c 40) H40). cbn [app mbind list_bind].
  rewrite (proj2 (N.eqb_neq c 41) H41). reflexivity.
Qed.

Lemma unesc_esc line : unesc (esc line) = line.
Proof.
  induction line as [|c line IH]; [reflexivity|].
  rewrite esc_cons.
  destruct (N.eqb_spec c 92) as [->|H92].
  { change (92%N :: unesc (esc line) = 92%N :: line). rewrite IH. reflexivity. }
  cbn [orb]. destruct ((c =? 40)%N || (c =? 41)%N) eqn:E; cbn [orb app].
  - change (c :: unesc (esc line) = c :: line). rewrite IH. reflexivity.
  - cbn [unesc]. change (N_of_ascii "\") with 92%N.
    rewrite (proj2 (N.eqb_neq c 92) H92), IH. reflexivity.
Qed.

Lemma text_lines_spec lines :
  forall k,
    0 <= k <= 51 ->
    Z.of_nat (length (text_lines (780 - 14 * k) lines))
    = Z.min (Z.of_nat (length lines)) (52 - k) /\
    forall i line,
      Z.of_nat i < 52 - k -> lines !! i = Some line ->
      text_lines (780 - 14 * k) lines !! i
      = Some (lit "0 " ++ str_of_int (-20 - 14 * (k + Z.of_nat i)) ++ lit " Td ("
              ++ esc line ++ lit ") Tj").
Proof.
  induction lines as [|line0 lines IH]; intros k Hk; cbn [text_lines length]; cbv zeta.
  { split; [lia|]. intros i line _ H. rewrite lookup_nil in H. discriminate. }
  destruct (Z.ltb_spec (780 - 14 * k - 14) 60) as [Hstop|Hgo].
  - assert (k = 51) as -> by lia. split; [cbn [length]; lia|].
    intros [|i] line Hi Hline; [|lia].
    injection Hline as <-. reflexivity.
  - replace (780 - 14 * k - 14) with (780 - 14 * (k + 1)) by lia.
    destruct (IH (k + 1)) as [Hlen Hat]; [lia|]. split; [lia|].
    intros [|i] line Hi Hline; cbn [lookup list_lookup] in Hline |- *.
    + injection Hline as <-.
      replace (780 - 14 * k - 800) with (-20 - 14 * (k + Z.of_nat 0)) by lia.
      reflexivity.
    + replace (k + Z.of_nat (S i)) with (k + 1 + Z.of_nat i) by lia.
      apply Hat; [lia | exact Hline].
Qed.

Lemma length_encode_latin_1_replace text :
  length (encode_latin_1_replace text) = length text.
Proof. unfold encode_latin_1_replace. apply length_fmap. Qed.

(** X21.  The page of the PDF shows the first 52 lines and no more, line [i]
    (from 0) moved down by [20 + 14 i]; what is written between the
    parentheses of a text line reads back, escapes undone, as the line itself,
    whatever backslashes and parentheses it holds; and the stream holds one
    byte for each character of the page text, the character itself when it is
    in Latin-1 and a question mark otherwise. *)
Theorem pdf_page_shows_the_first_lines (lines : list str) :
  Z.of_nat (length (text_lines 780 lines)) = Z.min (Z.of_nat (length lines)) 52 /\
  (forall i line,
     (i < 52)%nat -> lines !! i = Some line ->
     text_lines 780 lines !! i
     = Some (lit "0 " ++ str_of_int (-20 - 14 * Z.of_nat i) ++ lit " Td ("
             ++ esc line ++ lit ") Tj")) /\
  (forall line, unesc (esc line) = line) /\
  length (encode_latin_1_replace (page_text lines)) = length (page_text lines) /\
  forall i c,
    page_text lines !! i = Some c ->
    Byte.to_N <$> encode_latin_1_replace (page_text lines) !! i
    = Some (if (c <? 256)%N then c else N_of_ascii "?").
Proof.
  destruct (text_lines_spec lines 0) as [Hlen Hat]; [lia|].
  split; [exact Hlen|]. split.
  { intros i line Hi Hline. apply (Hat i line); [lia | exact Hline]. }
  split; [exact unesc_esc|].
  split; [apply length_encode_latin_1_replace|].
  intros i c Hc. unfold encode_latin_1_replace. unfold bytes, str in *.
  rewrite list_lookup_fmap, Hc. cbn [fmap option_fmap option_map]. f_equal.
  destruct (Byte.of_N c) as [b|] eqn:E; cbn [default from_option id].
  - apply Byte.to_of_N in E. subst c.
    pose proof (Byte.to_N_bounded b) as Hb.
    destruct (N.ltb_spec (Byte.to_N b) 256); [reflexivity | lia].
  - apply Byte.of_N_None_iff in E.
    destruct (N.ltb_spec c 256); [lia | reflexivity].
Qed.

End SimplePdf.

(** ** All or nothing *)

Lemma archive_shop_atomic k : atomic (archive_shop k).
Proof. unfold archive_shop. solve_atomic. Qed.

Lemma activate_shop_atomic k : atomic (activate_shop k).
Proof. unfold activate_shop. solve_atomic. Qed.

Lemma archive_product_atomic k u : atomic (archive_product k u).
Proof. unfold archive_product. solve_atomic. Qed.

Lemma activate_product_atomic k u : atomic (activate_product k u).
Proof. unfold activate_product. solve_atomic. Qed.

Lemma archive_supplier_atomic k u : atomic (archive_supplier k u).
Proof. unfold archive_supplier. solve_atomic. Qed.

Lemma activate_supplier_atomic k u : atomic (activate_supplier k u).
Proof. unfold activate_supplier. solve_atomic. Qed.

(** X22.  All or nothing.  A request that is answered with an error has
    changed nothing in the database, whichever the route and wherever in it
    the error arises: in the permission check, in the validation of the body,
    in a guard, halfway through a reversal, or in the commit.  The same holds
    for the requests that archive and activate shops, products and
    suppliers. *)
Theorem refused_requests_change_nothing :
  (forall r db e, fst (endpoint r db) = Some e -> snd (endpoint r db) = db) /\
  (forall k db e db', request (archive_shop k) db = (Raise e, db') -> db' = db) /\
  (forall k db e db', request (activate_shop k) db = (Raise e, db') -> db' = db) /\
  (forall k u db e db', request (archive_product k u) db = (Raise e, db') -> db' = db) /\
  (forall k u db e db', request (activate_product k u) db = (Raise e, db') -> db' = db) /\
  (forall k u db e db', request (archive_supplier k u) db = (Raise e, db') -> db' = db) /\
  (forall k u db e db', request (activate_supplier k u) db = (Raise e, db') -> db' = db).
Proof.
  split.
  { intros r db e. unfold endpoint.
    destruct (dependency r (user_of r)); [apply serve_atomic | reflexivity]. }
  repeat split; intros; eapply request_atomic; try eassumption.
  - apply archive_shop_atomic.
  - apply activate_shop_atomic.
  - apply archive_product_atomic.
  - apply activate_product_atomic.
  - apply archive_supplier_atomic.
  - apply activate_supplier_atomic.
Qed.

Lemma refused_requests_change_nothing_witness :
  let edit := PATCH_purchases 1 (PurchaseUpdate.mk None None (Some 1) None None) owner in
  let db1 :=
    serve_all
      [ POST_purchases (PurchaseCreate.mk 1 7 None None 20 12 None) owner;
        POST_sales (SaleCreateRequest.mk 1 7 110 None) owner ] example_db in
  fst (endpoint edit db1)
  = Some (HTTPException HTTP_409_CONFLICT
            "Cannot modify purchase because purchased stock has already been consumed") /\
  snd (endpoint edit db1) = db1.
Proof.
  intros edit db1.
  assert (H : fst (endpoint edit db1)
              = Some (HTTPException HTTP_409_CONFLICT
                        "Cannot modify purchase because purchased stock has already been consumed"))
    by (vm_compute; reflexivity).
  split; [exact H|].
  exact (proj1 refused_requests_change_nothing edit db1 _ H).
Defined.
